(** * Pilot bootstrap server and Envoy hot-restart agent

    A shallow embedding of [pkg/envoy/agent.go] (package [envoy]) and of the
    Pilot bootstrap [Server] (package [bootstrap]), followed by the
    properties of the two that the specification states.

    Conventions.
    - A Go [int] is a 64-bit two's-complement integer, carried as a [Z]
      with the wrap-around of [++] written out ([wrap_int]).
    - A [time.Duration] is the number of nanoseconds, as in Go.
    - A Go [error] is carried by its message ([string]); [nil] is [None].
    - A value of type [interface{}] is [None] for the nil interface and
      [Some v] otherwise.
    - Calls that leave the goroutine (the proxy, timers, channels, the
      logger, the discovery server) are recorded as a trace of effects in
      program order. *)

From Stdlib Require Import ZArith Lia Sorted.
From stdpp Require Import gmap strings list fin_maps.

Local Open Scope Z_scope.
#[local] Set Warnings "-register-all".

(* ===================================================================== *)
(** * Package [envoy]: the proxy agent                                    *)
(* ===================================================================== *)
Module envoy.

(** ** Machine integers and durations *)

Definition int_max : Z := 2 ^ 63 - 1.

(** The value a 64-bit signed integer holds after arithmetic yields [z]. *)
Definition wrap_int (z : Z) : Z := (z + 2 ^ 63) mod 2 ^ 64 - 2 ^ 63.

Definition Duration : Type := Z.
Definition Millisecond : Duration := 1000000.
Definition Second : Duration := 1000000000.

Definition error : Type := string.

(** [var errAbort = errors.New("epoch aborted")] *)
Definition errAbort : error := "epoch aborted"%string.

(** [const errOutOfMemory = "signal: killed"] *)
Definition errOutOfMemory : string := "signal: killed"%string.

(** A channel made by [make(chan error, 1)], named by its allocation
    number: two calls of [make] never give the same channel. *)
Definition chan : Type := nat.

(** ** Configurations

    The agent takes its configuration as an [interface{}] and compares two
    of them with [reflect.DeepEqual].  The dynamic values and their deep
    equality are parameters; [DrainConfig] is the value [DrainConfig{}]. *)
Class ConfigModel : Type := {
  Config : Type;
  deepEqualValue : Config -> Config -> bool;
  DrainConfig : Config
}.

(** [reflect.DeepEqual] on two interfaces: a nil interface is deeply equal
    to a nil interface only. *)
Definition DeepEqual `{ConfigModel} (x y : option Config) : bool :=
  match x, y with
  | None, None => true
  | Some a, Some b => deepEqualValue a b
  | _, _ => false
  end.

(** ** Effects *)

Inductive Effect `{ConfigModel} : Type :=
| NewTicker (d : Duration)            (* time.NewTicker(d) *)
| NewTimer (d : Duration)             (* time.NewTimer(d) *)
| CallIsLive (at_ : Duration) (live : bool)
                                      (* a.proxy.IsLive(), [at_] after the wait began *)
| TimerFired (at_ : Duration)         (* case <-timer.C *)
| StopTicker                          (* interval.Stop() *)
| StopTimer                           (* timer.Stop() *)
| GoRunWait (config : option Config) (epoch : Z) (abortCh : chan)
                                      (* go a.runWait(config, epoch, abortCh) *)
| Sleep (d : Duration)                (* time.Sleep(d) *)
| Send (abortCh : chan) (err : error) (* abortCh <- err *).

(** What the world does while one call of [waitUntilLive] runs: the answer
    of [proxy.IsLive()] as a function of the time elapsed since the wait
    began, and which case [select] takes when the timer and the ticker are
    both ready (Go picks one of the ready cases at random).  The calls
    themselves take no time, and no tick is dropped. *)
Record ProxyEnv : Type := {
  IsLive : Duration -> bool;
  timerWins : bool
}.

(** ** The agent *)

Record agent `{ConfigModel} : Type := mkAgent {
  activeEpochs : gmap Z chan;
  currentEpoch : Z;
  currentConfig : option Config;
  terminationDrainDuration : Duration;
  (** number of channels made so far: the allocator behind [make] *)
  chansMade : nat
}.

Record exitStatus : Type := {
  epoch : Z;
  err : option error
}.

(** [NewAgent(proxy, terminationDrainDuration)] *)
Definition NewAgent `{ConfigModel} (terminationDrainDuration : Duration) : agent :=
  {| activeEpochs := ∅;
     currentEpoch := -1;
     currentConfig := None;
     terminationDrainDuration := terminationDrainDuration;
     chansMade := 0%nat |}.

(** The instants at which [interval.C] delivers a tick up to the moment the
    timer fires. *)
Definition tickTimes (interval timeout : Duration) : list Duration :=
  (fun k : nat => Z.of_nat k * interval) <$> seq 1 (Z.to_nat (timeout / interval)).

(** The [for { select { ... } }] loop of [waitUntilLive]: one iteration per
    tick; when no tick is left before the timer, the timer case runs. *)
Fixpoint selectLoop `{ConfigModel} (p : ProxyEnv) (timeout : Duration)
    (ticks : list Duration) : list Effect :=
  match ticks with
  | [] => [TimerFired timeout]
  | t :: rest =>
      if (t =? timeout) && timerWins p then [TimerFired timeout]
      else if IsLive p t then [CallIsLive t true]
      else CallIsLive t false :: selectLoop p timeout rest
  end.

Definition liveCheckInterval : Duration := 500 * Millisecond.
Definition liveTimeout : Duration := 20 * Second.

(** [func (a *agent) waitUntilLive()] *)
Definition waitUntilLive `{ConfigModel} (p : ProxyEnv) (a : agent) : list Effect :=
  if bool_decide (size (activeEpochs a) = 0%nat) then []
  else
    [NewTicker liveCheckInterval; NewTimer liveTimeout]
    ++ (if IsLive p 0 then [CallIsLive 0 true]
        else CallIsLive 0 false
               :: selectLoop p liveTimeout (tickTimes liveCheckInterval liveTimeout))
    ++ [StopTicker; StopTimer].

(** [func (a *agent) Restart(config interface{})], run under [a.mu]. *)
Definition Restart `{ConfigModel} (config : option Config) (p : ProxyEnv) (a : agent)
    : agent * list Effect :=
  if DeepEqual (currentConfig a) config then (a, [])
  else
    let waited := waitUntilLive p a in
    let epoch := wrap_int (currentEpoch a + 1) in
    let abortCh := chansMade a in
    ({| activeEpochs := <[epoch := abortCh]> (activeEpochs a);
        currentEpoch := epoch;
        currentConfig := config;
        terminationDrainDuration := terminationDrainDuration a;
        chansMade := S (chansMade a) |},
     waited ++ [GoRunWait config epoch abortCh]).

(** [func (a *agent) abortAll()]: one send per entry of the map, in the
    order the iteration yields them.  Each abort channel has room for one
    error and nothing else sends on it, so no send blocks. *)
Definition abortAll `{ConfigModel} (a : agent) : list Effect :=
  (fun kv : Z * chan => Send kv.2 errAbort) <$> map_to_list (activeEpochs a).

(** [func (a *agent) terminate()] *)
Definition terminate `{ConfigModel} (p : ProxyEnv) (a : agent) : agent * list Effect :=
  let '(a1, restarted) := Restart (Some DrainConfig) p a in
  (a1, restarted ++ [Sleep (terminationDrainDuration a1)] ++ abortAll a1).

(** The [case status := <-a.statusCh] arm of [Run]: the epoch leaves the
    active set; the flag tells whether [Run] returns. *)
Definition onStatus `{ConfigModel} (status : exitStatus) (a : agent) : agent * bool :=
  let active := delete (epoch status) (activeEpochs a) in
  ({| activeEpochs := active;
      currentEpoch := currentEpoch a;
      currentConfig := currentConfig a;
      terminationDrainDuration := terminationDrainDuration a;
      chansMade := chansMade a |},
   bool_decide (size active = 0%nat)).

(** What the [select] of [Run] receives: a proxy exit on [a.statusCh], or
    the cancellation of the context. *)
Inductive RunEvent : Type :=
| StatusReceived (status : exitStatus)
| ContextDone (p : ProxyEnv).

(** [func (a *agent) Run(ctx context.Context) error], over the events it
    receives; the flag tells whether [Run] has returned. *)
Fixpoint Run `{ConfigModel} (events : list RunEvent) (a : agent)
    : agent * list Effect * bool :=
  match events with
  | [] => (a, [], false)
  | StatusReceived status :: rest =>
      let '(a1, finished) := onStatus status a in
      if finished then (a1, [], true) else Run rest a1
  | ContextDone p :: _ =>
      let '(a1, t) := terminate p a in (a1, t, true)
  end.

(** What happens to an agent between its creation and its termination:
    calls of [Restart] from any goroutine, and proxy exits taken off the
    status channel by [Run].  The mutex [a.mu] makes each of them atomic. *)
Inductive Call `{ConfigModel} : Type :=
| CallRestart (config : option Config) (p : ProxyEnv)
| ProxyExited (status : exitStatus).

Definition call `{ConfigModel} (c : Call) (a : agent) : agent * list Effect :=
  match c with
  | CallRestart config p => Restart config p a
  | ProxyExited status => ((onStatus status a).1, [])
  end.

Fixpoint calls `{ConfigModel} (cs : list Call) (a : agent) : agent * list Effect :=
  match cs with
  | [] => (a, [])
  | c :: rest =>
      let '(a1, t1) := call c a in
      let '(a2, t2) := calls rest a1 in
      (a2, t1 ++ t2)
  end.

(** The epochs of the runners a trace spawns, in order. *)
Definition spawnedEpochs `{ConfigModel} (t : list Effect) : list Z :=
  omap (fun e => match e with GoRunWait _ epoch _ => Some epoch | _ => None end) t.

(** The channels a trace sends [err] on, in order. *)
Definition sentOn `{ConfigModel} (err : error) (t : list Effect) : list chan :=
  omap (fun e => match e with
                 | Send ch e' => if bool_decide (e' = err) then Some ch else None
                 | _ => None
                 end) t.

(** The polls of [IsLive] number [first] to [first + count - 1], one per
    [interval], each answered "not live". *)
Definition failedPolls `{ConfigModel} (interval : Duration) (first count : nat)
    : list Effect :=
  (fun i : nat => CallIsLive (Z.of_nat i * interval) false) <$> seq first count.

(** How many times a trace sends [err] on the channel [ch]. *)
Definition timesSent `{ConfigModel} (err : error) (ch : chan) (t : list Effect) : nat :=
  length (filter (fun c => c = ch) (sentOn err t)).

(** Every abort channel of the active set was made by this agent, and no
    two epochs share one. *)
Definition channelsOwned `{ConfigModel} (a : agent) : Prop :=
  (forall e ch, activeEpochs a !! e = Some ch -> (ch < chansMade a)%nat)
  /\ (forall e1 e2 ch,
        activeEpochs a !! e1 = Some ch -> activeEpochs a !! e2 = Some ch -> e1 = e2).

(** ** A configuration type for examples: the drain sentinel or [{v: n}] *)

Inductive VersionConfig : Type := Drain | Version (v : nat).

Definition versionEqual (x y : VersionConfig) : bool :=
  match x, y with
  | Drain, Drain => true
  | Version m, Version n => Nat.eqb m n
  | _, _ => false
  end.

Definition versionModel : ConfigModel :=
  {| Config := VersionConfig; deepEqualValue := versionEqual; DrainConfig := Drain |}.

(** The configuration [{v: n}] as the agent receives it. *)
Definition versioned (n : nat) : option (@Config versionModel) := Some (Version n).

(** A proxy that reports live at once, one that never does, and one that
    goes live 1.2 s after the wait began. *)
Definition liveProxy : ProxyEnv := {| IsLive := fun _ => true; timerWins := true |}.
Definition deadProxy : ProxyEnv := {| IsLive := fun _ => false; timerWins := false |}.
Definition slowProxy : ProxyEnv :=
  {| IsLive := fun t => 1200 * Millisecond <=? t; timerWins := true |}.

(** ** The runner goroutine *)

(** What the goroutine of [runWait] does, in program order. *)
Inductive RunnerEffect `{ConfigModel} : Type :=
| ProxyRun (config : option Config) (epoch : Z) (abortCh : chan)
                                      (* a.proxy.Run(config, epoch, abortCh) *)
| ProxyCleanup (epoch : Z)            (* a.proxy.Cleanup(epoch) *)
| SendStatus (status : exitStatus)    (* a.statusCh <- status *).

(** [func (a *agent) runWait(config, epoch, abortCh)], once [proxy.Run]
    has returned [result]. *)
Definition runWait `{ConfigModel} (config : option Config) (epoch : Z) (abortCh : chan)
    (result : option error) : list RunnerEffect :=
  [ProxyRun config epoch abortCh;
   ProxyCleanup epoch;
   SendStatus {| epoch := epoch; err := result |}].

(** The exit statuses a runner puts on the status channel. *)
Definition statusSent `{ConfigModel} (t : list RunnerEffect) : list exitStatus :=
  omap (fun e => match e with SendStatus status => Some status | _ => None end) t.

End envoy.

(* ===================================================================== *)
(** * Package [bootstrap]: the Pilot discovery server                     *)
(* ===================================================================== *)
Module bootstrap.

Definition error : Type := string.

(** [fmt.Errorf(prefix + "%v", err)] *)
Definition errorf (prefix : string) (err : error) : error := prefix +:+ err.

(** [multierror.Prefix(err, prefix)]: the message is [prefix], a blank,
    then the message of [err]. *)
Definition multierrorPrefix (err : error) (prefix : string) : error :=
  prefix +:+ " " +:+ err.

(** ** Constants of the package *)

Definition ConfigMapKey : string := "mesh".
Definition DefaultMCPMaxMsgSize : Z := 1024 * 1024 * 4.
Definition DefaultMCPInitialWindowSize : Z := 1024 * 1024.
Definition DefaultMCPInitialConnWindowSize : Z := 1024 * 1024.
Definition fsScheme : string := "fs".
Definition DefaultDirectoryForKeyCert : string := "/pilot/key-cert".

(** Modelled from the spec: the registry name [serviceregistry.MockRegistry],
    which section 4.6 lists as [Mock]. *)
Definition MockRegistry : string := "Mock".

(** Modelled from the spec: the registry name
    [serviceregistry.KubernetesRegistry], which section 4.6 lists as
    [Kubernetes]. *)
Definition KubernetesRegistry : string := "Kubernetes".

(** Modelled from the spec: the registry name [serviceregistry.ConsulRegistry],
    which section 4.6 lists as [Consul]. *)
Definition ConsulRegistry : string := "Consul".

(** Modelled from the spec: the registry name [serviceregistry.MCPRegistry],
    which section 4.6 lists as [MCP]. *)
Definition MCPRegistry : string := "MCP".

(** ** Strings *)

(** A string as [%q] prints it (no character here needs an escape). *)
Definition quoted (s : string) : string :=
  String (Ascii.ascii_of_nat 34) s +:+ String (Ascii.ascii_of_nat 34) EmptyString.

(** [strings.HasPrefix(s, p)] *)
Fixpoint hasPrefix (p s : string) : bool :=
  match p, s with
  | EmptyString, _ => true
  | String a p', String b s' => if Ascii.eqb a b then hasPrefix p' s' else false
  | String _ _, EmptyString => false
  end.

(** [strings.Contains(s, sub)] *)
Fixpoint contains (s sub : string) : bool :=
  hasPrefix sub s
  || match s with
     | EmptyString => false
     | String _ s' => contains s' sub
     end.

(** [strings.Join(l, sep)] *)
Fixpoint join (l : list string) (sep : string) : string :=
  match l with
  | [] => ""
  | [x] => x
  | x :: rest => x +:+ sep +:+ join rest sep
  end.

(** ** The mesh configuration, as far as this package reads it *)

Inductive TLSMode : Type :=
| TLS_DISABLE | TLS_SIMPLE | TLS_MUTUAL | TLS_ISTIO_MUTUAL
| TLS_unknown (n : Z).

Record TLSSettings : Type := {
  Mode : TLSMode;
  ClientCertificate : string;
  PrivateKey : string;
  CaCertificates : string;
  Sni : string
}.

Record ConfigSource : Type := {
  Address : string;
  TlsSettings : option TLSSettings
}.

Record Certificate : Type := {
  SecretName : string;
  DnsNames : list string
}.

Inductive IngressControllerModeT : Type := MeshConfig_OFF | MeshConfig_DEFAULT | MeshConfig_STRICT.

(** [meshconfig.MeshConfig]; [otherFields] stands for the fields this
    package never looks into. *)
Record MeshConfig : Type := {
  MixerCheckServer : string;
  MixerReportServer : string;
  ConfigSources : list ConfigSource;
  IngressControllerMode : IngressControllerModeT;
  Certificates : list Certificate;
  otherFields : string
}.

(** [meshconfig.MeshNetworks]: for each network its gateway addresses. *)
Definition MeshNetworks : Type := list (string * list string).

#[global] Instance TLSMode_eq_dec : EqDecision TLSMode.
Proof. solve_decision. Defined.
#[global] Instance TLSSettings_eq_dec : EqDecision TLSSettings.
Proof. solve_decision. Defined.
#[global] Instance ConfigSource_eq_dec : EqDecision ConfigSource.
Proof. solve_decision. Defined.
#[global] Instance Certificate_eq_dec : EqDecision Certificate.
Proof. solve_decision. Defined.
#[global] Instance IngressControllerModeT_eq_dec : EqDecision IngressControllerModeT.
Proof. solve_decision. Defined.
#[global] Instance MeshConfig_eq_dec : EqDecision MeshConfig.
Proof. solve_decision. Defined.

(** [reflect.DeepEqual] on two values of one data type of this model (a
    nil pointer is [None]): structural equality.  A nil slice and an empty
    slice are both the empty list here. *)
Definition DeepEqual {A : Type} `{EqDecision A} (x y : A) : bool := bool_decide (x = y).

(** ** The server and what it holds *)

(** A client set for the cluster API, named by the call that made it. *)
Definition KubeClient : Type := nat.

(** A config store cache, described by how it was put together. *)
Inductive ConfigStoreCache : Type :=
| ExternalController (id : nat)        (* args.Config.Controller *)
| MemoryController (dir : string)      (* memory.NewController, fed by a file monitor on dir *)
| MCPController (address : string)     (* coredatamodel.NewController, fed from address *)
| KubeController (kubeconfig : string) (* controller.NewController on a CRD client *)
| IngressController                    (* ingress.NewController *)
| AggregateCache (stores : list ConfigStoreCache)
                                       (* configaggregate.MakeCache(stores) *).

(** [model.PushRequest] *)
Record PushRequest : Type := {
  Full : bool;
  ConfigTypesUpdated : list string
}.

(** [envoyv2.DiscoveryServer]: the mesh and the networks of its
    environment, and the push requests [ConfigUpdate] has received. *)
Record DiscoveryServer : Type := {
  EnvMesh : option MeshConfig;
  EnvMeshNetworks : option MeshNetworks;
  configUpdates : list PushRequest
}.

(** [aggregate.Registry] *)
Record Registry : Type := {
  Name : string;
  ClusterID : string
}.

(** The cluster registry controller: the networks its lookup table was
    last built from ([InitNetworkLookup]), if it was. *)
Record KubeRegistry : Type := {
  networkLookup : option (option MeshNetworks);
  hasXDSUpdater : bool
}.

(** [clusterregistry.Multicluster]: the networks it was last given. *)
Record Multicluster : Type := {
  multiclusterNetworks : option MeshNetworks
}.

(** [chiron.WebhookController], by the arguments it was made with. *)
Record CertController : Type := {
  secretNames : list string;
  dnsNames : list string;
  namespaces : list string
}.

(** The closures handed to [addStartFunc], one constructor per closure,
    with the variables each captures. *)
Inductive StartAction : Type :=
| StartMonitor (addr : string)
| StartMCPClients (addresses : list string)
| StartConfigController
| StartFileMonitor (dir : string)
| StartIngressSyncer
| StartServiceControllers
| StartXdsServer
| StartDiscovery (httpAddr grpcAddr : string) (forceStop : bool)
| StartSecureDiscovery (secureGrpcAddr : string) (forceStop : bool)
| StartCertController.

(** The closures handed to [addFileWatcher]. *)
Inductive Callback : Type :=
| ReloadMesh (file : string)
| ReloadMeshNetworks (file : string).

(** [type Server struct]; [set_f v s] is [s] with the field [f] set to [v]. *)
Record Server : Type := mkServer {
  HTTPListeningAddr : option string;
  GRPCListeningAddr : option string;
  SecureGRPCListeningAddr : option string;
  MonitorListeningAddr : option string;
  EnvoyXdsServer : option DiscoveryServer;
  ServiceController : option (list Registry);
  mesh : option MeshConfig;
  meshNetworks : option MeshNetworks;
  configController : option ConfigStoreCache;
  kubeClient : option KubeClient;
  startFuncs : list StartAction;
  multicluster : option Multicluster;
  httpServer : option string;
  grpcServer : bool;
  secureHTTPServer : bool;
  secureGRPCServer : bool;
  istioConfigStore : option ConfigStoreCache;
  mux : bool;
  kubeRegistry : option KubeRegistry;
  fileWatcher : list (string * Callback);
  certController : option CertController
}.

Definition set_HTTPListeningAddr (v : option string) (s : Server) : Server :=
  let 'mkServer _ f1 f2 f3 f4 f5 f6 f7 f8 f9 f10 f11 f12 f13 f14 f15 f16 f17 f18 f19 f20 := s in
  mkServer v f1 f2 f3 f4 f5 f6 f7 f8 f9 f10 f11 f12 f13 f14 f15 f16 f17 f18 f19 f20.

Definition set_GRPCListeningAddr (v : option string) (s : Server) : Server :=
  let 'mkServer f0 _ f2 f3 f4 f5 f6 f7 f8 f9 f10 f11 f12 f13 f14 f15 f16 f17 f18 f19 f20 := s in
  mkServer f0 v f2 f3 f4 f5 f6 f7 f8 f9 f10 f11 f12 f13 f14 f15 f16 f17 f18 f19 f20.

Definition set_SecureGRPCListeningAddr (v : option string) (s : Server) : Server :=
  let 'mkServer f0 f1 _ f3 f4 f5 f6 f7 f8 f9 f10 f11 f12 f13 f14 f15 f16 f17 f18 f19 f20 := s in
  mkServer f0 f1 v f3 f4 f5 f6 f7 f8 f9 f10 f11 f12 f13 f14 f15 f16 f17 f18 f19 f20.

Definition set_MonitorListeningAddr (v : option string) (s : Server) : Server :=
  let 'mkServer f0 f1 f2 _ f4 f5 f6 f7 f8 f9 f10 f11 f12 f13 f14 f15 f16 f17 f18 f19 f20 := s in
  mkServer f0 f1 f2 v f4 f5 f6 f7 f8 f9 f10 f11 f12 f13 f14 f15 f16 f17 f18 f19 f20.

Definition set_EnvoyXdsServer (v : option DiscoveryServer) (s : Server) : Server :=
  let 'mkServer f0 f1 f2 f3 _ f5 f6 f7 f8 f9 f10 f11 f12 f13 f14 f15 f16 f17 f18 f19 f20 := s in
  mkServer f0 f1 f2 f3 v f5 f6 f7 f8 f9 f10 f11 f12 f13 f14 f15 f16 f17 f18 f19 f20.

Definition set_ServiceController (v : option (list Registry)) (s : Server) : Server :=
  let 'mkServer f0 f1 f2 f3 f4 _ f6 f7 f8 f9 f10 f11 f12 f13 f14 f15 f16 f17 f18 f19 f20 := s in
  mkServer f0 f1 f2 f3 f4 v f6 f7 f8 f9 f10 f11 f12 f13 f14 f15 f16 f17 f18 f19 f20.

Definition set_mesh (v : option MeshConfig) (s : Server) : Server :=
  let 'mkServer f0 f1 f2 f3 f4 f5 _ f7 f8 f9 f10 f11 f12 f13 f14 f15 f16 f17 f18 f19 f20 := s in
  mkServer f0 f1 f2 f3 f4 f5 v f7 f8 f9 f10 f11 f12 f13 f14 f15 f16 f17 f18 f19 f20.

Definition set_meshNetworks (v : option MeshNetworks) (s : Server) : Server :=
  let 'mkServer f0 f1 f2 f3 f4 f5 f6 _ f8 f9 f10 f11 f12 f13 f14 f15 f16 f17 f18 f19 f20 := s in
  mkServer f0 f1 f2 f3 f4 f5 f6 v f8 f9 f10 f11 f12 f13 f14 f15 f16 f17 f18 f19 f20.

Definition set_configController (v : option ConfigStoreCache) (s : Server) : Server :=
  let 'mkServer f0 f1 f2 f3 f4 f5 f6 f7 _ f9 f10 f11 f12 f13 f14 f15 f16 f17 f18 f19 f20 := s in
  mkServer f0 f1 f2 f3 f4 f5 f6 f7 v f9 f10 f11 f12 f13 f14 f15 f16 f17 f18 f19 f20.

Definition set_kubeClient (v : option KubeClient) (s : Server) : Server :=
  let 'mkServer f0 f1 f2 f3 f4 f5 f6 f7 f8 _ f10 f11 f12 f13 f14 f15 f16 f17 f18 f19 f20 := s in
  mkServer f0 f1 f2 f3 f4 f5 f6 f7 f8 v f10 f11 f12 f13 f14 f15 f16 f17 f18 f19 f20.

Definition set_startFuncs (v : list StartAction) (s : Server) : Server :=
  let 'mkServer f0 f1 f2 f3 f4 f5 f6 f7 f8 f9 _ f11 f12 f13 f14 f15 f16 f17 f18 f19 f20 := s in
  mkServer f0 f1 f2 f3 f4 f5 f6 f7 f8 f9 v f11 f12 f13 f14 f15 f16 f17 f18 f19 f20.

Definition set_multicluster (v : option Multicluster) (s : Server) : Server :=
  let 'mkServer f0 f1 f2 f3 f4 f5 f6 f7 f8 f9 f10 _ f12 f13 f14 f15 f16 f17 f18 f19 f20 := s in
  mkServer f0 f1 f2 f3 f4 f5 f6 f7 f8 f9 f10 v f12 f13 f14 f15 f16 f17 f18 f19 f20.

Definition set_httpServer (v : option string) (s : Server) : Server :=
  let 'mkServer f0 f1 f2 f3 f4 f5 f6 f7 f8 f9 f10 f11 _ f13 f14 f15 f16 f17 f18 f19 f20 := s in
  mkServer f0 f1 f2 f3 f4 f5 f6 f7 f8 f9 f10 f11 v f13 f14 f15 f16 f17 f18 f19 f20.

Definition set_grpcServer (v : bool) (s : Server) : Server :=
  let 'mkServer f0 f1 f2 f3 f4 f5 f6 f7 f8 f9 f10 f11 f12 _ f14 f15 f16 f17 f18 f19 f20 := s in
  mkServer f0 f1 f2 f3 f4 f5 f6 f7 f8 f9 f10 f11 f12 v f14 f15 f16 f17 f18 f19 f20.

Definition set_secureHTTPServer (v : bool) (s : Server) : Server :=
  let 'mkServer f0 f1 f2 f3 f4 f5 f6 f7 f8 f9 f10 f11 f12 f13 _ f15 f16 f17 f18 f19 f20 := s in
  mkServer f0 f1 f2 f3 f4 f5 f6 f7 f8 f9 f10 f11 f12 f13 v f15 f16 f17 f18 f19 f20.

Definition set_secureGRPCServer (v : bool) (s : Server) : Server :=
  let 'mkServer f0 f1 f2 f3 f4 f5 f6 f7 f8 f9 f10 f11 f12 f13 f14 _ f16 f17 f18 f19 f20 := s in
  mkServer f0 f1 f2 f3 f4 f5 f6 f7 f8 f9 f10 f11 f12 f13 f14 v f16 f17 f18 f19 f20.

Definition set_istioConfigStore (v : option ConfigStoreCache) (s : Server) : Server :=
  let 'mkServer f0 f1 f2 f3 f4 f5 f6 f7 f8 f9 f10 f11 f12 f13 f14 f15 _ f17 f18 f19 f20 := s in
  mkServer f0 f1 f2 f3 f4 f5 f6 f7 f8 f9 f10 f11 f12 f13 f14 f15 v f17 f18 f19 f20.

Definition set_mux (v : bool) (s : Server) : Server :=
  let 'mkServer f0 f1 f2 f3 f4 f5 f6 f7 f8 f9 f10 f11 f12 f13 f14 f15 f16 _ f18 f19 f20 := s in
  mkServer f0 f1 f2 f3 f4 f5 f6 f7 f8 f9 f10 f11 f12 f13 f14 f15 f16 v f18 f19 f20.

Definition set_kubeRegistry (v : option KubeRegistry) (s : Server) : Server :=
  let 'mkServer f0 f1 f2 f3 f4 f5 f6 f7 f8 f9 f10 f11 f12 f13 f14 f15 f16 f17 _ f19 f20 := s in
  mkServer f0 f1 f2 f3 f4 f5 f6 f7 f8 f9 f10 f11 f12 f13 f14 f15 f16 f17 v f19 f20.

Definition set_fileWatcher (v : list (string * Callback)) (s : Server) : Server :=
  let 'mkServer f0 f1 f2 f3 f4 f5 f6 f7 f8 f9 f10 f11 f12 f13 f14 f15 f16 f17 f18 _ f20 := s in
  mkServer f0 f1 f2 f3 f4 f5 f6 f7 f8 f9 f10 f11 f12 f13 f14 f15 f16 f17 f18 v f20.

Definition set_certController (v : option CertController) (s : Server) : Server :=
  let 'mkServer f0 f1 f2 f3 f4 f5 f6 f7 f8 f9 f10 f11 f12 f13 f14 f15 f16 f17 f18 f19 _ := s in
  mkServer f0 f1 f2 f3 f4 f5 f6 f7 f8 f9 f10 f11 f12 f13 f14 f15 f16 f17 f18 f19 v.

(** [s := &Server{fileWatcher: filewatcher.NewWatcher()}] *)
Definition emptyServer : Server :=
  mkServer None None None None None None None None None None [] None None
           false false false None false None [] None.

(** ** Effects and outcomes *)

Inductive Level : Type := Debug | Info | Warn | Error.

Inductive Effect : Type :=
| Log (level : Level) (format : string)     (* log.Infof, log.Warnf, ... by format string *)
| HasSyncedPoll (synced : bool)             (* one evaluation of the sync condition *)
| HTTPServe (addr : string)                 (* go s.httpServer.Serve(listener) *)
| GRPCServe (addr : string)                 (* go s.grpcServer.Serve(grpcListener) *)
| ServeTLS (addr : string)                  (* go s.secureHTTPServer.ServeTLS(...) *)
| GoShutdownOnStop                          (* go func() { <-stop; ... }() *).

(** How a call ends: with a value, with an error, never (it blocks for
    good), or in a panic of the runtime. *)
Inductive Result (A : Type) : Type :=
| Ok (a : A)
| Err (e : error)
| Hang
| Panic (what : string).
Arguments Ok {A} a.
Arguments Err {A} e.
Arguments Hang {A}.
Arguments Panic {A} what.

(** A method of [*Server]: it reads and writes the server, logs, and ends
    in one of the four ways. *)
Definition Init (A : Type) : Type := Server -> list Effect * Result (A * Server).

(** The outcome [x], after the effects [t]. *)
Definition prepend {A : Type} (t : list Effect) (x : list Effect * A) : list Effect * A :=
  (t ++ x.1, x.2).

#[global] Instance Init_ret : MRet Init :=
  fun A a s => ([], Ok (a, s)).

#[global] Instance Init_bind : MBind Init :=
  fun A B f m s =>
    match m s with
    | (t1, Ok (a, s1)) => prepend t1 (f a s1)
    | (t1, Err e) => (t1, Err e)
    | (t1, Hang) => (t1, Hang)
    | (t1, Panic what) => (t1, Panic what)
    end.

Definition fail {A : Type} (e : error) : Init A := fun _ => ([], Err e).
Definition hang {A : Type} : Init A := fun _ => ([], Hang).
Definition panic {A : Type} (what : string) : Init A := fun _ => ([], Panic what).
Definition logf (level : Level) (format : string) : Init unit :=
  fun s => ([Log level format], Ok (tt, s)).
Definition get : Init Server := fun s => ([], Ok (s, s)).
Definition modify (f : Server -> Server) : Init unit := fun s => ([], Ok (tt, f s)).

(** [return err] when [err != nil] *)
Definition check (r : option error) : Init unit :=
  match r with
  | Some e => fail e
  | None => mret tt
  end.

(** [if err := call; err != nil { return fmt.Errorf(prefix + "%v", err) }] *)
Definition wrapErr {A : Type} (prefix : string) (m : Init A) : Init A :=
  fun s =>
    match m s with
    | (t, Err e) => (t, Err (errorf prefix e))
    | r => r
    end.

Definition nilPointer : string := "invalid memory address or nil pointer dereference".

(** ** The arguments of the server *)

Record MeshArgs : Type := {
  ConfigFile : string;
  MixerAddress : string;
  RdsRefreshDelay : option Z
}.

(** [controller2.Options], by the fields this package reads.  The field
    [ClusterID], which [createK8sServiceControllers] sets on the way to
    [controller2.NewController], is left out: the package never reads it. *)
Record KubeControllerOptions : Type := {
  WatchedNamespace : string;
  DomainSuffix : string;
  ResyncPeriod : Z
}.

Record ConfigArgs : Type := {
  ClusterRegistriesNamespace : string;
  KubeConfig : string;
  ControllerOptions : KubeControllerOptions;
  FileDir : string;
  DisableInstallCRDs : bool;
  (** the overriding controller, if one is given *)
  Controller : option nat
}.

Record ConsulArgs : Type := {
  (** the field [Config] *)
  ConsulConfig : string;
  ServerURL : string;
  Interval : Z
}.

Record ServiceArgs : Type := {
  Registries : list string;
  Consul : ConsulArgs
}.

(** [envoy.DiscoveryServiceOptions], by the fields this package reads. *)
Record DiscoveryServiceOptions : Type := {
  HTTPAddr : string;
  GrpcAddr : string;
  SecureGrpcAddr : string;
  MonitoringAddr : string
}.

(** [istiokeepalive.Options]; the fields [Time] and [Timeout] are named
    [KeepaliveTime] and [KeepaliveTimeout] here. *)
Record Keepalive : Type := {
  KeepaliveTime : Z;
  KeepaliveTimeout : Z;
  MaxServerConnectionAge : Z;
  MaxServerConnectionAgeGrace : Z
}.

Record PilotArgs : Type := {
  DiscoveryOptions : DiscoveryServiceOptions;
  Namespace : string;
  Mesh : MeshArgs;
  Config : ConfigArgs;
  Service : ServiceArgs;
  (** the field [MeshConfig] *)
  argsMeshConfig : option MeshConfig;
  NetworksConfigFile : string;
  CtrlZOptions : bool;
  Plugins : list string;
  MCPMaxMessageSize : Z;
  MCPInitialWindowSize : Z;
  MCPInitialConnWindowSize : Z;
  (** [nil] is [None] *)
  KeepaliveOptions : option Keepalive;
  ForceStop : bool
}.

(** ** The world outside the package

    One field per call that leaves the package, giving what that call
    returns in the run under consideration. *)

Record URL : Type := {
  Scheme : string;
  Path : string
}.

Inductive ConfigMapResult : Type :=
| ConfigMapNotFound                      (* errors.IsNotFound(err) *)
| ConfigMapError (e : error)
| ConfigMapFound (data : gmap string string).

(** [creds.Options] *)
Record CredOptions : Type := {
  CertificateFile : string;
  KeyFile : string;
  CACertificateFile : string
}.

Record World : Type := {
  (** constants of other packages: [controller2.IstioNamespace],
      [controller2.IstioConfigMap], [constants.IstioSystemNamespace], and
      the credential files under [constants.AuthCertsPath] *)
  IstioNamespace : string;
  IstioConfigMap : string;
  IstioSystemNamespace : string;
  AuthCerts : CredOptions;
  podNamespace : string;                                  (* podNamespaceVar.Get() *)
  DefaultOption : Keepalive;                              (* istiokeepalive.DefaultOption() *)
  CreateClientset : string -> error + KubeClient;         (* kubelib.CreateClientset *)
  ReadMeshConfig : string -> error + MeshConfig;          (* cmd.ReadMeshConfig *)
  ConfigMapsGet : KubeClient -> string -> string -> ConfigMapResult;
  ApplyMeshConfigDefaults : string -> error + MeshConfig; (* mesh.ApplyMeshConfigDefaults *)
  DefaultMeshConfig : MeshConfig;                         (* mesh.DefaultMeshConfig() *)
  ReadMeshNetworksConfig : string -> error + MeshNetworks;
  ResolveHostsInNetworksConfig : MeshNetworks -> MeshNetworks;
  urlParse : string -> error + URL;                       (* url.Parse *)
  (** how many polls of [os.Stat] miss the file before it is there for
      the first time; [None] when it never appears *)
  statMisses : string -> option nat;
  WatchFiles : CredOptions -> option error;               (* creds.WatchFiles *)
  DialContext : string -> option error;                   (* grpc.DialContext *)
  MakeCache : list ConfigStoreCache -> option error;      (* configaggregate.MakeCache *)
  NewClient : string -> option error;                     (* controller.NewClient *)
  RegisterResources : option error;
  NewStatusSyncer : option error;                         (* ingress.NewStatusSyncer *)
  ConsulNewController : string -> option error;           (* consul.NewController *)
  NewDiscoveryService : option error;                     (* envoy.NewDiscoveryService *)
  ListenHTTP : error + string;                            (* net.Listen("tcp", HTTPAddr) *)
  ListenGRPC : error + string;
  ListenSecureGRPC : error + string;
  NewServerTLSFromFile : option error;
  LoadX509KeyPair : option error;
  ReadCAFile : option error;                              (* ioutil.ReadFile(ca) *)
  NewMulticluster : option error;                         (* clusterregistry.NewMulticluster *)
  keyCertDirExists : bool;                                (* os.Stat(dir) *)
  MkdirAll : option error;
  GenKeyCertK8sCA : option error;                         (* chiron.GenKeyCertK8sCA *)
  WriteFile : string -> option error;                     (* ioutil.WriteFile, by file name *)
  NewWebhookController : option error                     (* chiron.NewWebhookController *)
}.

(** ** Start functions and file watchers *)

(** [func (s *Server) addStartFunc(fn startFunc)] *)
Definition addStartFunc (fn : StartAction) (s : Server) : Server :=
  set_startFuncs (startFuncs s ++ [fn]) s.

(** [func (s *Server) addFileWatcher(file string, callback func())]: the
    file is added to the watcher and a goroutine is started that debounces
    its events ([watch] below) and calls [callback]. *)
Definition addFileWatcher (file : string) (callback : Callback) (s : Server) : Server :=
  set_fileWatcher (fileWatcher s ++ [(file, callback)]) s.

(** [func hasKubeRegistry(args *PilotArgs) bool] *)
Definition hasKubeRegistry (args : PilotArgs) : bool :=
  existsb (fun r => bool_decide (r = KubernetesRegistry)) (Registries (Service args)).

Definition getKubeCfgFile (args : PilotArgs) : string := KubeConfig (Config args).

(** ** The mesh configuration *)

(** [func (s *Server) initKubeClient(args *PilotArgs) error] *)
Definition initKubeClient (w : World) (args : PilotArgs) : Init unit :=
  if hasKubeRegistry args && bool_decide (FileDir (Config args) = "") then
    match CreateClientset w (getKubeCfgFile args) with
    | inl kuberr => fail (multierrorPrefix kuberr "failed to connect to Kubernetes API.")
    | inr client => modify (set_kubeClient (Some client))
    end
  else mret tt.

(** [func GetMeshConfig(kube, namespace, name)] *)
Definition GetMeshConfig (w : World) (kube : option KubeClient) (namespace name : string)
    : error + (option (gmap string string) * MeshConfig) :=
  match kube with
  | None => inr (None, DefaultMeshConfig w)
  | Some k =>
      match ConfigMapsGet w k namespace name with
      | ConfigMapNotFound => inr (None, DefaultMeshConfig w)
      | ConfigMapError e => inl e
      | ConfigMapFound data =>
          match data !! ConfigMapKey with
          | None => inl ("missing configuration map key " +:+ quoted ConfigMapKey)
          | Some cfgYaml =>
              match ApplyMeshConfigDefaults w cfgYaml with
              | inl e => inl e
              | inr meshConfig => inr (Some data, meshConfig)
              end
          end
      end
  end.

Definition fullPush : PushRequest := {| Full := true; ConfigTypesUpdated := [] |}.

(** [s.EnvoyXdsServer.ConfigUpdate(req)] *)
Definition ConfigUpdate (req : PushRequest) (xds : DiscoveryServer) : DiscoveryServer :=
  {| EnvMesh := EnvMesh xds;
     EnvMeshNetworks := EnvMeshNetworks xds;
     configUpdates := configUpdates xds ++ [req] |}.

(** The callback [initMesh] hands to [addFileWatcher]; [w] is the world at
    the time the callback runs. *)
Definition reloadMesh (w : World) (file : string) : Init unit :=
  match ReadMeshConfig w file with
  | inl _ => logf Warn "failed to read mesh configuration, using default: %v"
  | inr meshConfig =>
      s ← get;
      if negb (DeepEqual (Some meshConfig) (mesh s)) then
        logf Info "mesh configuration updated to: %s";;
        match mesh s with
        | None => panic nilPointer
        | Some current =>
            (if negb (DeepEqual (ConfigSources meshConfig) (ConfigSources current))
             then logf Info "mesh configuration sources have changed"
             else mret tt);;
            modify (set_mesh (Some meshConfig));;
            match EnvoyXdsServer s with
            | Some xds =>
                modify (set_EnvoyXdsServer
                          (Some (ConfigUpdate fullPush
                                   {| EnvMesh := Some meshConfig;
                                      EnvMeshNetworks := EnvMeshNetworks xds;
                                      configUpdates := configUpdates xds |})))
            | None => mret tt
            end
        end
      else mret tt
  end.

Definition overrideMixer (address : string) (m : MeshConfig) : MeshConfig :=
  {| MixerCheckServer := address;
     MixerReportServer := address;
     ConfigSources := ConfigSources m;
     IngressControllerMode := IngressControllerMode m;
     Certificates := Certificates m;
     otherFields := otherFields m |}.

(** [func (s *Server) initMesh(args *PilotArgs) error] *)
Definition initMesh (w : World) (args : PilotArgs) : Init unit :=
  match argsMeshConfig args with
  | Some m => modify (set_mesh (Some m))
  | None =>
      fromFile ←
        (if bool_decide (ConfigFile (Mesh args) ≠ "") then
           read ← match ReadMeshConfig w (ConfigFile (Mesh args)) with
                  | inl _ =>
                      logf Warn "failed to read mesh configuration, using default: %v";;
                      mret None
                  | inr m => mret (Some m)
                  end;
           modify (addFileWatcher (ConfigFile (Mesh args))
                                  (ReloadMesh (ConfigFile (Mesh args))));;
           mret read
         else mret None);
      meshConfig ←
        match fromFile with
        | Some m => mret m
        | None =>
            s ← get;
            match GetMeshConfig w (kubeClient s) (IstioNamespace w) (IstioConfigMap w) with
            | inl err =>
                logf Warn "failed to read the default mesh configuration: %v, from the %s config map in the %s namespace";;
                fail err
            | inr (_, m) =>
                mret (if bool_decide (MixerAddress (Mesh args) ≠ "")
                      then overrideMixer (MixerAddress (Mesh args)) m else m)
            end
        end;
      logf Info "mesh configuration %s";;
      logf Info "version %s";;
      logf Info "flags %s";;
      modify (set_mesh (Some meshConfig))
  end.

(** ** The mesh networks *)

Definition InitNetworkLookup (n : option MeshNetworks) (k : KubeRegistry) : KubeRegistry :=
  {| networkLookup := Some n; hasXDSUpdater := hasXDSUpdater k |}.

(** The callback [initMeshNetworks] hands to [addFileWatcher]. *)
Definition reloadMeshNetworks (w : World) (file : string) : Init unit :=
  match ReadMeshNetworksConfig w file with
  | inl _ => logf Warn "failed to read mesh networks configuration from %q"
  | inr read =>
      s ← get;
      if negb (DeepEqual (Some read) (meshNetworks s)) then
        logf Info "mesh networks configuration file updated to: %s";;
        let resolved := ResolveHostsInNetworksConfig w read in
        logf Info "mesh networks configuration post-resolution %s";;
        modify (set_meshNetworks (Some resolved));;
        match kubeRegistry s with
        | Some registry =>
            modify (set_kubeRegistry (Some (InitNetworkLookup (Some resolved) registry)))
        | None => mret tt
        end;;
        match multicluster s with
        | Some _ => modify (set_multicluster (Some {| multiclusterNetworks := Some resolved |}))
        | None => mret tt
        end;;
        match EnvoyXdsServer s with
        | Some xds =>
            modify (set_EnvoyXdsServer
                      (Some (ConfigUpdate fullPush
                               {| EnvMesh := EnvMesh xds;
                                  EnvMeshNetworks := Some resolved;
                                  configUpdates := configUpdates xds |})))
        | None => mret tt
        end
      else mret tt
  end.

(** [func (s *Server) initMeshNetworks(args *PilotArgs) error] *)
Definition initMeshNetworks (w : World) (args : PilotArgs) : Init unit :=
  if bool_decide (NetworksConfigFile args = "") then
    logf Info "mesh networks configuration not provided"
  else
    match ReadMeshNetworksConfig w (NetworksConfigFile args) with
    | inl _ =>
        logf Warn "failed to read mesh networks configuration from %q. using default."
    | inr read =>
        logf Info "mesh networks configuration %s";;
        let resolved := ResolveHostsInNetworksConfig w read in
        logf Info "mesh networks configuration post-resolution %s";;
        modify (set_meshNetworks (Some resolved));;
        modify (addFileWatcher (NetworksConfigFile args)
                                (ReloadMeshNetworks (NetworksConfigFile args)))
    end.

(** ** The config controller *)

(** [func (s *Server) makeFileMonitor(fileDir, configController) error] *)
Definition makeFileMonitor (fileDir : string) : Init unit :=
  modify (addStartFunc (StartFileMonitor fileDir)).

(** [func (s *Server) makeKubeConfigController(args)] *)
Definition makeKubeConfigController (w : World) (args : PilotArgs) : Init ConfigStoreCache :=
  match NewClient w (getKubeCfgFile args) with
  | Some err => fail (multierrorPrefix err "failed to open a config client.")
  | None =>
      (if negb (DisableInstallCRDs (Config args)) then
         match RegisterResources w with
         | Some err => fail (multierrorPrefix err "failed to register custom resources.")
         | None => mret tt
         end
       else mret tt);;
      mret (KubeController (getKubeCfgFile args))
  end.

(** The transport security [initMCPConfigController] settles on for one
    source, or the verdict that its TLS mode is invalid. *)
Inductive Security : Type :=
| Insecure                        (* grpc.WithInsecure() *)
| SkipVerify                      (* creds.CreateForClientSkipVerify() *)
| ClientCreds (o : CredOptions)   (* creds.CreateForClient(sni, watcher) *)
| InvalidMode.

Definition securityOption (w : World) (src : ConfigSource) : Security :=
  match TlsSettings src with
  | None => Insecure
  | Some tls =>
      match Mode tls with
      | TLS_DISABLE => Insecure
      | TLS_SIMPLE => SkipVerify
      | TLS_MUTUAL =>
          ClientCreds {| CertificateFile := ClientCertificate tls;
                         KeyFile := PrivateKey tls;
                         CACertificateFile := CaCertificates tls |}
      | TLS_ISTIO_MUTUAL => ClientCreds (AuthCerts w)
      | TLS_unknown _ => InvalidMode
      end
  end.

Fixpoint logTimes (n : nat) (level : Level) (format : string) : Init unit :=
  match n with
  | O => mret tt
  | S n' => logf level format;; logTimes n' level format
  end.

(** [for len(requiredFiles) > 0 { ... }]: each file in turn is polled until
    [os.Stat] finds it; the context is not cancelled while this runs.
    [seen] lists the files that [os.Stat] has found so far while the
    server is made, the last one first.  A file that was found is still
    there when it is looked for again, be it named twice or named by a
    later source, and is found at the first look; a file that is looked for
    for the first time is found after [statMisses] misses.  The result
    lists the files found by the end. *)
Fixpoint waitForFiles (w : World) (requiredFiles seen : list string)
    : Init (list string) :=
  match requiredFiles with
  | [] => mret seen
  | f :: rest =>
      (if bool_decide (f ∈ seen) then mret tt
       else
         match statMisses w f with
         | None => logf Info "%v not found. Checking again in %v";; hang
         | Some n => logTimes n Info "%v not found. Checking again in %v"
         end);;
      logf Info "%v found";;
      waitForFiles w rest (f :: seen)
  end.

(** The part of the loop body that connects to a remote source, with the
    files found so far; [false] stands for the [continue] that skips a
    source with an invalid mode. *)
Definition dialSource (w : World) (src : ConfigSource) (seen : list string)
    : Init (bool * list string) :=
  match securityOption w src with
  | InvalidMode => logf Error "invalid tls setting mode %d";; mret (false, seen)
  | security =>
      seen' ← match security with
              | ClientCreds o =>
                  logf Info "Secure MCP configured. Waiting for required certificate files to become available: %v";;
                  seen' ← waitForFiles w [CACertificateFile o; KeyFile o; CertificateFile o]
                                       seen;
                  check (WatchFiles w o);;
                  mret seen'
              | _ => mret seen
              end;
      match DialContext w (Address src) with
      | Some err => logf Error "Unable to dial MCP Server %q: %v";; fail err
      | None => mret (true, seen')
      end
  end.

(** [for _, configSource := range s.mesh.ConfigSources { ... }], with the
    clients and the config stores collected so far, and the certificate
    files found so far. *)
Fixpoint mcpSources (w : World) (sources : list ConfigSource)
    (clients : list string) (configStores : list ConfigStoreCache)
    (seen : list string) : Init (list string * list ConfigStoreCache) :=
  match sources with
  | [] => mret (clients, configStores)
  | src :: rest =>
      let remote : Init (list string * list ConfigStoreCache) :=
        dialed ← dialSource w src seen;
        if dialed.1 : bool
        then mcpSources w rest (clients ++ [Address src])
                        (configStores ++ [MCPController (Address src)]) dialed.2
        else mcpSources w rest clients configStores dialed.2 in
      if contains (Address src) (fsScheme +:+ "://") then
        match urlParse w (Address src) with
        | inl err => fail ("invalid config URL " +:+ Address src +:+ " " +:+ err)
        | inr srcAddress =>
            if bool_decide (Scheme srcAddress = fsScheme) then
              if bool_decide (Path srcAddress = "") then
                fail ("invalid fs config URL " +:+ Address src +:+ ", contains no file path")
              else
                makeFileMonitor (Path srcAddress);;
                mcpSources w rest clients
                           (configStores ++ [MemoryController (Path srcAddress)]) seen
            else remote
        end
      else remote
  end.

(** [func (s *Server) initMCPConfigController(args *PilotArgs) error] *)
Definition initMCPConfigController (w : World) (args : PilotArgs) : Init unit :=
  s ← get;
  match mesh s with
  | None => panic nilPointer
  | Some m =>
      collected ← mcpSources w (ConfigSources m) [] [] [];
      modify (addStartFunc (StartMCPClients collected.1));;
      check (MakeCache w collected.2);;
      modify (set_configController (Some (AggregateCache collected.2)))
  end.

(** [func (s *Server) initConfigController(args *PilotArgs) error] *)
Definition initConfigController (w : World) (args : PilotArgs) : Init unit :=
  s ← get;
  match mesh s with
  | None => panic nilPointer
  | Some m =>
      (if bool_decide (0 < length (ConfigSources m))%nat then
         initMCPConfigController w args
       else
         match Controller (Config args) with
         | Some c => modify (set_configController (Some (ExternalController c)))
         | None =>
             if bool_decide (FileDir (Config args) ≠ "") then
               makeFileMonitor (FileDir (Config args));;
               modify (set_configController (Some (MemoryController (FileDir (Config args)))))
             else
               cfgController ← makeKubeConfigController w args;
               modify (set_configController (Some cfgController))
         end);;
      modify (addStartFunc StartConfigController);;
      (if hasKubeRegistry args
          && negb (bool_decide (IngressControllerMode m = MeshConfig_OFF)) then
         s1 ← get;
         match configController s1 with
         | None => panic nilPointer
         | Some c =>
             check (MakeCache w [c; IngressController]);;
             modify (set_configController (Some (AggregateCache [c; IngressController])));;
             match NewStatusSyncer w with
             | Some _ => logf Warn "Disabled ingress status syncer due to %v"
             | None => modify (addStartFunc StartIngressSyncer)
             end
         end
       else mret tt);;
      modify (fun s => set_istioConfigStore (configController s) s)
  end.

(** ** The service controllers *)

(** [func (s *Server) initMemoryRegistry(serviceControllers)] *)
Definition initMemoryRegistry (serviceControllers : list Registry) : list Registry :=
  serviceControllers
    ++ [{| Name := "mockAdapter1"; ClusterID := "mockAdapter1" |};
        {| Name := "mockAdapter2"; ClusterID := "mockAdapter2" |}].

(** [func (s *Server) createK8sServiceControllers(serviceControllers, args)] *)
Definition createK8sServiceControllers (serviceControllers : list Registry)
    : Init (list Registry) :=
  logf Info "Primary Cluster name: %s";;
  modify (set_kubeRegistry (Some {| networkLookup := None; hasXDSUpdater := false |}));;
  mret (serviceControllers
          ++ [{| Name := KubernetesRegistry; ClusterID := KubernetesRegistry |}]).

(** [func (s *Server) initConsulRegistry(serviceControllers, args) error] *)
Definition initConsulRegistry (w : World) (args : PilotArgs)
    (serviceControllers : list Registry) : Init (list Registry) :=
  logf Info "Consul url: %v";;
  match ConsulNewController w (ServerURL (Consul (Service args))) with
  | Some conerr => fail (errorf "failed to create Consul controller: " conerr)
  | None => mret (serviceControllers ++ [{| Name := ConsulRegistry; ClusterID := "" |}])
  end.

(** [for _, r := range args.Service.Registries { ... }], with the names
    registered and the registries added so far. *)
Fixpoint addRegistries (w : World) (args : PilotArgs) (registries : list string)
    (registered : list string) (serviceControllers : list Registry)
    : Init (list Registry) :=
  match registries with
  | [] => mret serviceControllers
  | r :: rest =>
      if bool_decide (r ∈ registered) then
        logf Warn "%s registry specified multiple times.";;
        addRegistries w args rest registered serviceControllers
      else
        logf Info "Adding %s registry adapter";;
        added ←
          (if bool_decide (r = MockRegistry) then
             mret (initMemoryRegistry serviceControllers)
           else if bool_decide (r = KubernetesRegistry) then
             createK8sServiceControllers serviceControllers
           else if bool_decide (r = ConsulRegistry) then
             initConsulRegistry w args serviceControllers
           else if bool_decide (r = MCPRegistry) then
             logf Info "no-op: get service info from MCP ServiceEntries.";;
             mret serviceControllers
           else
             fail ("service registry " +:+ r +:+ " is not supported"));
        addRegistries w args rest (r :: registered) added
  end.

(** [func (s *Server) initServiceControllers(args *PilotArgs) error] *)
Definition initServiceControllers (w : World) (args : PilotArgs) : Init unit :=
  serviceControllers ← addRegistries w args (Registries (Service args)) [] [];
  modify (set_ServiceController
            (Some (serviceControllers ++ [{| Name := "ServiceEntries"; ClusterID := "" |}])));;
  modify (addStartFunc StartServiceControllers).

(** ** The discovery service *)

(** [func (s *Server) initGrpcServer(options)]; the options are the
    keepalive options of the arguments, which [NewServer] has filled in,
    and go to [grpc.NewServer]. *)
Definition initGrpcServer : Init unit := modify (set_grpcServer true).

(** [func (s *Server) initSecureGrpcServer(options) error]: the three
    reads of the certificate directory, each of which may fail; the options
    are those of [initGrpcServer]. *)
Definition initSecureGrpcServer (w : World) : Init unit :=
  check (NewServerTLSFromFile w);;
  check (LoadX509KeyPair w);;
  check (ReadCAFile w);;
  modify (set_secureGRPCServer true);;
  modify (set_secureHTTPServer true).

(** [func (s *Server) initDiscoveryService(args *PilotArgs) error] *)
Definition initDiscoveryService (w : World) (args : PilotArgs) : Init unit :=
  s ← get;
  match NewDiscoveryService w with
  | Some err => fail (errorf "failed to create discovery service: " err)
  | None =>
      modify (set_mux true);;
      modify (set_EnvoyXdsServer
                (Some {| EnvMesh := mesh s;
                         EnvMeshNetworks := meshNetworks s;
                         configUpdates := [] |}));;
      match kubeRegistry s with
      | Some registry =>
          modify (set_kubeRegistry
                    (Some {| networkLookup := Some (meshNetworks s);
                             hasXDSUpdater := true |}))
      | None => mret tt
      end;;
      modify (addStartFunc StartXdsServer);;
      initGrpcServer;;
      modify (set_httpServer (Some (HTTPAddr (DiscoveryOptions args))));;
      match ListenHTTP w with
      | inl err => fail err
      | inr listener =>
          modify (set_HTTPListeningAddr (Some listener));;
          match ListenGRPC w with
          | inl err => fail err
          | inr grpcListener =>
              modify (set_GRPCListeningAddr (Some grpcListener));;
              modify (addStartFunc
                        (StartDiscovery listener grpcListener (ForceStop args)));;
              if bool_decide (SecureGrpcAddr (DiscoveryOptions args) ≠ "") then
                wrapErr "secure grpc server: " (initSecureGrpcServer w);;
                match ListenSecureGRPC w with
                | inl err => fail err
                | inr secureGrpcListener =>
                    modify (set_SecureGRPCListeningAddr (Some secureGrpcListener));;
                    modify (addStartFunc
                              (StartSecureDiscovery secureGrpcListener (ForceStop args)))
                end
              else mret tt
          end
      end
  end.

(** [func (s *Server) initMonitor(args *PilotArgs) error] *)
Definition initMonitor (args : PilotArgs) : Init unit :=
  modify (addStartFunc (StartMonitor (MonitoringAddr (DiscoveryOptions args)))).

(** [func (s *Server) initClusterRegistries(args *PilotArgs) (err error)] *)
Definition initClusterRegistries (w : World) (args : PilotArgs) : Init unit :=
  if hasKubeRegistry args then
    match NewMulticluster w with
    | Some err => logf Info "Unable to create new Multicluster object";; fail err
    | None =>
        modify (fun s => set_multicluster
                           (Some {| multiclusterNetworks := meshNetworks s |}) s)
    end
  else mret tt.

(** ** The certificate controller *)

(** What the loop of [initCertController] has collected, or the fact that
    the function has already returned [nil] from inside the loop. *)
Record CertLoop : Type := {
  loopSecretNames : list string;
  loopDnsNames : list string;
  loopNamespaces : list string;
  pilotCertGenerated : bool
}.

(** The branch of the loop that makes Pilot's own key and certificate;
    [false] stands for the [return nil] after a logged failure. *)
Definition generatePilotCert (w : World) : Init bool :=
  (if negb (keyCertDirExists w) then
     match MkdirAll w with
     | Some err => fail ("err to create directory " +:+ DefaultDirectoryForKeyCert +:+ ": " +:+ err)
     | None => mret tt
     end
   else mret tt);;
  s ← get;
  match kubeClient s with
  | None => panic nilPointer
  | Some _ =>
      match GenKeyCertK8sCA w with
      | Some _ => logf Error "err to generate key cert for %v: %v";; mret false
      | None =>
          match WriteFile w "cert-chain.pem" with
          | Some _ => logf Error "err to write %v cert-chain.pem (%v): %v";; mret false
          | None =>
              match WriteFile w "root.pem" with
              | Some _ => logf Error "err to write %v root.pem (%v): %v";; mret false
              | None =>
                  match WriteFile w "key.pem" with
                  | Some _ => logf Error "err to write %v key.pem (%v): %v";; mret false
                  | None => mret true
                  end
              end
          end
      end
  end.

(** [for _, c := range s.mesh.GetCertificates() { ... }] *)
Fixpoint certLoop (w : World) (args : PilotArgs) (certs : list Certificate)
    (acc : CertLoop) : Init (option CertLoop) :=
  match certs with
  | [] => mret (Some acc)
  | c :: rest =>
      let name := join (DnsNames c) "," in
      if bool_decide (String.length name = 0%nat) then certLoop w args rest acc
      else if bool_decide (0 < String.length (SecretName c))%nat then
        certLoop w args rest
          {| loopSecretNames := loopSecretNames acc ++ [SecretName c];
             loopDnsNames := loopDnsNames acc ++ [name];
             loopNamespaces := loopNamespaces acc ++ [Namespace args];
             pilotCertGenerated := pilotCertGenerated acc |}
      else if negb (pilotCertGenerated acc) then
        generated ← generatePilotCert w;
        if generated : bool then
          certLoop w args rest
            {| loopSecretNames := loopSecretNames acc;
               loopDnsNames := loopDnsNames acc;
               loopNamespaces := loopNamespaces acc;
               pilotCertGenerated := true |}
        else mret None
      else certLoop w args rest acc
  end.

(** [func (s *Server) initCertController(args *PilotArgs) error] *)
Definition initCertController (w : World) (args : PilotArgs) : Init unit :=
  s ← get;
  let certs := match mesh s with Some m => Certificates m | None => [] end in
  if bool_decide (length certs = 0%nat) then logf Info "nil certificate config"
  else
    looped ← certLoop w args certs
               {| loopSecretNames := []; loopDnsNames := []; loopNamespaces := [];
                  pilotCertGenerated := false |};
    match looped with
    | None => mret tt
    | Some acc =>
        match kubeClient s with
        | None => panic nilPointer
        | Some _ =>
            match NewWebhookController w with
            | Some err => fail (errorf "failed to create certificate controller: " err)
            | None =>
                modify (set_certController
                          (Some {| secretNames := loopSecretNames acc;
                                   dnsNames := loopDnsNames acc;
                                   namespaces := loopNamespaces acc |}));;
                modify (addStartFunc StartCertController)
            end
        end
    end.

(** ** The constructor *)

(** The defaults [NewServer] fills into its arguments: the namespace, the
    keepalive options and the namespace of the cluster registries, in this
    order. *)
Definition withDefaults (w : World) (args : PilotArgs) : PilotArgs :=
  let namespace :=
    if bool_decide (Namespace args = "") then podNamespace w else Namespace args in
  let keepaliveOptions :=
    match KeepaliveOptions args with
    | None => Some (DefaultOption w)
    | Some options => Some options
    end in
  let registriesNamespace :=
    if bool_decide (ClusterRegistriesNamespace (Config args) = "") then
      if bool_decide (namespace ≠ "") then namespace else IstioSystemNamespace w
    else ClusterRegistriesNamespace (Config args) in
  {| DiscoveryOptions := DiscoveryOptions args;
     Namespace := namespace;
     Mesh := Mesh args;
     Config := {| ClusterRegistriesNamespace := registriesNamespace;
                  KubeConfig := KubeConfig (Config args);
                  ControllerOptions := ControllerOptions (Config args);
                  FileDir := FileDir (Config args);
                  DisableInstallCRDs := DisableInstallCRDs (Config args);
                  Controller := Controller (Config args) |};
     Service := Service args;
     argsMeshConfig := argsMeshConfig args;
     NetworksConfigFile := NetworksConfigFile args;
     CtrlZOptions := CtrlZOptions args;
     Plugins := Plugins args;
     MCPMaxMessageSize := MCPMaxMessageSize args;
     MCPInitialWindowSize := MCPInitialWindowSize args;
     MCPInitialConnWindowSize := MCPInitialConnWindowSize args;
     KeepaliveOptions := keepaliveOptions;
     ForceStop := ForceStop args |}.

(** The nine initialisation steps of [NewServer], each with the prefix its
    error is wrapped in. *)
Definition initSteps (w : World) (args : PilotArgs) : list (string * Init unit) :=
  [("kube client: ", initKubeClient w args);
   ("mesh: ", initMesh w args);
   ("mesh networks: ", initMeshNetworks w args);
   ("config controller: ", initConfigController w args);
   ("service controllers: ", initServiceControllers w args);
   ("discovery service: ", initDiscoveryService w args);
   ("monitor: ", initMonitor args);
   ("cluster registries: ", initClusterRegistries w args);
   ("certificate controller: ", initCertController w args)].

(** [if err := step; err != nil { return nil, fmt.Errorf(prefix + "%v", err) }],
    one step after the other. *)
Fixpoint runSteps (steps : list (string * Init unit)) : Init unit :=
  match steps with
  | [] => mret tt
  | (prefix, step) :: rest => wrapErr prefix step;; runSteps rest
  end.

(** [func NewServer(args PilotArgs)]: the server, or the error.  The
    call of [ctrlz.Run] at the end, whose results are dropped, is left out. *)
Definition NewServer (w : World) (args : PilotArgs) : list Effect * Result Server :=
  match runSteps (initSteps w (withDefaults w args)) emptyServer with
  | (t, Ok (_, s)) => (t, Ok s)
  | (t, Err e) => (t, Err e)
  | (t, Hang) => (t, Hang)
  | (t, Panic what) => (t, Panic what)
  end.

(** ** Start *)

(** [func (s *Server) Start(stop <-chan struct{}) error]: [exec fn] is what
    calling the start function [fn] does to the state [P] of the process
    and what it returns.  The result lists the start functions that were
    called, in the order of the calls. *)
Fixpoint runStartFuncs {P : Type} (exec : StartAction -> P -> P * option error)
    (fns : list StartAction) (p : P) : list StartAction * P * option error :=
  match fns with
  | [] => ([], p, None)
  | fn :: rest =>
      match exec fn p with
      | (p1, Some err) => ([fn], p1, Some err)
      | (p1, None) =>
          let '(called, p2, r) := runStartFuncs exec rest p1 in
          (fn :: called, p2, r)
      end
  end.

Definition Start {P : Type} (exec : StartAction -> P -> P * option error)
    (s : Server) (p : P) : list StartAction * P * option error :=
  runStartFuncs exec (startFuncs s) p.

(** The state after calling every one of [fns] in order, when each of them
    returns [nil]. *)
Fixpoint allSucceed {P : Type} (exec : StartAction -> P -> P * option error)
    (fns : list StartAction) (p : P) : option P :=
  match fns with
  | [] => Some p
  | fn :: rest =>
      match exec fn p with
      | (p1, None) => allSucceed exec rest p1
      | (_, Some _) => None
      end
  end.

(** ** Waiting for the caches *)

(** What [HasSynced] answers at one moment on the cluster registry, on the
    config controller and on the service controller, which answers for all
    its registries.  [waitForCacheSync] never asks the service controller. *)
Record Caches : Type := {
  kubeRegistryHasSynced : bool;          (* s.kubeRegistry.HasSynced() *)
  configControllerHasSynced : bool;      (* s.configController.HasSynced() *)
  serviceControllerHasSynced : bool      (* s.ServiceController.HasSynced() *)
}.

(** What [cache.WaitForCacheSync] meets each time it looks: the stop
    channel closed, or the caches in some state. *)
Inductive Observation : Type :=
| StopClosed
| Poll (c : Caches).

(** The condition [waitForCacheSync] passes to [cache.WaitForCacheSync]. *)
Definition hasSynced (s : Server) (c : Caches) : bool :=
  if match kubeRegistry s with
     | Some _ => negb (kubeRegistryHasSynced c)
     | None => false
     end
  then false
  else if negb (configControllerHasSynced c) then false
  else true.

(** [cache.WaitForCacheSync(stop, cond)]: [Some true] once the condition
    held, [Some false] when the stop channel closed first, [None] while it
    is still waiting at the end of the observations. *)
Fixpoint WaitForCacheSync (cond : Caches -> bool) (obs : list Observation)
    : list Effect * option bool :=
  match obs with
  | [] => ([], None)
  | StopClosed :: _ => ([], Some false)
  | Poll c :: rest =>
      if cond c then ([HasSyncedPoll true], Some true)
      else
        let '(t, r) := WaitForCacheSync cond rest in
        (HasSyncedPoll false :: t, r)
  end.

(** [func (s *Server) waitForCacheSync(stop <-chan struct{}) bool] *)
Definition waitForCacheSync (s : Server) (obs : list Observation)
    : list Effect * option bool :=
  match WaitForCacheSync (hasSynced s) obs with
  | (t, Some false) => (t ++ [Log Error "Failed waiting for cache sync"], Some false)
  | r => r
  end.

(** The goroutine started by the start function that [initDiscoveryService]
    registers for the HTTP and gRPC listeners. *)
Definition discoveryGoroutine (s : Server) (httpAddr grpcAddr : string)
    (obs : list Observation) : list Effect :=
  match waitForCacheSync s obs with
  | (t, Some true) =>
      t ++ [Log Info "starting discovery service at http=%s grpc=%s";
            HTTPServe httpAddr; GRPCServe grpcAddr; GoShutdownOnStop]
  | (t, _) => t
  end.

(** The goroutine started by the start function registered for the secure
    gRPC listener. *)
Definition secureDiscoveryGoroutine (s : Server) (secureGrpcAddr : string)
    (obs : list Observation) : list Effect :=
  match waitForCacheSync s obs with
  | (t, Some true) =>
      t ++ [Log Info "starting discovery service at secure grpc=%s";
            ServeTLS secureGrpcAddr; GoShutdownOnStop]
  | (t, _) => t
  end.

Definition isServe (e : Effect) : bool :=
  match e with
  | HTTPServe _ | GRPCServe _ | ServeTLS _ => true
  | _ => false
  end.

(** ** The debounced file watcher *)

Definition Time : Type := Z.

(** [100 * time.Millisecond], in nanoseconds *)
Definition debounceDelay : Time := 100 * 1000000.

(** [case <-s.fileWatcher.Events(file)], taken at the instant [now]:
    [timerC] is the instant at which the pending timer fires, [None] for
    the nil channel. *)
Definition onFileEvent (now : Time) (timerC : option Time) : option Time :=
  match timerC with
  | None => Some (now + debounceDelay)
  | Some deadline => Some deadline
  end.

(** The goroutine of [addFileWatcher] over the file events that arrive at
    the instants [events] (in the order they arrive): the instants at which
    it calls the callback.  A pending timer that is due before the next
    event fires first ([case <-timerC]: the channel is reset to nil and the
    callback is called once); when both are ready at the same instant,
    [timerFirst] tells which case [select] takes. *)
Fixpoint watch (timerFirst : Time -> bool) (events : list Time) (timerC : option Time)
    : list Time :=
  match events with
  | [] =>
      match timerC with
      | Some deadline => [deadline]
      | None => []
      end
  | now :: rest =>
      match timerC with
      | Some deadline =>
          if (deadline <? now) || ((deadline =? now) && timerFirst now) then
            deadline :: watch timerFirst rest (onFileEvent now None)
          else watch timerFirst rest (onFileEvent now timerC)
      | None => watch timerFirst rest (onFileEvent now timerC)
      end
  end.

(** The events of the file a goroutine watches, out of the events on all
    files: [s.fileWatcher.Events(file)] is the channel of that file. *)
Definition eventsOf (file : string) (events : list (string * Time)) : list Time :=
  snd <$> filter (fun e => e.1 = file) events.

(** The instants at which the callback registered for [file] is called. *)
Definition callbacksOf (timerFirst : Time -> bool) (file : string)
    (events : list (string * Time)) : list Time :=
  watch timerFirst (eventsOf file events) None.

(** A timer that every event re-arms, as the specification words it: the
    callback is called once the file has been quiet for the delay. *)
Fixpoint watchRearming (events : list Time) (timerC : option Time) : list Time :=
  match events with
  | [] => match timerC with Some deadline => [deadline] | None => [] end
  | now :: rest =>
      match timerC with
      | Some deadline =>
          if deadline <? now then deadline :: watchRearming rest (Some (now + debounceDelay))
          else watchRearming rest (Some (now + debounceDelay))
      | None => watchRearming rest (Some (now + debounceDelay))
      end
  end.

(** ** Notions the properties are stated with *)

(** The server after [fns] were handed to [addStartFunc] one by one. *)
Definition registerAll (fns : list StartAction) (s : Server) : Server :=
  foldl (fun s fn => addStartFunc fn s) s fns.

(** The push requests the discovery server has received so far. *)
Definition pushesOf (s : Server) : list PushRequest :=
  match EnvoyXdsServer s with
  | Some xds => configUpdates xds
  | None => []
  end.

(** [s.EnvoyXdsServer != nil] *)
Definition hasDiscoveryServer (s : Server) : bool :=
  match EnvoyXdsServer s with
  | Some _ => true
  | None => false
  end.

(** The server once [reloadMesh] has installed the snapshot [new]: the
    mesh pointer is replaced and, when the discovery server exists, the
    mesh of its environment is replaced and a full push is requested. *)
Definition installMesh (new : MeshConfig) (s : Server) : Server :=
  match EnvoyXdsServer s with
  | Some xds =>
      set_EnvoyXdsServer
        (Some (ConfigUpdate fullPush
                 {| EnvMesh := Some new;
                    EnvMeshNetworks := EnvMeshNetworks xds;
                    configUpdates := configUpdates xds |}))
        (set_mesh (Some new) s)
  | None => set_mesh (Some new) s
  end.

(** The registry names [initServiceControllers] knows. *)
Definition supportedRegistry (r : string) : bool :=
  bool_decide (r ∈ [MockRegistry; KubernetesRegistry; ConsulRegistry; MCPRegistry]).

(** A config source that is taken for a file-system source and whose
    address does not parse as a URL. *)
Definition invalidFsSource (w : World) (src : ConfigSource) : Prop :=
  contains (Address src) (fsScheme +:+ "://") = true
  /\ exists err, urlParse w (Address src) = inl err.

(** A call that ends, and not well: it returns an error or blocks. *)
Definition failsOrHangs {A : Type} (r : Result A) : Prop :=
  r = Hang \/ exists e, r = Err e.

(** ** A world and arguments for examples *)

Definition exampleMesh (mixer : string) (sources : list ConfigSource) : MeshConfig :=
  {| MixerCheckServer := mixer;
     MixerReportServer := mixer;
     ConfigSources := sources;
     IngressControllerMode := MeshConfig_OFF;
     Certificates := [];
     otherFields := "" |}.

(** The mesh file before and after an edit that changes the mixer address
    and adds a config source. *)
Definition meshBefore : MeshConfig := exampleMesh "m1:9091" [].
Definition meshAfter : MeshConfig :=
  exampleMesh "m2:9091" [{| Address := "mcp.example:9901"; TlsSettings := None |}].

(** A world in which every call succeeds, except that the mesh file
    [/etc/istio/broken.yaml] does not parse; [/etc/istio/mesh.yaml] holds
    [meshFile]. *)
Definition worldWith (meshFile : MeshConfig) : World :=
  {| IstioNamespace := "istio-system";
     IstioConfigMap := "istio";
     IstioSystemNamespace := "istio-system";
     AuthCerts := {| CertificateFile := "/etc/certs/cert-chain.pem";
                     KeyFile := "/etc/certs/key.pem";
                     CACertificateFile := "/etc/certs/root-cert.pem" |};
     podNamespace := "istio-system";
     DefaultOption := {| KeepaliveTime := 30 * 1000000000;
                         KeepaliveTimeout := 10 * 1000000000;
                         MaxServerConnectionAge := 2 ^ 63 - 1;
                         MaxServerConnectionAgeGrace := 10 * 1000000000 |};
     CreateClientset := fun _ => inr 0%nat;
     ReadMeshConfig := fun file =>
       if bool_decide (file = "/etc/istio/mesh.yaml") then inr meshFile
       else inl "cannot read mesh config file";
     ConfigMapsGet := fun _ _ _ => ConfigMapNotFound;
     ApplyMeshConfigDefaults := fun _ => inl "failed to convert to proto.";
     DefaultMeshConfig := exampleMesh "" [];
     ReadMeshNetworksConfig := fun _ => inl "cannot read networks config file";
     ResolveHostsInNetworksConfig := fun n => n;
     urlParse := fun _ => inl "parse error";
     statMisses := fun _ => Some 0%nat;
     WatchFiles := fun _ => None;
     DialContext := fun _ => None;
     MakeCache := fun _ => None;
     NewClient := fun _ => None;
     RegisterResources := None;
     NewStatusSyncer := None;
     ConsulNewController := fun _ => None;
     NewDiscoveryService := None;
     ListenHTTP := inr "127.0.0.1:8080";
     ListenGRPC := inr "127.0.0.1:15010";
     ListenSecureGRPC := inr "127.0.0.1:15012";
     NewServerTLSFromFile := None;
     LoadX509KeyPair := None;
     ReadCAFile := None;
     NewMulticluster := None;
     keyCertDirExists := true;
     MkdirAll := None;
     GenKeyCertK8sCA := None;
     WriteFile := fun _ => None;
     NewWebhookController := None |}.

(** The world when the server is constructed, and the world after the
    mesh file was edited. *)
Definition initialWorld : World := worldWith meshBefore.
Definition exampleWorld : World := worldWith meshAfter.

(** Arguments that name a mesh file, an overriding config controller and
    the given registries. *)
Definition exampleArgs (meshFile : string) (registries : list string) : PilotArgs :=
  {| DiscoveryOptions := {| HTTPAddr := ":8080"; GrpcAddr := ":15010";
                            SecureGrpcAddr := ""; MonitoringAddr := ":15014" |};
     Namespace := "";
     Mesh := {| ConfigFile := meshFile; MixerAddress := ""; RdsRefreshDelay := None |};
     Config := {| ClusterRegistriesNamespace := ""; KubeConfig := "";
                  ControllerOptions := {| WatchedNamespace := "";
                                          DomainSuffix := "cluster.local";
                                          ResyncPeriod := 60 * 1000000000 |};
                  FileDir := ""; DisableInstallCRDs := false; Controller := Some 0%nat |};
     Service := {| Registries := registries;
                   Consul := {| ConsulConfig := ""; ServerURL := "";
                                Interval := 2 * 1000000000 |} |};
     argsMeshConfig := None;
     NetworksConfigFile := "";
     CtrlZOptions := false;
     Plugins := [];
     MCPMaxMessageSize := DefaultMCPMaxMsgSize;
     MCPInitialWindowSize := DefaultMCPInitialWindowSize;
     MCPInitialConnWindowSize := DefaultMCPInitialConnWindowSize;
     KeepaliveOptions := None;
     ForceStop := false |}.

(** The server [NewServer] is building from [/etc/istio/mesh.yaml] in the
    initial world, once the first [n] initialisation steps have run. *)
Definition serverAfterSteps (n : nat) : Server :=
  let args := withDefaults initialWorld (exampleArgs "/etc/istio/mesh.yaml" []) in
  match runSteps (take n (initSteps initialWorld args)) emptyServer with
  | (_, Ok (_, s)) => s
  | _ => emptyServer
  end.

(** That server when the constructor has returned it ([true]), and while
    the constructor is still at work, after the service controllers step
    and before the discovery service step ([false]). *)
Definition exampleServer (constructed : bool) : Server :=
  serverAfterSteps (if constructed then 9 else 5).

(** Start functions for examples: the monitor fails to bind, every other
    start function succeeds; the state counts the calls. *)
Definition exampleExec (fn : StartAction) (calls : nat) : nat * option error :=
  match fn with
  | StartMonitor _ => (S calls, Some "listen tcp: address already in use")
  | _ => (S calls, None)
  end.

(** ** Notions for the properties of the initialisation steps *)

(** The watcher [initMesh] registers: one for the mesh file, when the
    arguments give no mesh and name a file. *)
Definition meshWatchers (args : PilotArgs) : list (string * Callback) :=
  match argsMeshConfig args with
  | Some _ => []
  | None =>
      if bool_decide (ConfigFile (Mesh args) ≠ "")
      then [(ConfigFile (Mesh args), ReloadMesh (ConfigFile (Mesh args)))] else []
  end.

(** The watcher [initMeshNetworks] registers: one for the networks file,
    when a file is named and was read. *)
Definition networksWatchers (w : World) (args : PilotArgs) : list (string * Callback) :=
  if bool_decide (NetworksConfigFile args = "") then []
  else match ReadMeshNetworksConfig w (NetworksConfigFile args) with
       | inl _ => []
       | inr _ => [(NetworksConfigFile args, ReloadMeshNetworks (NetworksConfigFile args))]
       end.

(** The networks [initMeshNetworks] stores, if it stores any. *)
Definition networksRead (w : World) (args : PilotArgs) : option MeshNetworks :=
  if bool_decide (NetworksConfigFile args = "") then None
  else match ReadMeshNetworksConfig w (NetworksConfigFile args) with
       | inl _ => None
       | inr read => Some (ResolveHostsInNetworksConfig w read)
       end.

(** The config store the loop of [initMCPConfigController] makes for a
    source it connects to: none when the TLS mode of the source is invalid
    (the source is skipped). *)
Definition remoteStore (w : World) (src : ConfigSource) : option ConfigStoreCache :=
  match securityOption w src with
  | InvalidMode => None
  | _ => Some (MCPController (Address src))
  end.

(** The config store the loop of [initMCPConfigController] makes for one
    source, when the loop gets past that source. *)
Definition storeOf (w : World) (src : ConfigSource) : option ConfigStoreCache :=
  if contains (Address src) (fsScheme +:+ "://") then
    match urlParse w (Address src) with
    | inl _ => None
    | inr srcAddress =>
        if bool_decide (Scheme srcAddress = fsScheme) then
          if bool_decide (Path srcAddress = "") then None
          else Some (MemoryController (Path srcAddress))
        else remoteStore w src
    end
  else remoteStore w src.

(** The start function that comes with a config store: the file monitor
    of a store fed from a directory. *)
Definition monitorOf (c : ConfigStoreCache) : option StartAction :=
  match c with
  | MemoryController dir => Some (StartFileMonitor dir)
  | _ => None
  end.

(** The MCP client that comes with a config store: the address it is fed
    from. *)
Definition clientOf (c : ConfigStoreCache) : option string :=
  match c with
  | MCPController address => Some address
  | _ => None
  end.

(** The config store [initConfigController] settles on before the ingress
    controller is put beside it, with the start functions registered on the
    way. *)
Definition baseController (w : World) (args : PilotArgs) (m : MeshConfig)
    : ConfigStoreCache * list StartAction :=
  if bool_decide (0 < length (ConfigSources m))%nat then
    let stores := omap (storeOf w) (ConfigSources m) in
    (AggregateCache stores,
     omap monitorOf stores ++ [StartMCPClients (omap clientOf stores)])
  else
    match Controller (Config args) with
    | Some c => (ExternalController c, [])
    | None =>
        if bool_decide (FileDir (Config args) ≠ "") then
          (MemoryController (FileDir (Config args)),
           [StartFileMonitor (FileDir (Config args))])
        else (KubeController (KubeConfig (Config args)), [])
    end.

(** [hasKubeRegistry(args) && s.mesh.IngressControllerMode != meshconfig.MeshConfig_OFF] *)
Definition withIngress (args : PilotArgs) (m : MeshConfig) : bool :=
  hasKubeRegistry args && negb (bool_decide (IngressControllerMode m = MeshConfig_OFF)).

(** The start function of the ingress status syncer, when there is one. *)
Definition ingressStartFuncs (w : World) (args : PilotArgs) (m : MeshConfig)
    : list StartAction :=
  if withIngress args m
  then match NewStatusSyncer w with
       | Some _ => []
       | None => [StartIngressSyncer]
       end
  else [].

(** The config store [initConfigController] leaves in the server. *)
Definition finalController (w : World) (args : PilotArgs) (m : MeshConfig)
    : ConfigStoreCache :=
  if withIngress args m
  then AggregateCache [(baseController w args m).1; IngressController]
  else (baseController w args m).1.

(** The registries [initServiceControllers] adds for one registry name. *)
Definition registriesOf (r : string) : list Registry :=
  if bool_decide (r = MockRegistry) then
    [{| Name := "mockAdapter1"; ClusterID := "mockAdapter1" |};
     {| Name := "mockAdapter2"; ClusterID := "mockAdapter2" |}]
  else if bool_decide (r = KubernetesRegistry) then
    [{| Name := KubernetesRegistry; ClusterID := KubernetesRegistry |}]
  else if bool_decide (r = ConsulRegistry) then
    [{| Name := ConsulRegistry; ClusterID := "" |}]
  else [].

(** The cluster registry controller as [createK8sServiceControllers]
    makes it. *)
Definition newKubeRegistry : KubeRegistry :=
  {| networkLookup := None; hasXDSUpdater := false |}.

(** The registry of service entries, added after all the others. *)
Definition serviceEntries : Registry := {| Name := "ServiceEntries"; ClusterID := "" |}.

(** The start function of the secure listener, when there is one. *)
Definition secureStartFuncs (w : World) (args : PilotArgs) : list StartAction :=
  if bool_decide (SecureGrpcAddr (DiscoveryOptions args) ≠ "") then
    match ListenSecureGRPC w with
    | inr secureGrpcListener => [StartSecureDiscovery secureGrpcListener (ForceStop args)]
    | inl _ => []
    end
  else [].

(** The certificates of the mesh: [s.mesh.GetCertificates()]. *)
Definition certsOf (s : Server) : list Certificate :=
  match mesh s with
  | Some m => Certificates m
  | None => []
  end.

(** The certificates the controller is given: those with a DNS name and a
    secret name. *)
Definition managed (c : Certificate) : bool :=
  negb (bool_decide (String.length (join (DnsNames c) ",") = 0%nat))
  && bool_decide (0 < String.length (SecretName c))%nat.

(** The certificates Pilot takes for its own: those with a DNS name and no
    secret name. *)
Definition forPilot (c : Certificate) : bool :=
  negb (bool_decide (String.length (join (DnsNames c) ",") = 0%nat))
  && negb (bool_decide (0 < String.length (SecretName c))%nat).

(** What the loop of [initCertController] has collected after [certs],
    from [acc] on. *)
Definition collected (args : PilotArgs) (certs : list Certificate) (acc : CertLoop)
    (generated : bool) : CertLoop :=
  let kept := filter (fun c => managed c = true) certs in
  {| loopSecretNames := loopSecretNames acc ++ (SecretName <$> kept);
     loopDnsNames := loopDnsNames acc ++ ((fun c => join (DnsNames c) ",") <$> kept);
     loopNamespaces := loopNamespaces acc ++ replicate (length kept) (Namespace args);
     pilotCertGenerated := generated |}.

(** The two lines the wait for a certificate file logs. *)
Definition notFound : Effect := Log Info "%v not found. Checking again in %v".
Definition found : Effect := Log Info "%v found".

(** The discovery server, the cluster registry and the multicluster
    controller hold the mesh and the networks the server holds. *)
Definition inSync (s : Server) : Prop :=
  (forall xds, EnvoyXdsServer s = Some xds ->
               EnvMesh xds = mesh s /\ EnvMeshNetworks xds = meshNetworks s)
  /\ (forall registry, kubeRegistry s = Some registry ->
                       networkLookup registry = Some (meshNetworks s))
  /\ (forall mc, multicluster s = Some mc -> multiclusterNetworks mc = meshNetworks s).

(** The example world with other answers where the networks file is read,
    where its hosts are resolved and where Pilot's certificate is signed. *)
Definition exampleWorldWith (networks : error + MeshNetworks)
    (resolve : MeshNetworks -> MeshNetworks) (genKeyCert : option error) : World :=
  {| IstioNamespace := IstioNamespace exampleWorld;
     IstioConfigMap := IstioConfigMap exampleWorld;
     IstioSystemNamespace := IstioSystemNamespace exampleWorld;
     AuthCerts := AuthCerts exampleWorld;
     podNamespace := podNamespace exampleWorld;
     DefaultOption := DefaultOption exampleWorld;
     CreateClientset := CreateClientset exampleWorld;
     ReadMeshConfig := ReadMeshConfig exampleWorld;
     ConfigMapsGet := ConfigMapsGet exampleWorld;
     ApplyMeshConfigDefaults := ApplyMeshConfigDefaults exampleWorld;
     DefaultMeshConfig := DefaultMeshConfig exampleWorld;
     ReadMeshNetworksConfig := fun _ => networks;
     ResolveHostsInNetworksConfig := resolve;
     urlParse := urlParse exampleWorld;
     statMisses := statMisses exampleWorld;
     WatchFiles := WatchFiles exampleWorld;
     DialContext := DialContext exampleWorld;
     MakeCache := MakeCache exampleWorld;
     NewClient := NewClient exampleWorld;
     RegisterResources := RegisterResources exampleWorld;
     NewStatusSyncer := NewStatusSyncer exampleWorld;
     ConsulNewController := ConsulNewController exampleWorld;
     NewDiscoveryService := NewDiscoveryService exampleWorld;
     ListenHTTP := ListenHTTP exampleWorld;
     ListenGRPC := ListenGRPC exampleWorld;
     ListenSecureGRPC := ListenSecureGRPC exampleWorld;
     NewServerTLSFromFile := NewServerTLSFromFile exampleWorld;
     LoadX509KeyPair := LoadX509KeyPair exampleWorld;
     ReadCAFile := ReadCAFile exampleWorld;
     NewMulticluster := NewMulticluster exampleWorld;
     keyCertDirExists := keyCertDirExists exampleWorld;
     MkdirAll := MkdirAll exampleWorld;
     GenKeyCertK8sCA := genKeyCert;
     WriteFile := WriteFile exampleWorld;
     NewWebhookController := NewWebhookController exampleWorld |}.

(** The example world with other answers where [os.Stat] looks for a
    file. *)
Definition exampleWorldWithMisses (misses : string -> option nat) : World :=
  {| IstioNamespace := IstioNamespace exampleWorld;
     IstioConfigMap := IstioConfigMap exampleWorld;
     IstioSystemNamespace := IstioSystemNamespace exampleWorld;
     AuthCerts := AuthCerts exampleWorld;
     podNamespace := podNamespace exampleWorld;
     DefaultOption := DefaultOption exampleWorld;
     CreateClientset := CreateClientset exampleWorld;
     ReadMeshConfig := ReadMeshConfig exampleWorld;
     ConfigMapsGet := ConfigMapsGet exampleWorld;
     ApplyMeshConfigDefaults := ApplyMeshConfigDefaults exampleWorld;
     DefaultMeshConfig := DefaultMeshConfig exampleWorld;
     ReadMeshNetworksConfig := ReadMeshNetworksConfig exampleWorld;
     ResolveHostsInNetworksConfig := ResolveHostsInNetworksConfig exampleWorld;
     urlParse := urlParse exampleWorld;
     statMisses := misses;
     WatchFiles := WatchFiles exampleWorld;
     DialContext := DialContext exampleWorld;
     MakeCache := MakeCache exampleWorld;
     NewClient := NewClient exampleWorld;
     RegisterResources := RegisterResources exampleWorld;
     NewStatusSyncer := NewStatusSyncer exampleWorld;
     ConsulNewController := ConsulNewController exampleWorld;
     NewDiscoveryService := NewDiscoveryService exampleWorld;
     ListenHTTP := ListenHTTP exampleWorld;
     ListenGRPC := ListenGRPC exampleWorld;
     ListenSecureGRPC := ListenSecureGRPC exampleWorld;
     NewServerTLSFromFile := NewServerTLSFromFile exampleWorld;
     LoadX509KeyPair := LoadX509KeyPair exampleWorld;
     ReadCAFile := ReadCAFile exampleWorld;
     NewMulticluster := NewMulticluster exampleWorld;
     keyCertDirExists := keyCertDirExists exampleWorld;
     MkdirAll := MkdirAll exampleWorld;
     GenKeyCertK8sCA := GenKeyCertK8sCA exampleWorld;
     WriteFile := WriteFile exampleWorld;
     NewWebhookController := NewWebhookController exampleWorld |}.

(** A mesh with the given certificates and nothing else. *)
Definition meshWithCertificates (certs : list Certificate) : MeshConfig :=
  {| MixerCheckServer := "";
     MixerReportServer := "";
     ConfigSources := [];
     IngressControllerMode := MeshConfig_OFF;
     Certificates := certs;
     otherFields := "" |}.

(** ** Proof automation

    The equations for running a method step by step are collected in the
    rewrite database [init]; [run_init] rewrites with them until nothing
    changes. *)
Create Rewrite HintDb init.

Ltac run_init := repeat (autorewrite with init; cbn [app]).

(** [run_init_in H] does the same in the hypothesis [H]. *)
Ltac run_init_in H := repeat (autorewrite with init in H; cbn [app] in H).

(** [same_server s] proves that two ways of setting the fields of [s] give
    the same server. *)
Ltac same_server s :=
  destruct s; cbn; rewrite <- ?app_assoc, ?app_nil_r; cbn [app]; reflexivity.

End bootstrap.

(* ===================================================================== *)
(** * Properties of the proxy agent                                       *)
(* ===================================================================== *)
Module envoy_spec.
Import envoy.

(** ** Machine integers *)

Lemma wrap_int_in_range (z : Z) : - 2 ^ 63 <= z <= int_max -> wrap_int z = z.
Proof.
  unfold wrap_int, int_max. intros Hz.
  rewrite Z.mod_small; lia.
Qed.

(** ** Traces *)

Lemma spawnedEpochs_app `{ConfigModel} (t1 t2 : list Effect) :
  spawnedEpochs (t1 ++ t2) = spawnedEpochs t1 ++ spawnedEpochs t2.
Proof. apply omap_app. Qed.

Lemma sentOn_app `{ConfigModel} (e : error) (t1 t2 : list Effect) :
  sentOn e (t1 ++ t2) = sentOn e t1 ++ sentOn e t2.
Proof. apply omap_app. Qed.

Lemma selectLoop_spawns_nothing `{ConfigModel} p timeout ticks :
  spawnedEpochs (selectLoop p timeout ticks) = [].
Proof.
  induction ticks as [|t rest IH]; simpl; [done|].
  destruct ((t =? timeout) && timerWins p); [done|].
  destruct (IsLive p t); [done|]. exact IH.
Qed.

Lemma selectLoop_sends_nothing `{ConfigModel} e p timeout ticks :
  sentOn e (selectLoop p timeout ticks) = [].
Proof.
  induction ticks as [|t rest IH]; simpl; [done|].
  destruct ((t =? timeout) && timerWins p); [done|].
  destruct (IsLive p t); [done|]. exact IH.
Qed.

Lemma waitUntilLive_spawns_nothing `{ConfigModel} p a :
  spawnedEpochs (waitUntilLive p a) = [].
Proof.
  unfold waitUntilLive. case_bool_decide; [done|].
  rewrite !spawnedEpochs_app.
  destruct (IsLive p 0); [done|].
  change (spawnedEpochs (CallIsLive 0 false :: ?l)) with (spawnedEpochs l).
  by rewrite selectLoop_spawns_nothing.
Qed.

Lemma waitUntilLive_sends_nothing `{ConfigModel} e p a :
  sentOn e (waitUntilLive p a) = [].
Proof.
  unfold waitUntilLive. case_bool_decide; [done|].
  rewrite !sentOn_app.
  destruct (IsLive p 0); [done|].
  change (sentOn e (CallIsLive 0 false :: ?l)) with (sentOn e l).
  by rewrite selectLoop_sends_nothing.
Qed.

(** ** One call of [Restart] *)

Lemma Restart_same `{ConfigModel} config p a :
  DeepEqual (currentConfig a) config = true -> Restart config p a = (a, []).
Proof. intros Heq. unfold Restart. by rewrite Heq. Qed.

Lemma Restart_new `{ConfigModel} config p a :
  DeepEqual (currentConfig a) config = false ->
  Restart config p a =
    ({| activeEpochs := <[wrap_int (currentEpoch a + 1) := chansMade a]> (activeEpochs a);
        currentEpoch := wrap_int (currentEpoch a + 1);
        currentConfig := config;
        terminationDrainDuration := terminationDrainDuration a;
        chansMade := S (chansMade a) |},
     waitUntilLive p a ++ [GoRunWait config (wrap_int (currentEpoch a + 1)) (chansMade a)]).
Proof. intros Hne. unfold Restart. by rewrite Hne. Qed.

Lemma Restart_spawned `{ConfigModel} config p a :
  spawnedEpochs (Restart config p a).2 =
    if DeepEqual (currentConfig a) config then [] else [wrap_int (currentEpoch a + 1)].
Proof.
  destruct (DeepEqual (currentConfig a) config) eqn:E.
  - by rewrite Restart_same.
  - rewrite Restart_new by done. simpl.
    by rewrite spawnedEpochs_app, waitUntilLive_spawns_nothing.
Qed.

Lemma Restart_epoch `{ConfigModel} config p a :
  currentEpoch (Restart config p a).1 =
    if DeepEqual (currentConfig a) config then currentEpoch a
    else wrap_int (currentEpoch a + 1).
Proof.
  destruct (DeepEqual (currentConfig a) config) eqn:E.
  - by rewrite Restart_same.
  - by rewrite Restart_new.
Qed.

Lemma Restart_drain_duration `{ConfigModel} config p a :
  terminationDrainDuration (Restart config p a).1 = terminationDrainDuration a.
Proof.
  destruct (DeepEqual (currentConfig a) config) eqn:E.
  - by rewrite Restart_same.
  - by rewrite Restart_new.
Qed.

Lemma Restart_sends_nothing `{ConfigModel} e config p a :
  sentOn e (Restart config p a).2 = [].
Proof.
  destruct (DeepEqual (currentConfig a) config) eqn:E.
  - by rewrite Restart_same.
  - rewrite Restart_new by done. simpl.
    by rewrite sentOn_app, waitUntilLive_sends_nothing.
Qed.

(** ** Sequences of calls *)

Lemma calls_cons `{ConfigModel} c cs a :
  calls (c :: cs) a =
    ((calls cs (call c a).1).1, (call c a).2 ++ (calls cs (call c a).1).2).
Proof.
  simpl. destruct (call c a) as [a1 t1]. simpl.
  by destruct (calls cs a1) as [a2 t2].
Qed.

Lemma wrap_int_succ (z : Z) : wrap_int (wrap_int z + 1) = wrap_int (z + 1).
Proof.
  unfold wrap_int.
  replace ((z + 2 ^ 63) mod 2 ^ 64 - 2 ^ 63 + 1 + 2 ^ 63)
    with ((z + 2 ^ 63) mod 2 ^ 64 + 1) by lia.
  rewrite Z.add_mod_idemp_l by lia. f_equal. f_equal. lia.
Qed.

Lemma call_epoch_spawned `{ConfigModel} c a :
  (spawnedEpochs (call c a).2 = [] /\ currentEpoch (call c a).1 = currentEpoch a)
  \/ (spawnedEpochs (call c a).2 = [wrap_int (currentEpoch a + 1)]
      /\ currentEpoch (call c a).1 = wrap_int (currentEpoch a + 1)).
Proof.
  destruct c as [config p|status]; simpl.
  - rewrite Restart_spawned, Restart_epoch.
    destruct (DeepEqual (currentConfig a) config); [by left|by right].
  - by left.
Qed.

(** From any state whose counter holds [wrap_int z]: the runners spawned by
    [cs] carry the epochs that follow [z], reduced to 64 bits, and the
    counter ends on the last of them. *)
Lemma calls_epochs_from `{ConfigModel} cs a (z : Z) :
  currentEpoch a = wrap_int z ->
  spawnedEpochs (calls cs a).2 =
    (fun i : nat => wrap_int (z + 1 + Z.of_nat i))
      <$> seq 0 (length (spawnedEpochs (calls cs a).2))
  /\ currentEpoch (calls cs a).1 =
       wrap_int (z + Z.of_nat (length (spawnedEpochs (calls cs a).2)))
  /\ (length (spawnedEpochs (calls cs a).2) <= length cs)%nat.
Proof.
  revert a z. induction cs as [|c cs IH]; intros a z Hz.
  - simpl. split; [done|]. split; [by rewrite Z.add_0_r|done].
  - rewrite calls_cons. cbn [fst snd]. rewrite spawnedEpochs_app, length_app.
    destruct (call_epoch_spawned c a) as [[Hs He]|[Hs He]].
    + rewrite Hs. cbn [length app Nat.add].
      destruct (IH (call c a).1 z) as (IH1 & IH2 & IH3); [congruence|].
      split; [exact IH1|]. split; [exact IH2|]. simpl. lia.
    + rewrite Hs. cbn [length app Nat.add].
      destruct (IH (call c a).1 (z + 1)) as (IH1 & IH2 & IH3).
      { rewrite He, Hz. apply wrap_int_succ. }
      split; [|split; [|simpl; lia]].
      * cbn [seq fmap list_fmap]. f_equal.
        { rewrite Hz, wrap_int_succ. f_equal. lia. }
        rewrite IH1 at 1. rewrite <- fmap_S_seq, <- list_fmap_compose.
        apply list_fmap_ext. intros _ i _. simpl. f_equal. lia.
      * rewrite IH2. f_equal. lia.
Qed.

(** ** C1: epochs are handed out in sequence *)

(** C1.  An agent made by [NewAgent] starts with the epoch counter at -1.
    After any sequence [cs] of calls (restarts, interleaved with proxy
    exits), the runners spawned so far carry the epochs 0, 1, 2, ... in
    that order, as 64-bit integers; the counter holds the last of them; and
    a further [Restart] that spawns a runner gives it the counter's value
    plus one and stores that value in the counter (one that spawns none
    leaves the counter alone).  As long as fewer than 2^63 calls were made
    the 64-bit counter has not wrapped around: the epochs are the numbers
    0, 1, 2, ... themselves, with no gap and no repetition. *)
Theorem restart_epochs_sequential `{ConfigModel}
    (d : Duration) (cs : list Call) (config : option Config) (p : ProxyEnv) :
  let a := (calls cs (NewAgent d)).1 in
  let t := (calls cs (NewAgent d)).2 in
  let next := Restart config p a in
  currentEpoch (NewAgent d) = -1
  /\ spawnedEpochs t =
       (fun i : nat => wrap_int (Z.of_nat i)) <$> seq 0 (length (spawnedEpochs t))
  /\ currentEpoch a = wrap_int (Z.of_nat (length (spawnedEpochs t)) - 1)
  /\ spawnedEpochs next.2 =
       (if DeepEqual (currentConfig a) config then []
        else [wrap_int (currentEpoch a + 1)])
  /\ currentEpoch next.1 =
       (if DeepEqual (currentConfig a) config then currentEpoch a
        else wrap_int (currentEpoch a + 1))
  /\ (Z.of_nat (length cs) < 2 ^ 63 ->
      spawnedEpochs t = Z.of_nat <$> seq 0 (length (spawnedEpochs t))
      /\ NoDup (spawnedEpochs t)
      /\ currentEpoch a = Z.of_nat (length (spawnedEpochs t)) - 1
      /\ wrap_int (currentEpoch a + 1) = currentEpoch a + 1).
Proof.
  intros a t next.
  destruct (calls_epochs_from cs (NewAgent d) (-1)) as (Hs & He & Hn); [done|].
  fold a in He. fold t in Hs, He, Hn.
  assert (spawnedEpochs t =
            (fun i : nat => wrap_int (Z.of_nat i)) <$> seq 0 (length (spawnedEpochs t)))
    as Hs'.
  { rewrite Hs at 1. apply list_fmap_ext. intros _ i _. f_equal; lia. }
  assert (currentEpoch a = wrap_int (Z.of_nat (length (spawnedEpochs t)) - 1)) as He'.
  { rewrite He. f_equal; lia. }
  split; [done|]. split; [exact Hs'|]. split; [exact He'|].
  split; [apply Restart_spawned|]. split; [apply Restart_epoch|].
  intros Hlen.
  assert (spawnedEpochs t = Z.of_nat <$> seq 0 (length (spawnedEpochs t))) as Hseq.
  { rewrite Hs' at 1. apply list_fmap_ext. intros k i Hi.
    apply lookup_seq in Hi as [-> Hi]. apply wrap_int_in_range.
    unfold int_max. lia. }
  assert (currentEpoch a = Z.of_nat (length (spawnedEpochs t)) - 1) as Hcur.
  { rewrite He'. apply wrap_int_in_range. unfold int_max. lia. }
  split; [exact Hseq|]. split.
  { rewrite Hseq. apply NoDup_fmap_2; [apply Nat2Z.inj'|apply NoDup_seq]. }
  split; [exact Hcur|].
  apply wrap_int_in_range. unfold int_max. lia.
Qed.

(** The scenario of the specification: [Restart({v:1})], [Restart({v:2})],
    then [Restart({v:2})] again spawn the epochs 0 and 1, and a restart
    with a new configuration would then spawn epoch 2. *)
Lemma restart_epochs_sequential_witness :
  let cs := [CallRestart (versioned 1) liveProxy;
             CallRestart (versioned 2) liveProxy;
             CallRestart (versioned 2) liveProxy] in
  Z.of_nat (length cs) < 2 ^ 63
  /\ spawnedEpochs (calls cs (NewAgent 0)).2 = [0; 1]
  /\ currentEpoch (calls cs (NewAgent 0)).1 = 1
  /\ spawnedEpochs (Restart (versioned 3) liveProxy (calls cs (NewAgent 0)).1).2 = [2].
Proof.
  intros cs.
  assert (Z.of_nat (length cs) < 2 ^ 63) as Hlen by (vm_compute; reflexivity).
  split; [exact Hlen|].
  pose proof (restart_epochs_sequential 0 cs (versioned 3) liveProxy)
    as (_ & _ & _ & Hn & _ & Hbound).
  destruct (Hbound Hlen) as (Hs & _ & He & _).
  split; [exact Hs|]. split; [exact He|exact Hn].
Defined.

(** ** C2: an equal configuration restarts nothing *)

(** C2 as stated fails where the first of the two calls restarts nothing
    either: on an agent already running [{v:1}], [Restart({v:1})] followed by
    [Restart({v:1})] spawns no runner at all, not one; and so do
    [Restart(nil)] followed by [Restart(nil)] on a new agent, whose
    configuration is nil. *)
Lemma restart_same_twice_spawns_none :
  let a := (Restart (versioned 1) liveProxy (NewAgent 0)).1 in
  let r1 := Restart (versioned 1) liveProxy a in
  let r2 := Restart (versioned 1) liveProxy r1.1 in
  let n1 := Restart (H := versionModel) None liveProxy (NewAgent 0) in
  let n2 := Restart (H := versionModel) None liveProxy n1.1 in
  DeepEqual (versioned 1) (versioned 1) = true
  /\ length (spawnedEpochs (r1.2 ++ r2.2)) = 0%nat
  /\ length (spawnedEpochs (r1.2 ++ r2.2)) <> 1%nat
  /\ DeepEqual (H := versionModel) None None = true
  /\ length (spawnedEpochs (n1.2 ++ n2.2)) = 0%nat
  /\ length (spawnedEpochs (n1.2 ++ n2.2)) <> 1%nat.
Proof.
  vm_compute. repeat split; try reflexivity; discriminate.
Qed.

(** C2 (amended).  In every agent state, [Restart] with a configuration
    deeply equal to the current one is a no-op: the agent (epoch counter,
    active set, configuration) is unchanged and the trace is empty, so no
    runner is spawned.  In particular, when [c] is not deeply equal to the
    current configuration and [c'] is deeply equal to [c], [Restart c]
    followed by [Restart c'] spawns exactly one runner in total, and the
    second call changes nothing. *)
Theorem restart_equal_config_is_noop `{ConfigModel}
    (a : agent) (c c' : option Config) (p p' : ProxyEnv) :
  (DeepEqual (currentConfig a) c = true ->
     Restart c p a = (a, [])
     /\ spawnedEpochs (Restart c p a).2 = []
     /\ currentEpoch (Restart c p a).1 = currentEpoch a
     /\ activeEpochs (Restart c p a).1 = activeEpochs a)
  /\ (DeepEqual (currentConfig a) c = false ->
      DeepEqual c c' = true ->
      let r1 := Restart c p a in
      let r2 := Restart c' p' r1.1 in
      length (spawnedEpochs (r1.2 ++ r2.2)) = 1%nat
      /\ r2 = (r1.1, [])).
Proof.
  split.
  - intros Hsame. by rewrite (Restart_same _ _ _ Hsame).
  - intros Hnew Hcc' r1 r2. subst r2 r1.
    assert (currentConfig (Restart c p a).1 = c) as Hcur
      by (by rewrite Restart_new).
    assert (Restart c' p' (Restart c p a).1 = ((Restart c p a).1, [])) as Hnoop.
    { apply Restart_same. by rewrite Hcur. }
    rewrite Hnoop. split; [|done].
    rewrite app_nil_r, Restart_spawned, Hnew. done.
Qed.

(** On an agent running [{v:1}]: [Restart({v:1})] changes nothing, and
    [Restart({v:2})] followed by [Restart({v:2})] spawns one runner. *)
Lemma restart_equal_config_is_noop_witness :
  let a := (Restart (versioned 1) liveProxy (NewAgent 0)).1 in
  (DeepEqual (currentConfig a) (versioned 1) = true
   /\ Restart (versioned 1) deadProxy a = (a, []))
  /\ (DeepEqual (currentConfig a) (versioned 2) = false
      /\ DeepEqual (versioned 2) (versioned 2) = true
      /\ length (spawnedEpochs
                   ((Restart (versioned 2) deadProxy a).2
                    ++ (Restart (versioned 2) liveProxy
                          (Restart (versioned 2) deadProxy a).1).2)) = 1%nat).
Proof.
  intros a.
  assert (DeepEqual (currentConfig a) (versioned 1) = true) as H0 by reflexivity.
  assert (DeepEqual (currentConfig a) (versioned 2) = false) as H1 by reflexivity.
  assert (DeepEqual (versioned 2) (versioned 2) = true) as H2 by reflexivity.
  split.
  - split; [exact H0|].
    exact (proj1 (proj1 (restart_equal_config_is_noop a (versioned 1) (versioned 1)
                           deadProxy deadProxy) H0)).
  - split; [exact H1|]. split; [exact H2|].
    exact (proj1 (proj2 (restart_equal_config_is_noop a (versioned 2) (versioned 2)
                           deadProxy liveProxy) H1 H2)).
Defined.

(** ** C3: the wait for the running epoch *)

Lemma failedPolls_cons `{ConfigModel} interval first count :
  failedPolls interval first (S count) =
    CallIsLive (Z.of_nat first * interval) false :: failedPolls interval (S first) count.
Proof. reflexivity. Qed.

(** The select loop over the ticks number [j] to [j + n - 1], the last of
    which falls on the timeout: it polls at each tick until the proxy is
    live, and gives up at the timeout. *)
Lemma selectLoop_outcome `{ConfigModel} (p : ProxyEnv) (interval timeout : Duration)
    (n j : nat) :
  0 < interval ->
  n = 0%nat \/ (Z.of_nat j + Z.of_nat n - 1) * interval = timeout ->
  exists k : nat,
    (forall i : nat, (i < k)%nat -> IsLive p (Z.of_nat (j + i) * interval) = false)
    /\ (((k < n)%nat
         /\ IsLive p (Z.of_nat (j + k) * interval) = true
         /\ selectLoop p timeout ((fun i : nat => Z.of_nat i * interval) <$> seq j n) =
              failedPolls interval j k ++ [CallIsLive (Z.of_nat (j + k) * interval) true])
        \/ ((k = n \/ S k = n)
            /\ selectLoop p timeout ((fun i : nat => Z.of_nat i * interval) <$> seq j n) =
                 failedPolls interval j k ++ [TimerFired timeout])).
Proof.
  intros Hpos. revert j. induction n as [|n IH]; intros j Hlast.
  - exists 0%nat. split; [lia|]. right. split; [by left|done].
  - destruct Hlast as [|Hlast]; [done|].
    cbn [seq fmap list_fmap selectLoop].
    destruct ((Z.of_nat j * interval =? timeout) && timerWins p) eqn:Etie.
    + apply andb_true_iff in Etie as [Et _]. apply Z.eqb_eq in Et.
      assert (n = 0%nat) as -> by nia.
      exists 0%nat. split; [lia|]. right. split; [by right|done].
    + destruct (IsLive p (Z.of_nat j * interval)) eqn:Elive.
      * exists 0%nat. split; [lia|]. left.
        rewrite Nat.add_0_r. split; [lia|]. split; [done|done].
      * destruct (IH (S j)) as (k & Hfalse & Hend).
        { destruct n; [by left|right]. rewrite <- Hlast. lia. }
        exists (S k). split.
        { intros [|i] Hi; [by rewrite Nat.add_0_r|].
          replace (j + S i)%nat with (S j + i)%nat by lia. apply Hfalse. lia. }
        rewrite failedPolls_cons.
        replace (j + S k)%nat with (S j + k)%nat by lia.
        destruct Hend as [(Hk & Hl & ->)|(Hk & ->)].
        -- left. split; [lia|]. split; [done|done].
        -- right. split; [lia|done].
Qed.

Lemma tickTimes_live :
  tickTimes liveCheckInterval liveTimeout =
    (fun i : nat => Z.of_nat i * liveCheckInterval) <$> seq 1 40.
Proof. reflexivity. Qed.

(** C3.  A [Restart] with a configuration unequal to the current one: when
    no epoch is active it spawns the next runner at once, without a timer
    and without asking the proxy; when some epoch is active it arms a
    500 ms ticker and a 20 s timer, asks [IsLive] at once and then at every
    tick, and spawns the next runner (with the incremented epoch) only
    after an answer "live" or after the timer fired at 20 s; on the timeout
    it spawns all the same. *)
Theorem restart_waits_for_live_or_timeout `{ConfigModel}
    (config : option Config) (p : ProxyEnv) (a : agent) :
  DeepEqual (currentConfig a) config = false ->
  let spawn := GoRunWait config (wrap_int (currentEpoch a + 1)) (chansMade a) in
  let t := (Restart config p a).2 in
  let every := 500 * Millisecond in
  currentEpoch (Restart config p a).1 = wrap_int (currentEpoch a + 1)
  /\ (size (activeEpochs a) = 0%nat -> t = [spawn])
  /\ (size (activeEpochs a) <> 0%nat ->
      exists k : nat,
        (forall i : nat, (i < k)%nat -> IsLive p (Z.of_nat i * every) = false)
        /\ (((k <= 40)%nat
             /\ IsLive p (Z.of_nat k * every) = true
             /\ t = [NewTicker every; NewTimer (20 * Second)]
                    ++ failedPolls every 0 k
                    ++ [CallIsLive (Z.of_nat k * every) true;
                        StopTicker; StopTimer; spawn])
            \/ ((k = 40 \/ k = 41)%nat
                /\ t = [NewTicker every; NewTimer (20 * Second)]
                       ++ failedPolls every 0 k
                       ++ [TimerFired (20 * Second);
                           StopTicker; StopTimer; spawn]))).
Proof.
  intros Hnew spawn t every. subst t. rewrite Restart_new by done.
  split; [done|].
  cbn [snd]. fold spawn. unfold waitUntilLive. split.
  - intros Hsize. by rewrite bool_decide_eq_true_2.
  - intros Hsize. rewrite bool_decide_eq_false_2 by done.
    rewrite tickTimes_live.
    change liveCheckInterval with every. change liveTimeout with (20 * Second).
    destruct (IsLive p 0) eqn:Enow.
    + exists 0%nat. split; [lia|]. left. split; [lia|]. split; [done|done].
    + destruct (selectLoop_outcome p every (20 * Second) 40 1) as (k & Hfalse & Hend);
        [done|by right|].
      exists (S k). split.
      { intros [|i] Hi; [done|]. apply (Hfalse i). lia. }
      rewrite failedPolls_cons. cbn [Nat.add] in Hend.
      destruct Hend as [(Hk & Hl & ->)|(Hk & ->)].
      * left. split; [lia|]. split; [done|].
        cbn [app]. by rewrite <- !app_assoc.
      * right. split; [lia|].
        cbn [app]. by rewrite <- !app_assoc.
Qed.

(** Three restarts on an agent with epoch 0 active: the proxy is live at
    once; it goes live 1.2 s into the wait and is found live at the poll at
    1.5 s; it never goes live and the wait ends at 20 s.  Each spawns
    epoch 1. *)
Lemma restart_waits_for_live_or_timeout_witness :
  let a := (Restart (versioned 1) liveProxy (NewAgent 0)).1 in
  let every := 500 * Millisecond in
  DeepEqual (currentConfig a) (versioned 2) = false
  /\ size (activeEpochs a) <> 0%nat
  /\ (Restart (versioned 2) slowProxy a).2 =
       [NewTicker every; NewTimer (20 * Second);
        CallIsLive 0 false; CallIsLive every false; CallIsLive (2 * every) false;
        CallIsLive (3 * every) true; StopTicker; StopTimer;
        GoRunWait (versioned 2) 1 1%nat]
  /\ exists k : nat,
       (k = 40 \/ k = 41)%nat
       /\ (Restart (versioned 2) deadProxy a).2 =
            [NewTicker every; NewTimer (20 * Second)]
            ++ failedPolls every 0 k
            ++ [TimerFired (20 * Second); StopTicker; StopTimer;
                GoRunWait (versioned 2) 1 1%nat].
Proof.
  intros a every.
  assert (DeepEqual (currentConfig a) (versioned 2) = false) as Hnew by reflexivity.
  assert (size (activeEpochs a) <> 0%nat) as Hact by (vm_compute; discriminate).
  split; [exact Hnew|]. split; [exact Hact|]. split; [reflexivity|].
  destruct (proj2 (proj2 (restart_waits_for_live_or_timeout (versioned 2) deadProxy a Hnew))
              Hact)
    as (k & _ & [(_ & Hlive & _)|(Hk & Ht)]).
  - discriminate Hlive.
  - exists k. split; [exact Hk|exact Ht].
Defined.
(** ** C4: termination drains, sleeps, then aborts every active epoch *)

Lemma NewAgent_channelsOwned `{ConfigModel} d : channelsOwned (NewAgent d).
Proof. split; simpl; intros *; by rewrite lookup_empty. Qed.

Lemma Restart_channelsOwned `{ConfigModel} config p a :
  channelsOwned a -> channelsOwned (Restart config p a).1.
Proof.
  intros [Hlt Hinj]. destruct (DeepEqual (currentConfig a) config) eqn:E.
  { by rewrite Restart_same. }
  rewrite Restart_new by done. cbn [fst]. split; cbn [activeEpochs chansMade].
  - intros e ch. rewrite lookup_insert. case_decide.
    + intros [= <-]. lia.
    + intros Hin. apply Hlt in Hin. lia.
  - intros e1 e2 ch. rewrite !lookup_insert. repeat case_decide.
    + congruence.
    + intros [= <-] Hin. apply Hlt in Hin. lia.
    + intros Hin [= <-]. apply Hlt in Hin. lia.
    + apply Hinj.
Qed.

Lemma onStatus_channelsOwned `{ConfigModel} status a :
  channelsOwned a -> channelsOwned (onStatus status a).1.
Proof.
  intros [Hlt Hinj]. split; cbn [onStatus fst activeEpochs chansMade].
  - intros e ch Hin. apply lookup_delete_Some in Hin as [_ Hin]. by eapply Hlt.
  - intros e1 e2 ch H1 H2.
    apply lookup_delete_Some in H1 as [_ H1].
    apply lookup_delete_Some in H2 as [_ H2]. by eapply Hinj.
Qed.

Lemma calls_channelsOwned `{ConfigModel} cs a :
  channelsOwned a -> channelsOwned (calls cs a).1.
Proof.
  revert a. induction cs as [|c cs IH]; intros a Ha; [done|].
  rewrite calls_cons. cbn [fst]. apply IH.
  destruct c as [config p|status]; cbn [call fst].
  - by apply Restart_channelsOwned.
  - by apply onStatus_channelsOwned.
Qed.

Lemma sentOn_abortAll `{ConfigModel} a :
  sentOn errAbort (abortAll a) = (map_to_list (activeEpochs a)).*2.
Proof.
  unfold abortAll, sentOn.
  induction (map_to_list (activeEpochs a)) as [|[e ch] l IH]; [done|].
  cbn [fmap list_fmap omap list_omap snd]. rewrite bool_decide_eq_true_2 by done.
  simpl. f_equal. exact IH.
Qed.

Lemma filter_eq_absent {A} `{EqDecision A} (x : A) (l : list A) :
  x ∉ l -> filter (fun y => y = x) l = [].
Proof.
  induction l as [|y l IH]; intros Hnin; [done|].
  apply not_elem_of_cons in Hnin as [Hne Hnin].
  rewrite filter_cons, decide_False by congruence. by apply IH.
Qed.

Lemma filter_eq_once {A} `{EqDecision A} (x : A) (l : list A) :
  NoDup l -> x ∈ l -> length (filter (fun y => y = x) l) = 1%nat.
Proof.
  induction 1 as [|y l Hy Hnd IH]; intros Hin.
  - by apply elem_of_nil in Hin.
  - rewrite filter_cons. apply elem_of_cons in Hin as [->|Hin].
    + rewrite decide_True by done. by rewrite filter_eq_absent.
    + rewrite decide_False; [by apply IH|]. intros ->. done.
Qed.

(** C4.  On an agent reached from [NewAgent] by any calls, [Run] answers
    the cancellation of its context by running [terminate] and returning;
    the trace of [terminate] is the trace of [Restart(DrainConfig{})], then one
    [Sleep(terminationDrainDuration)], then the sends of [abortAll]; nothing
    is sent before the sleep; every send carries [errAbort]; there is one
    send per epoch of the active set (as it stands after the drain
    restart), and the abort channel of each such epoch receives [errAbort]
    exactly once. *)
Theorem terminate_drains_sleeps_aborts `{ConfigModel}
    (d : Duration) (cs : list Call) (p : ProxyEnv) :
  let a := (calls cs (NewAgent d)).1 in
  let drained := Restart (Some DrainConfig) p a in
  exists sends : list Effect,
    (forall rest, Run (ContextDone p :: rest) a = (terminate p a, true))
    /\ terminate p a =
      (drained.1, drained.2 ++ [Sleep (terminationDrainDuration a)] ++ sends)
    /\ sentOn errAbort drained.2 = []
    /\ (forall e, e ∈ sends -> exists ch, e = Send ch errAbort)
    /\ length sends = size (activeEpochs drained.1)
    /\ (forall epoch ch,
          activeEpochs drained.1 !! epoch = Some ch ->
          timesSent errAbort ch (terminate p a).2 = 1%nat)
    /\ (forall ch,
          ch ∈ sentOn errAbort (terminate p a).2 ->
          exists epoch, activeEpochs drained.1 !! epoch = Some ch).
Proof.
  intros a drained. exists (abortAll drained.1).
  assert (channelsOwned drained.1) as [_ Hinj].
  { apply Restart_channelsOwned, calls_channelsOwned, NewAgent_channelsOwned. }
  assert (terminate p a =
            (drained.1, drained.2 ++ [Sleep (terminationDrainDuration a)]
                        ++ abortAll drained.1)) as Hterm.
  { unfold terminate. fold drained.
    rewrite <- (Restart_drain_duration (Some DrainConfig) p a). fold drained.
    by destruct drained. }
  assert (sentOn errAbort (terminate p a).2 = (map_to_list (activeEpochs drained.1)).*2)
    as Hsent.
  { rewrite Hterm. cbn [snd]. rewrite !sentOn_app.
    unfold drained at 1. rewrite Restart_sends_nothing. apply sentOn_abortAll. }
  split.
  { intros rest. cbn [Run]. by destruct (terminate p a). }
  split; [exact Hterm|]. split; [apply Restart_sends_nothing|]. split.
  { intros e Hin. unfold abortAll in Hin.
    apply list_elem_of_fmap in Hin as ([k ch] & -> & _). by exists ch. }
  split.
  { unfold abortAll. by rewrite length_fmap, length_map_to_list. }
  split.
  - intros epoch ch Hin. unfold timesSent. rewrite Hsent.
    apply filter_eq_once.
    + apply NoDup_fmap_2_strong; [|apply NoDup_map_to_list].
      intros [e1 c1] [e2 c2] H1 H2. cbn [snd]. intros <-.
      apply elem_of_map_to_list in H1, H2. f_equal. by eapply Hinj.
    + apply list_elem_of_fmap. exists (epoch, ch). split; [done|].
      by apply elem_of_map_to_list.
  - intros ch. rewrite Hsent. intros Hin.
    apply list_elem_of_fmap in Hin as ([e c] & -> & Hin).
    exists e. by apply elem_of_map_to_list.
Qed.

End envoy_spec.

(* ===================================================================== *)
(** * Properties of the bootstrap server                                  *)
(* ===================================================================== *)
Module bootstrap_spec.
Import bootstrap.

(** ** Running a method step by step *)

Lemma prepend_nil {A : Type} (x : list Effect * A) : prepend [] x = x.
Proof. by destruct x. Qed.

Lemma prepend_prepend {A : Type} t1 t2 (x : list Effect * A) :
  prepend t1 (prepend t2 x) = prepend (t1 ++ t2) x.
Proof. destruct x. unfold prepend. simpl. by rewrite app_assoc. Qed.

Lemma prepend_pair {A : Type} t1 t2 (r : A) : prepend t1 (t2, r) = (t1 ++ t2, r).
Proof. reflexivity. Qed.

Lemma run_bind_ret {A B : Type} (a : A) (f : A -> Init B) s :
  (mret a ≫= f) s = f a s.
Proof. apply prepend_nil. Qed.

Lemma run_bind_get {B : Type} (f : Server -> Init B) s :
  (get ≫= f) s = f s s.
Proof. apply prepend_nil. Qed.

Lemma run_bind_modify {B : Type} (g : Server -> Server) (f : unit -> Init B) s :
  (modify g ≫= f) s = f tt (g s).
Proof. apply prepend_nil. Qed.

Lemma run_bind_logf {B : Type} level format (f : unit -> Init B) s :
  (logf level format ≫= f) s = prepend [Log level format] (f tt s).
Proof. reflexivity. Qed.

Lemma run_bind_fail {A B : Type} e (f : A -> Init B) s :
  (fail e ≫= f) s = ([], Err e).
Proof. reflexivity. Qed.

Lemma run_bind_panic {A B : Type} what (f : A -> Init B) s :
  (panic what ≫= f) s = ([], Panic what).
Proof. reflexivity. Qed.

Lemma run_bind_hang {A B : Type} (f : A -> Init B) s :
  (hang ≫= f) s = ([], Hang).
Proof. reflexivity. Qed.

Lemma run_bind_assoc {A B C : Type} (m : Init A) (f : A -> Init B) (g : B -> Init C) s :
  ((m ≫= f) ≫= g) s = (m ≫= fun a => f a ≫= g) s.
Proof.
  unfold mbind, Init_bind. destruct (m s) as [t1 [[a s1]|e| |what]]; try done.
  destruct (f a s1) as [t2 [[b s2]|e| |what]]; try done.
  unfold prepend at 1 2 3. cbn [fst snd]. unfold prepend at 1.
  destruct (g b s2) as [t3 r]. unfold prepend. simpl. by rewrite app_assoc.
Qed.

Lemma run_ret {A : Type} (a : A) s : mret (M := Init) a s = ([], Ok (a, s)).
Proof. reflexivity. Qed.

Lemma run_modify g s : modify g s = ([], Ok (tt, g s)).
Proof. reflexivity. Qed.

Lemma run_logf level format s : logf level format s = ([Log level format], Ok (tt, s)).
Proof. reflexivity. Qed.

#[export] Hint Rewrite @run_bind_assoc @run_bind_ret @run_bind_get @run_bind_modify
  @run_bind_logf @run_bind_fail @run_bind_panic @run_bind_hang
  @run_ret @run_modify @run_logf @prepend_prepend @prepend_pair @prepend_nil : init.


(** ** C5: Start runs the start functions in registration order *)

Lemma startFuncs_addStartFunc fn s :
  startFuncs (addStartFunc fn s) = startFuncs s ++ [fn].
Proof. by destruct s. Qed.

Lemma registerAll_startFuncs fns s :
  startFuncs (registerAll fns s) = startFuncs s ++ fns.
Proof.
  revert s. induction fns as [|fn fns IH]; intros s.
  - by rewrite app_nil_r.
  - change (registerAll (fn :: fns) s) with (registerAll fns (addStartFunc fn s)).
    rewrite IH, startFuncs_addStartFunc. by rewrite <- app_assoc.
Qed.

Lemma runStartFuncs_all_succeed {P : Type} (exec : StartAction -> P -> P * option error)
    fns p q :
  allSucceed exec fns p = Some q -> runStartFuncs exec fns p = (fns, q, None).
Proof.
  revert p. induction fns as [|fn fns IH]; intros p; simpl.
  - by intros [= ->].
  - destruct (exec fn p) as [p1 [e|]]; [done|].
    intros Hrest. by rewrite (IH _ Hrest).
Qed.

Lemma runStartFuncs_first_error {P : Type} (exec : StartAction -> P -> P * option error)
    pre fn post p q q1 e :
  allSucceed exec pre p = Some q ->
  exec fn q = (q1, Some e) ->
  runStartFuncs exec (pre ++ fn :: post) p = (pre ++ [fn], q1, Some e).
Proof.
  revert p. induction pre as [|fn0 pre IH]; intros p; simpl.
  - intros [= ->] Hfn. by rewrite Hfn.
  - destruct (exec fn0 p) as [p1 [e0|]]; [done|].
    intros Hpre Hfn. by rewrite (IH _ Hpre Hfn).
Qed.

Lemma runStartFuncs_cases {P : Type} (exec : StartAction -> P -> P * option error) fns p :
  (exists q, allSucceed exec fns p = Some q)
  \/ (exists pre fn post q q1 e,
        fns = pre ++ fn :: post
        /\ allSucceed exec pre p = Some q
        /\ exec fn q = (q1, Some e)).
Proof.
  revert p. induction fns as [|fn fns IH]; intros p; simpl.
  - left. by exists p.
  - destruct (exec fn p) as [p1 [e|]] eqn:Hfn.
    + right. exists [], fn, fns, p, p1, e. by simpl.
    + destruct (IH p1) as [[q Hq]|(pre & fn' & post & q & q1 & e & -> & Hpre & Hfn')].
      * left. by exists q.
      * right. exists (fn :: pre), fn', post, q, q1, e. simpl. by rewrite Hfn.
Qed.

(** C5.  On a server whose start functions were registered by
    [addStartFunc] in the order [fns] (after those it already had), [Start]
    calls the start functions in that order, each on the state the one
    before left: if every one returns nil, all are called and [Start]
    returns nil; if one returns an error, [Start] returns that error right
    after that call, and none of the later ones is called.  One of the two
    always is the case. *)
Theorem start_runs_in_registration_order {P : Type}
    (exec : StartAction -> P -> P * option error)
    (fns : list StartAction) (s : Server) (p : P) :
  let started := registerAll fns s in
  let all := startFuncs s ++ fns in
  startFuncs started = all
  /\ (forall q,
        allSucceed exec all p = Some q ->
        Start exec started p = (all, q, None))
  /\ (forall pre fn post q q1 e,
        all = pre ++ fn :: post ->
        allSucceed exec pre p = Some q ->
        exec fn q = (q1, Some e) ->
        Start exec started p = (pre ++ [fn], q1, Some e))
  /\ ((exists q, allSucceed exec all p = Some q)
      \/ (exists pre fn post q q1 e,
            all = pre ++ fn :: post
            /\ allSucceed exec pre p = Some q
            /\ exec fn q = (q1, Some e))).
Proof.
  intros started all. subst started all. unfold Start.
  rewrite registerAll_startFuncs. split; [done|]. split.
  { intros q Hq. by apply runStartFuncs_all_succeed. }
  split.
  { intros pre fn post q q1 e -> Hpre Hfn. by eapply runStartFuncs_first_error. }
  apply runStartFuncs_cases.
Qed.

(** Three start functions, the second of which fails: the first two are
    called, the third is not, and the error of the second is returned;
    without the failing one, all are called and nil is returned. *)
Lemma start_runs_in_registration_order_witness :
  Start exampleExec
    (registerAll [StartXdsServer; StartMonitor ":15014"; StartConfigController] emptyServer)
    0%nat
  = ([StartXdsServer; StartMonitor ":15014"], 2%nat,
     Some "listen tcp: address already in use"%string)
  /\ Start exampleExec (registerAll [StartXdsServer; StartConfigController] emptyServer) 0%nat
     = ([StartXdsServer; StartConfigController], 2%nat, None).
Proof.
  split.
  - exact (proj1 (proj2 (proj2
      (start_runs_in_registration_order exampleExec
         [StartXdsServer; StartMonitor ":15014"; StartConfigController] emptyServer 0%nat)))
      [StartXdsServer] (StartMonitor ":15014") [StartConfigController] 1%nat 2%nat
      "listen tcp: address already in use"%string eq_refl eq_refl eq_refl).
  - exact (proj1 (proj2
      (start_runs_in_registration_order exampleExec
         [StartXdsServer; StartConfigController] emptyServer 0%nat))
      2%nat eq_refl).
Defined.
(** ** C6: the debounced file watcher *)

(** C6 as stated fails: an event that arrives while the timer is armed
    does not re-arm it.  With events at 0, 60 and 120 ms the event at 60 ms
    leaves the deadline at 100 ms, so the callback runs at 100 ms and, armed
    again by the event at 120 ms, at 220 ms: twice, where a timer re-armed
    by every event would run it once, at 220 ms. *)
Lemma watcher_does_not_rearm :
  onFileEvent 60000000 (Some 100000000) = Some 100000000
  /\ onFileEvent 60000000 (Some 100000000) <> Some (60000000 + debounceDelay)
  /\ watch (fun _ => true) [0; 60000000; 120000000] None = [100000000; 220000000]
  /\ watchRearming [0; 60000000; 120000000] None = [220000000].
Proof. repeat split; [|reflexivity..]. discriminate. Qed.

Lemma watch_armed_burst timerFirst (events : list Time) (deadline : Time) :
  Forall (fun t => t < deadline) events ->
  watch timerFirst events (Some deadline) = [deadline].
Proof.
  induction 1 as [|now rest Hnow _ IH]; [done|].
  cbn [watch onFileEvent].
  rewrite (proj2 (Z.ltb_ge deadline now)) by lia.
  rewrite (proj2 (Z.eqb_neq deadline now)) by lia.
  exact IH.
Qed.

Lemma eventsOf_cons_other file other (t : Time) events :
  other <> file -> eventsOf file ((other, t) :: events) = eventsOf file events.
Proof.
  intros Hne. unfold eventsOf. rewrite filter_cons. by rewrite decide_False.
Qed.

Lemma eventsOf_app file (events1 events2 : list (string * Time)) :
  eventsOf file (events1 ++ events2) = eventsOf file events1 ++ eventsOf file events2.
Proof. unfold eventsOf. by rewrite filter_app, fmap_app. Qed.

(** C6 (amended).  The goroutine of a watched file arms a 100 ms timer on
    a change event when none is armed, and leaves an armed timer as it is;
    when the timer fires, the timer is cleared and the callback is called
    once.  Hence a burst of [N >= 1] events on one file that all fall
    within 100 ms of the first causes exactly one call of the callback,
    100 ms after the first event.  The calls for one file depend on the
    events of that file only: events on other files, before, between or
    after, change nothing. *)
Theorem watcher_debounces_bursts (timerFirst : Time -> bool) :
  (forall now, onFileEvent now None = Some (now + 100 * 1000000))
  /\ (forall now deadline, onFileEvent now (Some deadline) = Some deadline)
  /\ (forall deadline, watch timerFirst [] (Some deadline) = [deadline])
  /\ (forall first rest,
        Forall (fun t => first <= t < first + debounceDelay) rest ->
        watch timerFirst (first :: rest) None = [first + debounceDelay])
  /\ (forall file events first rest,
        eventsOf file events = first :: rest ->
        Forall (fun t => first <= t < first + debounceDelay) rest ->
        callbacksOf timerFirst file events = [first + debounceDelay])
  /\ (forall file events1 events2 other t,
        other <> file ->
        callbacksOf timerFirst file (events1 ++ (other, t) :: events2)
        = callbacksOf timerFirst file (events1 ++ events2)).
Proof.
  split; [done|]. split; [done|]. split; [done|].
  assert (forall first rest,
            Forall (fun t => first <= t < first + debounceDelay) rest ->
            watch timerFirst (first :: rest) None = [first + debounceDelay]) as Hburst.
  { intros first rest Hin. cbn [watch onFileEvent].
    apply watch_armed_burst. eapply Forall_impl; [exact Hin|]. intros t Ht. simpl in Ht. lia. }
  split; [exact Hburst|]. split.
  - intros file events first rest Hev Hin. unfold callbacksOf. rewrite Hev.
    by apply Hburst.
  - intros file events1 events2 other t Hne. unfold callbacksOf.
    by rewrite !eventsOf_app, eventsOf_cons_other.
Qed.

(** Three events on the mesh file within 100 ms, with events on the
    networks file in between: one call for the mesh file, at 100 ms. *)
Lemma watcher_debounces_bursts_witness :
  let events := [("mesh", 0); ("networks", 10000000); ("mesh", 30000000);
                 ("networks", 50000000); ("mesh", 99000000)]%string in
  eventsOf "mesh" events = [0; 30000000; 99000000]
  /\ Forall (fun t => 0 <= t < 0 + debounceDelay) [30000000; 99000000]
  /\ callbacksOf (fun _ => false) "mesh" events = [100000000].
Proof.
  intros events.
  assert (eventsOf "mesh" events = [0; 30000000; 99000000]) as Hev by reflexivity.
  assert (Forall (fun t => 0 <= t < 0 + debounceDelay) [30000000; 99000000]) as Hin.
  { repeat constructor; unfold debounceDelay; lia. }
  split; [exact Hev|]. split; [exact Hin|].
  exact (proj1 (proj2 (proj2 (proj2 (proj2 (watcher_debounces_bursts (fun _ => false))))))
           "mesh"%string events 0 [30000000; 99000000] Hev Hin).
Defined.
(** ** C7 and C10: reloading the mesh configuration *)

Lemma reloadMesh_unreadable w file s e :
  ReadMeshConfig w file = inl e ->
  reloadMesh w file s =
    ([Log Warn "failed to read mesh configuration, using default: %v"], Ok (tt, s)).
Proof. intros Hread. unfold reloadMesh. by rewrite Hread. Qed.

Lemma reloadMesh_unchanged w file s cur :
  mesh s = Some cur ->
  ReadMeshConfig w file = inr cur ->
  reloadMesh w file s = ([], Ok (tt, s)).
Proof.
  intros Hmesh Hread. unfold reloadMesh. rewrite Hread. run_init.
  rewrite Hmesh. unfold DeepEqual. by rewrite bool_decide_eq_true_2.
Qed.

Lemma reloadMesh_changed w file s cur new :
  mesh s = Some cur ->
  ReadMeshConfig w file = inr new ->
  new <> cur ->
  reloadMesh w file s =
    (Log Info "mesh configuration updated to: %s"
       :: (if bool_decide (ConfigSources new = ConfigSources cur) then []
           else [Log Info "mesh configuration sources have changed"]),
     Ok (tt, installMesh new s)).
Proof.
  intros Hmesh Hread Hne. unfold reloadMesh, installMesh. rewrite Hread. run_init.
  rewrite Hmesh. unfold DeepEqual.
  rewrite (bool_decide_eq_false_2 (Some new = Some cur)) by congruence.
  cbn [negb]. run_init.
  case_bool_decide; cbn [negb]; run_init; by destruct (EnvoyXdsServer s).
Qed.

Lemma installMesh_mesh new s : mesh (installMesh new s) = Some new.
Proof. unfold installMesh. by destruct s as [? ? ? ? [xds|]]. Qed.

Lemma installMesh_pushes new s :
  pushesOf (installMesh new s) =
    pushesOf s ++ (if hasDiscoveryServer s then [fullPush] else []).
Proof.
  unfold installMesh, pushesOf, hasDiscoveryServer.
  destruct s as [? ? ? ? [xds|]]; simpl; by rewrite ?app_nil_r.
Qed.

Lemma reloadMeshNetworks_unreadable w file s e :
  ReadMeshNetworksConfig w file = inl e ->
  reloadMeshNetworks w file s =
    ([Log Warn "failed to read mesh networks configuration from %q"], Ok (tt, s)).
Proof. intros Hread. unfold reloadMeshNetworks. by rewrite Hread. Qed.

Lemma reloadMeshNetworks_unchanged w file s read :
  ReadMeshNetworksConfig w file = inr read ->
  meshNetworks s = Some read ->
  reloadMeshNetworks w file s = ([], Ok (tt, s)).
Proof.
  intros Hread Hsame. unfold reloadMeshNetworks. rewrite Hread. run_init.
  rewrite Hsame. unfold DeepEqual. by rewrite bool_decide_eq_true_2.
Qed.

Lemma reloadMeshNetworks_changed w file s read :
  ReadMeshNetworksConfig w file = inr read ->
  meshNetworks s <> Some read ->
  exists s',
    reloadMeshNetworks w file s =
      ([Log Info "mesh networks configuration file updated to: %s";
        Log Info "mesh networks configuration post-resolution %s"], Ok (tt, s'))
    /\ meshNetworks s' = Some (ResolveHostsInNetworksConfig w read)
    /\ mesh s' = mesh s
    /\ pushesOf s' = pushesOf s ++ (if hasDiscoveryServer s then [fullPush] else []).
Proof.
  intros Hread Hne. unfold reloadMeshNetworks. rewrite Hread. run_init.
  unfold DeepEqual. rewrite bool_decide_eq_false_2 by congruence.
  cbn [negb]. run_init. unfold pushesOf, hasDiscoveryServer.
  destruct s as [? ? ? ? xds ? ? ? ? ? ? mc ? ? ? ? ? ? kr ? ?].
  cbn [kubeRegistry multicluster EnvoyXdsServer].
  destruct kr as [kr|], mc as [mc|], xds as [xds|]; run_init;
    (eexists; split; [reflexivity|]); cbn; rewrite ?app_nil_r; done.
Qed.

(** C7 as stated fails while the constructor is at work: [initMesh] has
    registered the watcher of the mesh file, the discovery server does not
    exist yet, and the file is edited.  The changed mesh is installed, and
    no push is broadcast. *)
Lemma reload_without_discovery_server_pushes_nothing :
  let s := exampleServer false in
  (exists t,
     runSteps (take 5 (initSteps initialWorld
                         (withDefaults initialWorld
                            (exampleArgs "/etc/istio/mesh.yaml" []))))
              emptyServer = (t, Ok (tt, s)))
  /\ fileWatcher s = [("/etc/istio/mesh.yaml", ReloadMesh "/etc/istio/mesh.yaml")]%string
  /\ EnvoyXdsServer s = None
  /\ mesh s = Some meshBefore
  /\ ReadMeshConfig exampleWorld "/etc/istio/mesh.yaml" = inr meshAfter
  /\ DeepEqual (Some meshAfter) (mesh s) = false
  /\ exists t s',
       reloadMesh exampleWorld "/etc/istio/mesh.yaml" s = (t, Ok (tt, s'))
       /\ mesh s' = Some meshAfter
       /\ pushesOf s' = pushesOf s
       /\ pushesOf s' = [].
Proof.
  split; [eexists; vm_compute; reflexivity|].
  split; [reflexivity|]. split; [reflexivity|]. split; [reflexivity|].
  split; [reflexivity|]. split; [reflexivity|].
  eexists _, _. split; [vm_compute; reflexivity|]. by repeat split.
Qed.
(** C7 (amended).  On a change event the file is read again.  If it does
    not parse, the callback leaves the server as it was: the previous
    snapshot stays and nothing is installed or pushed.  If it parses, the
    new snapshot is installed if and only if it is deeply unequal to the
    current one, and a full push is requested if and only if it is deeply
    unequal and the discovery server already exists.  This holds for the
    mesh file (on a server that has a mesh) and for the mesh networks file,
    whose snapshot is installed with its hosts resolved. *)
Theorem reload_keeps_or_installs_snapshot
    (w : World) (file : string) (s : Server) (cur : MeshConfig) :
  mesh s = Some cur ->
  match ReadMeshConfig w file with
  | inl _ => exists t, reloadMesh w file s = (t, Ok (tt, s))
  | inr new =>
      exists t s',
        reloadMesh w file s = (t, Ok (tt, s'))
        /\ (DeepEqual new cur = true -> s' = s)
        /\ mesh s' = Some (if DeepEqual new cur then cur else new)
        /\ pushesOf s' =
             pushesOf s
             ++ (if negb (DeepEqual new cur) && hasDiscoveryServer s
                 then [fullPush] else [])
  end
  /\ match ReadMeshNetworksConfig w file with
     | inl _ => exists t, reloadMeshNetworks w file s = (t, Ok (tt, s))
     | inr read =>
         exists t s',
           reloadMeshNetworks w file s = (t, Ok (tt, s'))
           /\ (DeepEqual (Some read) (meshNetworks s) = true -> s' = s)
           /\ meshNetworks s' =
                (if DeepEqual (Some read) (meshNetworks s) then meshNetworks s
                 else Some (ResolveHostsInNetworksConfig w read))
           /\ pushesOf s' =
                pushesOf s
                ++ (if negb (DeepEqual (Some read) (meshNetworks s))
                       && hasDiscoveryServer s
                    then [fullPush] else [])
     end.
Proof.
  intros Hmesh. split.
  - destruct (ReadMeshConfig w file) as [e|new] eqn:Hread.
    { eexists. by apply reloadMesh_unreadable with e. }
    unfold DeepEqual. case_bool_decide as Heq.
    + subst new. exists [], s. rewrite (reloadMesh_unchanged _ _ _ _ Hmesh Hread).
      cbn [negb andb]. by rewrite app_nil_r.
    + eexists _, (installMesh new s).
      rewrite (reloadMesh_changed _ _ _ _ _ Hmesh Hread Heq).
      split; [done|]. split; [done|].
      rewrite installMesh_mesh, installMesh_pushes. done.
  - destruct (ReadMeshNetworksConfig w file) as [e|read] eqn:Hread.
    { eexists. by apply reloadMeshNetworks_unreadable with e. }
    unfold DeepEqual. case_bool_decide as Heq.
    + exists [], s. rewrite (reloadMeshNetworks_unchanged _ _ _ _ Hread) by done.
      cbn [negb andb]. by rewrite app_nil_r.
    + destruct (reloadMeshNetworks_changed w file s read Hread) as (s' & Hrun & Hn & _ & Hp).
      { congruence. }
      eexists _, s'. split; [exact Hrun|]. split; [done|]. split; [done|exact Hp].
Qed.

(** On the server the constructor has returned: a mesh file that changed
    is installed and pushed once; a mesh file that does not parse changes
    nothing. *)
Lemma reload_keeps_or_installs_snapshot_witness :
  let s := exampleServer true in
  (NewServer initialWorld (exampleArgs "/etc/istio/mesh.yaml" [])).2 = Ok s
  /\ mesh s = Some meshBefore
  /\ (exists t s',
        reloadMesh exampleWorld "/etc/istio/mesh.yaml" s = (t, Ok (tt, s'))
        /\ mesh s' = Some meshAfter
        /\ pushesOf s' = [fullPush])
  /\ (exists t, reloadMesh exampleWorld "/etc/istio/broken.yaml" s = (t, Ok (tt, s))).
Proof.
  intros s.
  assert (mesh s = Some meshBefore) as Hmesh by reflexivity.
  split; [vm_compute; reflexivity|]. split; [exact Hmesh|]. split.
  - destruct (proj1 (reload_keeps_or_installs_snapshot exampleWorld "/etc/istio/mesh.yaml"
                       s _ Hmesh)) as (t & s' & Hrun & _ & Hinst & Hpush).
    exists t, s'. split; [exact Hrun|]. split; [exact Hinst|exact Hpush].
  - exact (proj1 (reload_keeps_or_installs_snapshot exampleWorld "/etc/istio/broken.yaml"
                    s _ Hmesh)).
Defined.

(** C10 as stated fails while the constructor is at work, after [initMesh]
    has registered the watcher and before the discovery server exists: the
    reload of a mesh file with changed config sources logs the change and
    replaces the mesh, and triggers no push. *)
Lemma reload_of_sources_may_push_nothing :
  let s := exampleServer false in
  fileWatcher s = [("/etc/istio/mesh.yaml", ReloadMesh "/etc/istio/mesh.yaml")]%string
  /\ mesh s = Some meshBefore
  /\ ReadMeshConfig exampleWorld "/etc/istio/mesh.yaml" = inr meshAfter
  /\ ConfigSources meshAfter <> ConfigSources meshBefore
  /\ exists s',
       reloadMesh exampleWorld "/etc/istio/mesh.yaml" s =
         ([Log Info "mesh configuration updated to: %s";
           Log Info "mesh configuration sources have changed"], Ok (tt, s'))
       /\ configController s' = configController s
       /\ mesh s' = Some meshAfter
       /\ EnvoyXdsServer s' = None
       /\ pushesOf s' = [].
Proof.
  split; [reflexivity|]. split; [reflexivity|]. split; [reflexivity|].
  split; [discriminate|].
  eexists. split; [vm_compute; reflexivity|]. by repeat split.
Qed.

(** C10 (amended).  A reload of the mesh file whose new snapshot differs
    from the current one in [ConfigSources] logs that the sources have
    changed and does not touch the config controller: [configController]
    (with the store made from it, the start functions and the watchers
    registered at initialisation, and every other field) is as before.
    Only the mesh pointer is replaced, together with the mesh of the
    discovery server's environment, and one full push is requested when
    the discovery server exists (none when it does not exist yet). *)
Theorem reload_leaves_config_controller
    (w : World) (file : string) (s : Server) (cur new : MeshConfig) :
  mesh s = Some cur ->
  ReadMeshConfig w file = inr new ->
  ConfigSources new <> ConfigSources cur ->
  exists s',
    reloadMesh w file s =
      ([Log Info "mesh configuration updated to: %s";
        Log Info "mesh configuration sources have changed"], Ok (tt, s'))
    /\ configController s' = configController s
    /\ istioConfigStore s' = istioConfigStore s
    /\ startFuncs s' = startFuncs s
    /\ fileWatcher s' = fileWatcher s
    /\ s' = set_EnvoyXdsServer (EnvoyXdsServer s') (set_mesh (Some new) s)
    /\ mesh s' = Some new
    /\ EnvoyXdsServer s' =
         (fun xds => {| EnvMesh := Some new;
                        EnvMeshNetworks := EnvMeshNetworks xds;
                        configUpdates := configUpdates xds ++ [fullPush] |})
           <$> EnvoyXdsServer s
    /\ pushesOf s' = pushesOf s ++ (if hasDiscoveryServer s then [fullPush] else []).
Proof.
  intros Hmesh Hread Hsources.
  assert (new <> cur) as Hne by congruence.
  exists (installMesh new s).
  rewrite (reloadMesh_changed _ _ _ _ _ Hmesh Hread Hne).
  rewrite bool_decide_eq_false_2 by done.
  split; [done|]. rewrite installMesh_pushes.
  unfold installMesh. destruct s as [? ? ? ? [xds|]]; by repeat split.
Qed.

(** On the server the constructor has returned, the mesh file now names a
    config source: the reload replaces the mesh and pushes once, and the
    overriding config controller stays. *)
Lemma reload_leaves_config_controller_witness :
  let s := exampleServer true in
  mesh s = Some meshBefore
  /\ ReadMeshConfig exampleWorld "/etc/istio/mesh.yaml" = inr meshAfter
  /\ ConfigSources meshAfter <> ConfigSources meshBefore
  /\ exists s',
       (reloadMesh exampleWorld "/etc/istio/mesh.yaml" s).2 = Ok (tt, s')
       /\ configController s' = Some (ExternalController 0)
       /\ mesh s' = Some meshAfter
       /\ pushesOf s' = [fullPush].
Proof.
  intros s.
  assert (mesh s = Some meshBefore) as Hmesh by reflexivity.
  assert (ReadMeshConfig exampleWorld "/etc/istio/mesh.yaml" = inr meshAfter) as Hread
    by reflexivity.
  assert (ConfigSources meshAfter <> ConfigSources meshBefore) as Hsrc by discriminate.
  split; [exact Hmesh|]. split; [exact Hread|]. split; [exact Hsrc|].
  destruct (reload_leaves_config_controller exampleWorld "/etc/istio/mesh.yaml"
              s _ meshAfter Hmesh Hread Hsrc)
    as (s' & Hrun & Hcc & _ & _ & _ & _ & Hm & _ & Hpush).
  exists s'. rewrite Hrun. split; [reflexivity|]. split; [exact Hcc|].
  split; [exact Hm|exact Hpush].
Defined.
(** ** C8: serving waits for the caches *)

Lemma hasSynced_true s c :
  hasSynced s c = true ->
  configControllerHasSynced c = true
  /\ (kubeRegistry s <> None -> kubeRegistryHasSynced c = true).
Proof.
  unfold hasSynced. destruct (kubeRegistry s) as [registry|];
    destruct (kubeRegistryHasSynced c), (configControllerHasSynced c); simpl; try done.
Qed.

(** [cache.WaitForCacheSync] answers [true] on the first observation at
    which the condition holds, after polls at which it did not; otherwise
    its trace holds failed polls only. *)
Lemma WaitForCacheSync_outcome cond obs :
  match WaitForCacheSync cond obs with
  | (t, Some true) =>
      exists (polls : list Caches) (c : Caches) (later : list Observation),
        obs = (Poll <$> polls) ++ Poll c :: later
        /\ Forall (fun c' => cond c' = false) polls
        /\ cond c = true
        /\ t = replicate (length polls) (HasSyncedPoll false) ++ [HasSyncedPoll true]
  | (t, _) => exists n, t = replicate n (HasSyncedPoll false)
  end.
Proof.
  induction obs as [|[|c] obs IH]; cbn [WaitForCacheSync].
  - by exists 0%nat.
  - by exists 0%nat.
  - destruct (cond c) eqn:Hc.
    + by exists [], c, obs.
    + destruct (WaitForCacheSync cond obs) as [t [[|]|]].
      * destruct IH as (polls & c' & later & -> & Hpolls & Hc' & ->).
        exists (c :: polls), c', later. split; [done|]. split; [by constructor|done].
      * destruct IH as [n ->]. by exists (S n).
      * destruct IH as [n ->]. by exists (S n).
Qed.

Lemma replicate_poll_no_serve n e :
  e ∈ replicate n (HasSyncedPoll false) -> isServe e = false.
Proof. intros Hin. by apply elem_of_replicate in Hin as [-> _]. Qed.

(** C8 as stated fails for the service caches.  A server made with the
    registry [Consul] has a service controller with the registries [Consul]
    and [ServiceEntries] and no cluster registry.  The condition of
    [waitForCacheSync] then asks the config controller only, and the
    goroutine of the discovery start function serves both listeners after a
    poll at which the service controller has not synced. *)
Lemma serve_does_not_wait_for_service_caches :
  let args := exampleArgs "/etc/istio/mesh.yaml" ["Consul"%string] in
  let consulNotSynced :=
    {| kubeRegistryHasSynced := false;
       configControllerHasSynced := true;
       serviceControllerHasSynced := false |} in
  exists t s,
    NewServer initialWorld args = (t, Ok s)
    /\ ServiceController s = Some [{| Name := "Consul"; ClusterID := "" |};
                                   {| Name := "ServiceEntries"; ClusterID := "" |}]
    /\ kubeRegistry s = None
    /\ StartDiscovery "127.0.0.1:8080" "127.0.0.1:15010" false ∈ startFuncs s
    /\ discoveryGoroutine s "127.0.0.1:8080" "127.0.0.1:15010" [Poll consulNotSynced] =
         [HasSyncedPoll true;
          Log Info "starting discovery service at http=%s grpc=%s";
          HTTPServe "127.0.0.1:8080"; GRPCServe "127.0.0.1:15010"; GoShutdownOnStop].
Proof.
  intros args consulNotSynced.
  destruct (NewServer initialWorld args) as [t [s|e| |what]] eqn:Hrun;
    try (vm_compute in Hrun; discriminate).
  exists t, s. split; [done|].
  vm_compute in Hrun. injection Hrun as _ <-.
  split; [reflexivity|]. split; [reflexivity|]. split; [|reflexivity].
  cbn [startFuncs]. do 3 right. left.
Qed.

(** C8 (amended).  The condition of [waitForCacheSync] asks the config
    controller and, when there is one, the cluster registry; the service
    controller and its other registries are not asked.  In the goroutines
    that the discovery start functions start, [Serve] on the HTTP and gRPC
    listeners, and [ServeTLS] on the secure one, are called only after that
    condition has answered true: every earlier poll answered false, that
    poll found the config controller synced and the cluster registry (if
    there is one) synced, and the calls to serve follow it in the trace.
    While no poll has answered true, or when the stop channel closed first,
    the trace holds no call to serve. *)
Theorem serve_waits_for_cache_sync
    (s : Server) (httpAddr grpcAddr secureGrpcAddr : string) (obs : list Observation) :
  (forall c c' : Caches,
     configControllerHasSynced c = configControllerHasSynced c' ->
     (kubeRegistry s <> None -> kubeRegistryHasSynced c = kubeRegistryHasSynced c') ->
     hasSynced s c = hasSynced s c')
  /\
  ((exists (polls : list Caches) (c : Caches) (later : list Observation),
     obs = (Poll <$> polls) ++ Poll c :: later
     /\ Forall (fun c' => hasSynced s c' = false) polls
     /\ hasSynced s c = true
     /\ configControllerHasSynced c = true
     /\ (kubeRegistry s <> None -> kubeRegistryHasSynced c = true)
     /\ discoveryGoroutine s httpAddr grpcAddr obs =
          replicate (length polls) (HasSyncedPoll false)
          ++ [HasSyncedPoll true;
              Log Info "starting discovery service at http=%s grpc=%s";
              HTTPServe httpAddr; GRPCServe grpcAddr; GoShutdownOnStop]
     /\ secureDiscoveryGoroutine s secureGrpcAddr obs =
          replicate (length polls) (HasSyncedPoll false)
          ++ [HasSyncedPoll true;
              Log Info "starting discovery service at secure grpc=%s";
              ServeTLS secureGrpcAddr; GoShutdownOnStop])
  \/ ((waitForCacheSync s obs).2 <> Some true
      /\ Forall (fun e => isServe e = false) (discoveryGoroutine s httpAddr grpcAddr obs)
      /\ Forall (fun e => isServe e = false)
           (secureDiscoveryGoroutine s secureGrpcAddr obs))).
Proof.
  split.
  { intros c c' Hconfig Hkube. unfold hasSynced. rewrite Hconfig.
    destruct (kubeRegistry s) as [registry|]; [|done]. by rewrite Hkube. }
  unfold discoveryGoroutine, secureDiscoveryGoroutine, waitForCacheSync.
  pose proof (WaitForCacheSync_outcome (hasSynced s) obs) as Hwait.
  destruct (WaitForCacheSync (hasSynced s) obs) as [t [[|]|]].
  - left. destruct Hwait as (polls & c & later & -> & Hpolls & Hc & ->).
    destruct (hasSynced_true s c Hc) as [Hconfig Hkube].
    exists polls, c, later. rewrite <- !app_assoc. by repeat split.
  - right. destruct Hwait as [n ->]. cbn [snd]. split; [done|].
    assert (Forall (fun e => isServe e = false)
              (replicate n (HasSyncedPoll false)
               ++ [Log Error "Failed waiting for cache sync"])) as Hno.
    { apply Forall_app. split; [|by repeat constructor].
      apply Forall_forall. intros e. apply replicate_poll_no_serve. }
    by split.
  - right. destruct Hwait as [n ->]. cbn [snd]. split; [done|].
    assert (Forall (fun e => isServe e = false) (replicate n (HasSyncedPoll false))) as Hno.
    { apply Forall_forall. intros e. apply replicate_poll_no_serve. }
    by split.
Qed.
(** ** C9: which failures of initialisation the constructor returns *)

Lemma run_bind {A B : Type} (m : Init A) (f : A -> Init B) s :
  (m ≫= f) s =
    match m s with
    | (t1, Ok (a, s1)) => prepend t1 (f a s1)
    | (t1, Err e) => (t1, Err e)
    | (t1, Hang) => (t1, Hang)
    | (t1, Panic what) => (t1, Panic what)
    end.
Proof. reflexivity. Qed.

Lemma run_bind_wrapErr {B : Type} prefix (m : Init unit) (f : unit -> Init B) s :
  (wrapErr prefix m ≫= f) s =
    match m s with
    | (t, Ok (a, s1)) => prepend t (f a s1)
    | (t, Err e) => (t, Err (errorf prefix e))
    | (t, Hang) => (t, Hang)
    | (t, Panic what) => (t, Panic what)
    end.
Proof.
  unfold mbind, Init_bind, wrapErr. by destruct (m s) as [t [[a s1]|e| |what]].
Qed.

Lemma runSteps_cons prefix (step : Init unit) (rest : list (string * Init unit)) s :
  runSteps ((prefix, step) :: rest) s =
    match step s with
    | (t, Ok (_, s1)) => prepend t (runSteps rest s1)
    | (t, Err e) => (t, Err (errorf prefix e))
    | (t, Hang) => (t, Hang)
    | (t, Panic what) => (t, Panic what)
    end.
Proof. cbn [runSteps]. by rewrite run_bind_wrapErr. Qed.

(** An error of a step that is reached ends [runSteps] with that error
    under the prefix of the step. *)
Lemma runSteps_error (pre : list (string * Init unit)) prefix (step : Init unit)
    (post : list (string * Init unit)) s0 s1 t1 t2 e0 :
  runSteps pre s0 = (t1, Ok (tt, s1)) ->
  step s1 = (t2, Err e0) ->
  runSteps (pre ++ (prefix, step) :: post) s0 = (t1 ++ t2, Err (errorf prefix e0)).
Proof.
  revert s0 t1. induction pre as [|[prefix0 step0] pre IH]; intros s0 t1 Hpre Hstep.
  - cbn in Hpre. injection Hpre as <- <-. cbn [app]. rewrite runSteps_cons.
    by rewrite Hstep.
  - cbn [app]. rewrite runSteps_cons. rewrite runSteps_cons in Hpre.
    destruct (step0 s0) as [t0 [[[] s0']|e| |what]]; try done.
    destruct (runSteps pre s0') as [t1' r1] eqn:Hrest.
    unfold prepend in Hpre. cbn [fst snd] in Hpre. injection Hpre as <- ->.
    rewrite (IH s0' t1' Hrest Hstep). unfold prepend. cbn [fst snd].
    by rewrite app_assoc.
Qed.

(** When [runSteps] ends well, every step was reached and ended well. *)
Lemma runSteps_ok_inv (pre : list (string * Init unit)) prefix (step : Init unit)
    (post : list (string * Init unit)) s0 t x :
  runSteps (pre ++ (prefix, step) :: post) s0 = (t, Ok x) ->
  exists t1 s1 t2 s2,
    runSteps pre s0 = (t1, Ok (tt, s1)) /\ step s1 = (t2, Ok (tt, s2)).
Proof.
  revert s0 t. induction pre as [|[prefix0 step0] pre IH]; intros s0 t.
  - cbn [app]. rewrite runSteps_cons.
    destruct (step s0) as [t2 [[[] s2]|e| |what]] eqn:Hstep; try done.
    intros _. by exists [], s0, t2, s2.
  - cbn [app]. rewrite !runSteps_cons.
    destruct (step0 s0) as [t0 [[[] s0']|e| |what]]; try done.
    destruct (runSteps (pre ++ (prefix, step) :: post) s0') as [t' r'] eqn:Hrest.
    unfold prepend at 1. cbn [fst snd]. intros [= <- ->].
    destruct (IH _ _ Hrest) as (t1 & s1 & t2 & s2 & Hpre & Hstep).
    exists (t0 ++ t1), s1, t2, s2. by rewrite Hpre.
Qed.

Lemma NewServer_ok_inv w args t s :
  NewServer w args = (t, Ok s) ->
  runSteps (initSteps w (withDefaults w args)) emptyServer = (t, Ok (tt, s)).
Proof.
  unfold NewServer.
  destruct (runSteps _ emptyServer) as [t' [[[] s']|e| |what]]; try done.
  by intros [= -> ->].
Qed.
Lemma prepend_err {A : Type} t0 (x : list Effect * Result A) :
  (exists t e, x = (t, Err e)) -> exists t e, prepend t0 x = (t, Err e).
Proof. intros (t & e & ->). by eexists _, _. Qed.

Lemma addRegistries_unsupported w args registries :
  forall registered serviceControllers s,
  Forall (fun r => supportedRegistry r = true) registered ->
  Exists (fun r => supportedRegistry r = false) registries ->
  exists t e, addRegistries w args registries registered serviceControllers s = (t, Err e).
Proof.
  induction registries as [|r rest IH]; intros registered ctrls s Hreg Hbad.
  - by apply Exists_nil in Hbad.
  - cbn [addRegistries]. case_bool_decide as Hdup.
    + run_init. apply prepend_err.
      assert (supportedRegistry r = true) as Hr.
      { eapply Forall_forall in Hreg; [exact Hreg|done]. }
      apply Exists_cons in Hbad as [Hbad|Hbad]; [congruence|]. by apply IH.
    + run_init. apply prepend_err.
      assert (supportedRegistry r = true ->
              forall added s',
                exists t e, addRegistries w args rest (r :: registered) added s' = (t, Err e))
        as Hnext.
      { intros Hr added s'. apply IH; [by constructor|].
        apply Exists_cons in Hbad as [Hbad|Hbad]; [congruence|done]. }
      case_bool_decide as Hmock.
      { run_init. apply Hnext. by subst r. }
      case_bool_decide as Hkube.
      { unfold createK8sServiceControllers. run_init. apply prepend_err.
        apply Hnext. by subst r. }
      case_bool_decide as Hconsul.
      { unfold initConsulRegistry. run_init. apply prepend_err.
        destruct (ConsulNewController w _) as [conerr|]; run_init.
        - by eexists _, _.
        - apply Hnext. by subst r. }
      case_bool_decide as Hmcp.
      { run_init. apply prepend_err. apply Hnext. by subst r. }
      run_init. by eexists _, _.
Qed.

Lemma prepend_failsOrHangs {A : Type} t0 (x : list Effect * Result A) :
  (exists t r, x = (t, r) /\ failsOrHangs r) ->
  exists t r, prepend t0 x = (t, r) /\ failsOrHangs r.
Proof. intros (t & r & -> & Hr). by eexists _, _. Qed.

Lemma run_logTimes {B : Type} n level format (f : unit -> Init B) s :
  (logTimes n level format ≫= f) s = prepend (replicate n (Log level format)) (f tt s).
Proof.
  induction n as [|n IH]; cbn [logTimes replicate]; run_init; [done|].
  rewrite IH. by run_init.
Qed.

Lemma waitForFiles_outcome {B : Type} w files (f : list string -> Init B) s :
  forall seen,
  exists t, (exists seen', (waitForFiles w files seen ≫= f) s = prepend t (f seen' s))
            \/ (waitForFiles w files seen ≫= f) s = (t, Hang).
Proof.
  induction files as [|file files IH]; intros seen; cbn [waitForFiles].
  - exists []. left. exists seen. by run_init.
  - case_bool_decide as Hseen.
    + run_init. destruct (IH (file :: seen)) as [t [[seen' ->] | ->]].
      * eexists. left. exists seen'. run_init. reflexivity.
      * eexists. right. reflexivity.
    + destruct (statMisses w file) as [n|].
      * run_init. rewrite run_logTimes. run_init.
        destruct (IH (file :: seen)) as [t [[seen' ->] | ->]].
        -- eexists. left. exists seen'. run_init. reflexivity.
        -- eexists. right. reflexivity.
      * eexists. right. by run_init.
Qed.

Lemma dialSource_outcome w src seen s :
  exists t,
    (exists dialed, dialSource w src seen s = (t, Ok (dialed, s)))
    \/ (exists r, dialSource w src seen s = (t, r) /\ failsOrHangs r).
Proof.
  assert (forall seen' t0, exists t,
    (exists dialed,
       prepend t0 (match DialContext w (Address src) return Init (bool * list string) with
          | Some err => logf Error "Unable to dial MCP Server %q: %v";; fail err
          | None => mret (true, seen')
          end s) = (t, Ok (dialed, s)))
    \/ (exists r,
       prepend t0 (match DialContext w (Address src) return Init (bool * list string) with
          | Some err => logf Error "Unable to dial MCP Server %q: %v";; fail err
          | None => mret (true, seen')
          end s) = (t, r) /\ failsOrHangs r)) as Hdial.
  { intros seen' t0. destruct (DialContext w (Address src)) as [err|]; run_init.
    - eexists. right. eexists. split; [reflexivity|]. right. by eexists.
    - eexists. left. by eexists. }
  unfold dialSource. destruct (securityOption w src) as [| |o|]; run_init.
  - destruct (Hdial seen []) as [t H]. exists t. by rewrite prepend_nil in H.
  - destruct (Hdial seen []) as [t H]. exists t. by rewrite prepend_nil in H.
  - match goal with
    | |- context [(waitForFiles w ?files seen ≫= ?f) s] =>
        destruct (waitForFiles_outcome w files f s seen) as [t [[seen' Hw]|Hw]];
          rewrite Hw
    end.
    + run_init. unfold check. destruct (WatchFiles w o) as [err|]; run_init.
      * eexists. right. eexists. split; [reflexivity|]. right. by eexists.
      * apply Hdial.
    + run_init. eexists. right. eexists. split; [reflexivity|]. by left.
  - eexists. left. by eexists.
Qed.

Lemma mcpSources_invalid_url w sources :
  forall clients configStores seen s,
  Exists (invalidFsSource w) sources ->
  exists t r, mcpSources w sources clients configStores seen s = (t, r) /\ failsOrHangs r.
Proof.
  induction sources as [|src rest IH]; intros clients stores seen s Hbad.
  - by apply Exists_nil in Hbad.
  - assert (~ invalidFsSource w src ->
            forall clients' stores' seen' s',
              exists t r, mcpSources w rest clients' stores' seen' s' = (t, r)
                          /\ failsOrHangs r)
      as Hrest.
    { intros Hok clients' stores' seen' s'. apply IH.
      apply Exists_cons in Hbad as [Hbad|Hbad]; [done|exact Hbad]. }
    assert (~ invalidFsSource w src ->
            exists t r,
              (dialSource w src seen ≫= fun dialed : bool * list string =>
                 if dialed.1
                 then mcpSources w rest (clients ++ [Address src])
                        (stores ++ [MCPController (Address src)]) dialed.2
                 else mcpSources w rest clients stores dialed.2) s = (t, r)
              /\ failsOrHangs r) as Hremote.
    { intros Hok. rewrite run_bind.
      destruct (dialSource_outcome w src seen s) as [t [[dialed ->]|(r & -> & Hr)]].
      - apply prepend_failsOrHangs. destruct dialed as [[] seen']; by apply Hrest.
      - destruct Hr as [->|[e ->]]; eexists _, _; (split; [reflexivity|]).
        + by left.
        + right. by eexists. }
    cbn [mcpSources]. cbv zeta.
    destruct (contains (Address src) (fsScheme +:+ "://")) eqn:Hfs.
    + destruct (urlParse w (Address src)) as [err|srcAddress] eqn:Hparse.
      * eexists _, _. split; [reflexivity|]. right. by eexists.
      * assert (~ invalidFsSource w src) as Hok.
        { intros [_ [err Herr]]. congruence. }
        case_bool_decide as Hscheme; [|by apply Hremote].
        case_bool_decide as Hpath.
        { eexists _, _. split; [reflexivity|]. right. by eexists. }
        unfold makeFileMonitor. run_init. by apply Hrest.
    + apply Hremote. intros [Hc _]. congruence.
Qed.

Lemma initConfigController_invalid_url w args s m :
  mesh s = Some m ->
  Exists (invalidFsSource w) (ConfigSources m) ->
  exists t r, initConfigController w args s = (t, r) /\ failsOrHangs r.
Proof.
  intros Hmesh Hbad. unfold initConfigController. run_init. rewrite Hmesh.
  rewrite (bool_decide_eq_true_2 (0 < length (ConfigSources m))%nat).
  2:{ destruct (ConfigSources m); [by apply Exists_nil in Hbad|simpl; lia]. }
  unfold initMCPConfigController. run_init. rewrite Hmesh. run_init.
  destruct (mcpSources_invalid_url w (ConfigSources m) [] [] [] s Hbad)
    as (t & r & Hrun & Hr).
  unfold mbind at 1, Init_bind. rewrite Hrun.
  destruct Hr as [->|[e ->]]; eexists _, _; (split; [reflexivity|]).
  - by left.
  - right. by eexists.
Qed.

Lemma mesh_set_meshNetworks v s : mesh (set_meshNetworks v s) = mesh s.
Proof. by destruct s. Qed.
Lemma mesh_set_kubeClient v s : mesh (set_kubeClient v s) = mesh s.
Proof. by destruct s. Qed.
Lemma mesh_set_mesh v s : mesh (set_mesh v s) = v.
Proof. by destruct s. Qed.
Lemma mesh_addFileWatcher file callback s : mesh (addFileWatcher file callback s) = mesh s.
Proof. by destruct s. Qed.

Lemma initKubeClient_failed w args s e :
  hasKubeRegistry args = true ->
  FileDir (Config args) = "" ->
  CreateClientset w (KubeConfig (Config args)) = inl e ->
  initKubeClient w args s =
    ([], Err ("failed to connect to Kubernetes API. " +:+ e)).
Proof.
  intros Hkube Hdir Hclient. unfold initKubeClient, getKubeCfgFile.
  rewrite Hkube, Hdir, Hclient. reflexivity.
Qed.

Lemma initKubeClient_mesh w args s t s1 :
  initKubeClient w args s = (t, Ok (tt, s1)) -> mesh s1 = mesh s.
Proof.
  unfold initKubeClient.
  destruct (hasKubeRegistry args && bool_decide (FileDir (Config args) = "")).
  - destruct (CreateClientset w (getKubeCfgFile args)) as [e|client]; [done|].
    rewrite run_modify. intros [= <- <-]. apply mesh_set_kubeClient.
  - rewrite run_ret. by intros [= <- <-].
Qed.

Lemma initMesh_given w args s m :
  argsMeshConfig args = Some m ->
  initMesh w args s = ([], Ok (tt, set_mesh (Some m) s)).
Proof. intros Hm. unfold initMesh. by rewrite Hm. Qed.

Lemma initMeshNetworks_mesh w args s t s1 :
  initMeshNetworks w args s = (t, Ok (tt, s1)) -> mesh s1 = mesh s.
Proof.
  unfold initMeshNetworks. case_bool_decide.
  - rewrite run_logf. by intros [= <- <-].
  - destruct (ReadMeshNetworksConfig w (NetworksConfigFile args)) as [e|read].
    + rewrite run_logf. by intros [= <- <-].
    + run_init. intros [= <- <-].
      by rewrite mesh_addFileWatcher, mesh_set_meshNetworks.
Qed.

(** The mesh file named in the arguments does not parse: [initMesh] warns,
    registers the watcher all the same and goes on with the mesh of the
    config map (or the default mesh), as if no file had been named. *)
Lemma initMesh_unreadable w args s e :
  argsMeshConfig args = None ->
  ConfigFile (Mesh args) <> "" ->
  ReadMeshConfig w (ConfigFile (Mesh args)) = inl e ->
  let watched :=
    addFileWatcher (ConfigFile (Mesh args)) (ReloadMesh (ConfigFile (Mesh args))) s in
  initMesh w args s =
    match GetMeshConfig w (kubeClient s) (IstioNamespace w) (IstioConfigMap w) with
    | inl err =>
        ([Log Warn "failed to read mesh configuration, using default: %v";
          Log Warn "failed to read the default mesh configuration: %v, from the %s config map in the %s namespace"],
         Err err)
    | inr (_, m) =>
        ([Log Warn "failed to read mesh configuration, using default: %v";
          Log Info "mesh configuration %s"; Log Info "version %s"; Log Info "flags %s"],
         Ok (tt, set_mesh
                   (Some (if bool_decide (MixerAddress (Mesh args) <> "")
                          then overrideMixer (MixerAddress (Mesh args)) m else m))
                   watched))
    end.
Proof.
  intros Hnone Hfile Hread watched. unfold initMesh. rewrite Hnone.
  rewrite (bool_decide_eq_true_2 (ConfigFile (Mesh args) ≠ "")) by done.
  rewrite Hread. run_init. fold watched.
  assert (kubeClient watched = kubeClient s) as -> by (by destruct s).
  destruct (GetMeshConfig w (kubeClient s) (IstioNamespace w) (IstioConfigMap w)) as [err|[data m]];
    by run_init.
Qed.


(** C9 as stated fails for the mesh file: a mesh file that does not parse
    is logged, the default mesh is used, and the constructor returns a
    server. *)
Lemma unparseable_mesh_file_is_not_returned :
  let args := exampleArgs "/etc/istio/broken.yaml" [] in
  ReadMeshConfig exampleWorld (ConfigFile (Mesh args)) = inl "cannot read mesh config file"%string
  /\ exists t s,
       NewServer exampleWorld args = (t, Ok s)
       /\ t !! 0%nat = Some (Log Warn "failed to read mesh configuration, using default: %v")
       /\ mesh s = Some (DefaultMeshConfig exampleWorld).
Proof.
  split; [reflexivity|]. eexists _, _. split; [vm_compute; reflexivity|].
  split; reflexivity.
Qed.

(** C9 (amended).  An error that one of the nine initialisation steps
    returns is returned from [NewServer] under the prefix of the step, and
    no later step runs.  A failed cluster client is such an error.  With an
    unknown registry name the service controllers step returns an error,
    and with a config source taken for a file-system source whose URL does
    not parse the config controller step returns an error (unless it
    blocks on an earlier source); in both cases [NewServer] returns no
    server.  A mesh file that does not parse is not such an error:
    [initMesh] logs a warning and goes on with the mesh of the config map
    or the default mesh, and only a failure to get that one is returned. *)
Theorem init_errors_are_returned (w : World) (args : PilotArgs) :
  let args' := withDefaults w args in
  (forall pre prefix step post t1 s1 t2 e0,
     initSteps w args' = pre ++ (prefix, step) :: post ->
     runSteps pre emptyServer = (t1, Ok (tt, s1)) ->
     step s1 = (t2, Err e0) ->
     NewServer w args = (t1 ++ t2, Err (prefix +:+ e0)))
  /\ (forall e,
        hasKubeRegistry args = true ->
        FileDir (Config args) = "" ->
        CreateClientset w (KubeConfig (Config args)) = inl e ->
        NewServer w args =
          ([], Err ("kube client: failed to connect to Kubernetes API. " +:+ e)))
  /\ (Exists (fun r => supportedRegistry r = false) (Registries (Service args)) ->
      (forall s, exists t e, initServiceControllers w args' s = (t, Err e))
      /\ forall t s, NewServer w args <> (t, Ok s))
  /\ (forall m,
        Exists (invalidFsSource w) (ConfigSources m) ->
        (forall s, mesh s = Some m ->
                   exists t r, initConfigController w args' s = (t, r) /\ failsOrHangs r)
        /\ (argsMeshConfig args = Some m -> forall t s, NewServer w args <> (t, Ok s)))
  /\ (forall s e,
        argsMeshConfig args = None ->
        ConfigFile (Mesh args) <> "" ->
        ReadMeshConfig w (ConfigFile (Mesh args)) = inl e ->
        initMesh w args' s =
          match GetMeshConfig w (kubeClient s) (IstioNamespace w) (IstioConfigMap w) with
          | inl err =>
              ([Log Warn "failed to read mesh configuration, using default: %v";
                Log Warn "failed to read the default mesh configuration: %v, from the %s config map in the %s namespace"],
               Err err)
          | inr (_, m) =>
              ([Log Warn "failed to read mesh configuration, using default: %v";
                Log Info "mesh configuration %s"; Log Info "version %s";
                Log Info "flags %s"],
               Ok (tt, set_mesh
                         (Some (if bool_decide (MixerAddress (Mesh args) <> "")
                                then overrideMixer (MixerAddress (Mesh args)) m else m))
                         (addFileWatcher (ConfigFile (Mesh args))
                            (ReloadMesh (ConfigFile (Mesh args))) s)))
          end).
Proof.
  intros args'.
  assert (forall s, Exists (fun r => supportedRegistry r = false) (Registries (Service args)) ->
                    exists t e, initServiceControllers w args' s = (t, Err e)) as Hregistry.
  { intros s Hbad. unfold initServiceControllers.
    destruct (addRegistries_unsupported w args' (Registries (Service args)) [] [] s)
      as (t & e & Hrun); [done|done|].
    unfold mbind, Init_bind.
    change (Registries (Service args')) with (Registries (Service args)).
    rewrite Hrun. by eexists _, _. }
  split.
  { intros pre prefix step post t1 s1 t2 e0 Hsteps Hpre Hstep. unfold NewServer.
    fold args'. rewrite Hsteps.
    by rewrite (runSteps_error pre prefix step post _ _ _ _ _ Hpre Hstep). }
  split.
  { intros e Hkube Hdir Hclient. unfold NewServer. fold args'.
    unfold initSteps. rewrite runSteps_cons.
    by rewrite (initKubeClient_failed w args' emptyServer e Hkube Hdir Hclient). }
  split.
  { intros Hbad. split; [intros s; by apply Hregistry|].
    intros t s Hok. apply NewServer_ok_inv in Hok. fold args' in Hok.
    apply (runSteps_ok_inv
             [("kube client: ", initKubeClient w args'); ("mesh: ", initMesh w args');
              ("mesh networks: ", initMeshNetworks w args');
              ("config controller: ", initConfigController w args')]
             "service controllers: " (initServiceControllers w args')) in Hok
      as (t1 & s1 & t2 & s2 & _ & Hstep).
    destruct (Hregistry s1 Hbad) as (t' & e' & Herr). congruence. }
  split.
  { intros m Hbad. split.
    { intros s Hmesh. by apply initConfigController_invalid_url with m. }
    intros Hgiven t s Hok. apply NewServer_ok_inv in Hok. fold args' in Hok.
    apply (runSteps_ok_inv
             [("kube client: ", initKubeClient w args'); ("mesh: ", initMesh w args');
              ("mesh networks: ", initMeshNetworks w args')]
             "config controller: " (initConfigController w args')) in Hok
      as (t1 & s1 & t2 & s2 & Hpre & Hstep).
    assert (mesh s1 = Some m) as Hmesh.
    { rewrite runSteps_cons in Hpre.
      destruct (initKubeClient w args' emptyServer) as [ta [[[] sa]|?| |?]] eqn:Ha; try done.
      rewrite runSteps_cons, (initMesh_given w args' sa m Hgiven) in Hpre.
      rewrite runSteps_cons in Hpre.
      destruct (initMeshNetworks w args' (set_mesh (Some m) sa))
        as [tc [[[] sc]|?| |?]] eqn:Hc; try done.
      cbn in Hpre. injection Hpre as _ <-.
      by rewrite (initMeshNetworks_mesh _ _ _ _ _ Hc), mesh_set_mesh. }
    destruct (initConfigController_invalid_url w args' s1 m Hmesh Hbad)
      as (t' & r' & Hrun & [->|[e' ->]]); congruence. }
  intros s e Hnone Hfile Hread.
  by apply (initMesh_unreadable w args' s e).
Qed.

(** The registries [Mock] and [Zookeeper]: the constructor returns the
    error of the service controllers step under its prefix. *)
Lemma init_errors_are_returned_witness :
  let args := exampleArgs "/etc/istio/mesh.yaml" ["Mock"; "Zookeeper"]%string in
  Exists (fun r => supportedRegistry r = false) (Registries (Service args))
  /\ (forall t s, NewServer exampleWorld args <> (t, Ok s))
  /\ (NewServer exampleWorld args).2 =
       Err "service controllers: service registry Zookeeper is not supported".
Proof.
  intros args.
  assert (Exists (fun r => supportedRegistry r = false) (Registries (Service args)))
    as Hbad by (right; left; reflexivity).
  split; [exact Hbad|]. split.
  - exact (proj2 (proj1 (proj2 (proj2 (init_errors_are_returned exampleWorld args))) Hbad)).
  - reflexivity.
Defined.

End bootstrap_spec.

(* ===================================================================== *)
(** * The life of an epoch                                                *)
(* ===================================================================== *)
Module envoy_lifecycle.
Import envoy envoy_spec.

(** ** Exits taken off the status channel *)

Lemma Run_status_cons `{ConfigModel} st rest a :
  Run (StatusReceived st :: rest) a =
    if bool_decide (size (delete (epoch st) (activeEpochs a)) = 0%nat)
    then ((onStatus st a).1, [], true)
    else Run rest (onStatus st a).1.
Proof. reflexivity. Qed.

(** X1.  While [Run] takes proxy exits off the status channel it starts no
    proxy and sends no abort, it leaves the epoch counter and the current
    configuration alone, and the active set only shrinks: a proxy that
    exits, with or without an error, is not restarted.  [Run] returns
    exactly when the exits received up to some point cover every epoch that
    was active, and the active set is empty then. *)
Theorem run_returns_when_last_epoch_exits `{ConfigModel}
    (sts : list exitStatus) (a : agent) :
  let r := Run (StatusReceived <$> sts) a in
  r.1.2 = []
  /\ currentEpoch r.1.1 = currentEpoch a
  /\ currentConfig r.1.1 = currentConfig a
  /\ activeEpochs r.1.1 ⊆ activeEpochs a
  /\ (r.2 = true -> activeEpochs r.1.1 = ∅)
  /\ (r.2 = true <->
      exists pre st post,
        sts = pre ++ st :: post
        /\ dom (activeEpochs a) ⊆ list_to_set (epoch <$> (pre ++ [st]))).
Proof.
  revert a. induction sts as [|st rest IH]; intros a.
  - simpl. repeat split; try done.
    intros (pre & st & post & Heq & _). by destruct pre.
  - cbn [fmap list_fmap]. rewrite Run_status_cons.
    case_bool_decide as Hfin.
    + cbn [fst snd onStatus currentEpoch currentConfig chansMade activeEpochs].
      apply map_size_empty_iff in Hfin.
      repeat split; try done.
      * apply delete_subseteq.
      * intros _. exists [], st, rest. split; [done|]. simpl.
        intros e He. destruct (decide (e = epoch st)) as [->|Hne].
        { apply elem_of_union_l. by apply elem_of_singleton. }
        apply elem_of_dom in He as [ch He].
        assert (delete (epoch st) (activeEpochs a) !! e = Some ch) as Hin.
        { by rewrite lookup_delete_ne. }
        rewrite Hfin in Hin. by rewrite lookup_empty in Hin.
    + specialize (IH (onStatus st a).1).
      cbn [fst snd onStatus currentEpoch currentConfig chansMade activeEpochs] in IH.
      destruct IH as (H1 & H2 & H3 & H5 & H6 & H7).
      repeat split; try done.
      * etrans; [exact H5|]. apply delete_subseteq.
      * intros Hr. apply H7 in Hr as (pre & st' & post & -> & Hdom).
        exists (st :: pre), st', post. split; [done|].
        rewrite dom_delete_L in Hdom. cbn [app fmap list_fmap list_to_set foldr].
        intros e He. destruct (decide (e = epoch st)) as [->|Hne].
        { apply elem_of_union_l. by apply elem_of_singleton. }
        apply elem_of_union_r, Hdom. apply elem_of_difference. split; [done|].
        by rewrite elem_of_singleton.
      * intros (pre & st' & post & Heq & Hdom). apply H7.
        destruct pre as [|st0 pre]; simplify_eq/=.
        { exfalso. apply Hfin. apply map_size_empty_iff.
          apply dom_empty_iff_L. rewrite dom_delete_L.
          apply set_eq. intros e. rewrite elem_of_difference, elem_of_singleton.
          split; [|by rewrite elem_of_empty]. intros [He Hne].
          apply Hdom in He. apply elem_of_union in He as [He|He].
          - by apply elem_of_singleton in He.
          - by apply elem_of_empty in He. }
        exists pre, st', post. split; [done|]. rewrite dom_delete_L.
        intros e. rewrite elem_of_difference, elem_of_singleton. intros [He Hne].
        apply Hdom in He. cbn [fmap list_fmap list_to_set foldr] in He.
        apply elem_of_union in He as [He|He]; [|done].
        by apply elem_of_singleton in He.
Qed.

Lemma active_epochs_spawned `{ConfigModel} cs a (known : list Z) :
  (forall e, is_Some (activeEpochs a !! e) -> e ∈ known) ->
  forall e, is_Some (activeEpochs (calls cs a).1 !! e) ->
            e ∈ known ++ spawnedEpochs (calls cs a).2.
Proof.
  revert a known. induction cs as [|c cs IH]; intros a known Hknown e He.
  - simpl in *. rewrite app_nil_r. by apply Hknown.
  - rewrite calls_cons in He |- *. cbn [fst snd] in *.
    rewrite spawnedEpochs_app, app_assoc. apply IH; [|done].
    clear e He. intros e He. destruct c as [config p|status]; cbn [call fst snd] in *.
    + rewrite Restart_spawned. destruct (DeepEqual (currentConfig a) config) eqn:E.
      * rewrite Restart_same in He by done. rewrite app_nil_r. by apply Hknown.
      * rewrite Restart_new in He by done. cbn [fst activeEpochs] in He.
        rewrite lookup_insert in He. case_decide as Heq.
        -- subst e. apply elem_of_app. right. by apply list_elem_of_singleton.
        -- apply elem_of_app. left. by apply Hknown.
    + rewrite app_nil_r. apply Hknown.
      destruct He as [ch He]. cbn [onStatus fst activeEpochs] in He.
      apply lookup_delete_Some in He as [_ He]. by exists ch.
Qed.

(** X2.  On an agent reached from [NewAgent] by any calls, every active
    epoch is one that [Restart] spawned.  While fewer than 2^63 calls were
    made, the active epochs lie between 0 and the current epoch, so the
    epoch a restart hands out is not active yet: the restart adds one entry
    to the active set and leaves the abort channel of every running epoch in
    place. *)
Theorem restart_keeps_running_epochs `{ConfigModel}
    (d : Duration) (cs : list Call) (config : option Config) (p : ProxyEnv) :
  let a := (calls cs (NewAgent d)).1 in
  let t := (calls cs (NewAgent d)).2 in
  let a' := (Restart config p a).1 in
  (forall e, is_Some (activeEpochs a !! e) -> e ∈ spawnedEpochs t)
  /\ (Z.of_nat (length cs) < 2 ^ 63 ->
      (forall e, is_Some (activeEpochs a !! e) -> 0 <= e <= currentEpoch a)
      /\ (DeepEqual (currentConfig a) config = false ->
          currentEpoch a' = currentEpoch a + 1
          /\ activeEpochs a !! currentEpoch a' = None
          /\ size (activeEpochs a') = S (size (activeEpochs a))
          /\ (forall e ch, activeEpochs a !! e = Some ch -> activeEpochs a' !! e = Some ch))).
Proof.
  intros a t a'.
  assert (forall e, is_Some (activeEpochs a !! e) -> e ∈ spawnedEpochs t) as Hspawned.
  { intros e He.
    apply (active_epochs_spawned cs (NewAgent d) []) in He; [done|].
    intros e' [ch Hin]. simpl in Hin. by rewrite lookup_empty in Hin. }
  split; [exact Hspawned|]. intros Hlen.
  destruct (calls_epochs_from cs (NewAgent d) (-1)) as (Hs & He & Hn); [done|].
  fold a in He. fold t in Hs, He, Hn.
  set (n := length (spawnedEpochs t)) in *.
  assert (currentEpoch a = Z.of_nat n - 1) as Hcur.
  { rewrite He. replace (-1 + Z.of_nat n) with (Z.of_nat n - 1) by lia.
    apply wrap_int_in_range. unfold int_max. lia. }
  assert (forall e, is_Some (activeEpochs a !! e) -> 0 <= e <= currentEpoch a) as Hrange.
  { intros e Hin. apply Hspawned in Hin. rewrite Hs in Hin.
    apply list_elem_of_fmap in Hin as (i & -> & Hi). apply elem_of_seq in Hi.
    rewrite wrap_int_in_range; unfold int_max; lia. }
  split; [exact Hrange|]. intros Hnew.
  assert (wrap_int (currentEpoch a + 1) = currentEpoch a + 1) as Hwrap.
  { apply wrap_int_in_range. unfold int_max. lia. }
  assert (activeEpochs a !! (currentEpoch a + 1) = None) as Hfresh.
  { destruct (activeEpochs a !! (currentEpoch a + 1)) as [ch|] eqn:Hin; [|done].
    assert (0 <= currentEpoch a + 1 <= currentEpoch a) by (apply Hrange; by exists ch). lia. }
  subst a'. rewrite Restart_new by done. cbn [fst currentEpoch activeEpochs].
  rewrite Hwrap. split; [done|]. split; [exact Hfresh|]. split.
  - by apply map_size_insert_None.
  - intros e ch Hin. rewrite lookup_insert_ne; [done|].
    intros <-. congruence.
Qed.

(** Two restarts, the exit of epoch 0, and a third restart: epoch 2 joins
    epoch 1. *)
Lemma restart_keeps_running_epochs_witness :
  let cs := [CallRestart (versioned 1) liveProxy;
             CallRestart (versioned 2) liveProxy;
             ProxyExited {| epoch := 0; err := None |}] in
  let a := (calls cs (NewAgent 0)).1 in
  Z.of_nat (length cs) < 2 ^ 63
  /\ DeepEqual (currentConfig a) (versioned 3) = false
  /\ currentEpoch (Restart (versioned 3) liveProxy a).1 = 2
  /\ size (activeEpochs (Restart (versioned 3) liveProxy a).1) = 2%nat.
Proof.
  intros cs a.
  assert (Z.of_nat (length cs) < 2 ^ 63) as Hlen by (vm_compute; reflexivity).
  assert (DeepEqual (currentConfig a) (versioned 3) = false) as Hnew by reflexivity.
  split; [exact Hlen|]. split; [exact Hnew|].
  destruct (proj2 (proj2 (restart_keeps_running_epochs 0 cs (versioned 3) liveProxy) Hlen) Hnew)
    as (He & _ & Hsize & _).
  split; [exact He|exact Hsize].
Defined.

(** X3.  The runner that [Restart] spawns for a new configuration runs the
    proxy, cleans up once and reports the epoch it was given; when [Run]
    takes that status, the epoch leaves the active set and the counter and
    the configuration stay.  A later [Restart] with a deeply equal
    configuration therefore does nothing, although that proxy has exited;
    one with another configuration spawns the next epoch, at once when no
    epoch is active. *)
Theorem exited_epoch_is_not_restarted `{ConfigModel}
    (config : option Config) (p : ProxyEnv) (a : agent) (result : option error) :
  DeepEqual (currentConfig a) config = false ->
  let e := wrap_int (currentEpoch a + 1) in
  let ch := chansMade a in
  let status := {| epoch := e; err := result |} in
  let a1 := (Restart config p a).1 in
  let a2 := (onStatus status a1).1 in
  last (Restart config p a).2 = Some (GoRunWait config e ch)
  /\ runWait config e ch result = [ProxyRun config e ch; ProxyCleanup e; SendStatus status]
  /\ statusSent (runWait config e ch result) = [status]
  /\ activeEpochs a2 = delete e (activeEpochs a)
  /\ currentEpoch a2 = e
  /\ currentConfig a2 = config
  /\ (forall config' p',
        DeepEqual config config' = true -> Restart config' p' a2 = (a2, []))
  /\ (forall config' p',
        DeepEqual config config' = false ->
        size (activeEpochs a2) = 0%nat ->
        (Restart config' p' a2).2 = [GoRunWait config' (wrap_int (e + 1)) (S ch)]).
Proof.
  intros Hnew e ch status a1 a2. subst a1 a2.
  rewrite Restart_new by done.
  cbn [fst snd onStatus activeEpochs currentEpoch currentConfig epoch].
  split; [by rewrite last_snoc|]. split; [done|]. split; [done|].
  split; [by rewrite delete_insert_eq|]. split; [done|]. split; [done|]. split.
  - intros config' p' Heq. by apply Restart_same.
  - intros config' p' Hne Hnone. rewrite Restart_new by done.
    cbn [snd currentEpoch chansMade]. unfold waitUntilLive.
    cbn [activeEpochs]. by rewrite bool_decide_eq_true_2.
Qed.

(** The only proxy is killed: the same configuration restarts nothing, a
    new one starts epoch 1 without waiting. *)
Lemma exited_epoch_is_not_restarted_witness :
  let a := NewAgent (H := versionModel) 0 in
  let a1 := (Restart (versioned 1) liveProxy a).1 in
  let a2 := (onStatus {| epoch := 0; err := Some errOutOfMemory |} a1).1 in
  DeepEqual (currentConfig a) (versioned 1) = false
  /\ activeEpochs a2 = ∅
  /\ Restart (versioned 1) liveProxy a2 = (a2, [])
  /\ (Restart (versioned 2) deadProxy a2).2 = [GoRunWait (versioned 2) 1 1%nat].
Proof.
  intros a a1 a2.
  assert (DeepEqual (currentConfig a) (versioned 1) = false) as Hnew by reflexivity.
  split; [exact Hnew|].
  destruct (exited_epoch_is_not_restarted (versioned 1) liveProxy a (Some errOutOfMemory) Hnew)
    as (_ & _ & _ & Hact & _ & _ & Hsame & Hother).
  split; [exact Hact|]. split.
  - exact (Hsame (versioned 1) liveProxy eq_refl).
  - exact (Hother (versioned 2) deadProxy eq_refl eq_refl).
Defined.

End envoy_lifecycle.

(* ===================================================================== *)
(** * The initialisation steps of the server                              *)
(* ===================================================================== *)
Module bootstrap_init.
Import bootstrap bootstrap_spec.

(** ** How a method that ends well went *)

Lemma bind_ok_inv {A B : Type} (m : Init A) (f : A -> Init B) s t b s' :
  (m ≫= f) s = (t, Ok (b, s')) ->
  exists t1 a s1 t2,
    m s = (t1, Ok (a, s1)) /\ f a s1 = (t2, Ok (b, s')) /\ t = t1 ++ t2.
Proof.
  unfold mbind, Init_bind. destruct (m s) as [t1 [[a s1]|e| |what]]; try done.
  destruct (f a s1) as [t2 r] eqn:Hf. unfold prepend. cbn [fst snd].
  intros [= <- ->]. by exists t1, a, s1, t2.
Qed.

Lemma prepend_ok_inv {A : Type} t0 (x : list Effect * Result A) t a :
  prepend t0 x = (t, Ok a) -> exists t1, x = (t1, Ok a) /\ t = t0 ++ t1.
Proof. destruct x as [t1 r]. unfold prepend. cbn. intros [= <- ->]. by exists t1. Qed.

Lemma check_ok_inv r s t s' :
  check r s = (t, Ok (tt, s')) -> r = None /\ t = [] /\ s' = s.
Proof. destruct r; [done|]. by intros [= <- <-]. Qed.

(** ** initKubeClient *)
Lemma initKubeClient_ok_inv w args s t s' :
  initKubeClient w args s = (t, Ok (tt, s')) ->
  t = []
  /\ exists client : option KubeClient,
       s' = set_kubeClient client s
       /\ (if hasKubeRegistry args && bool_decide (FileDir (Config args) = "")
           then exists c, client = Some c /\ CreateClientset w (KubeConfig (Config args)) = inr c
           else client = kubeClient s).
Proof.
  unfold initKubeClient, getKubeCfgFile.
  destruct (hasKubeRegistry args && bool_decide (FileDir (Config args) = "")).
  - destruct (CreateClientset w (KubeConfig (Config args))) as [e|c] eqn:Hc; [done|].
    rewrite run_modify. intros [= <- <-]. split; [done|]. exists (Some c). split; [done|].
    by exists c.
  - rewrite run_ret. intros [= <- <-]. split; [done|]. exists (kubeClient s).
    split; [by destruct s|done].
Qed.

Lemma initMesh_ok_inv w args s t s' :
  initMesh w args s = (t, Ok (tt, s')) ->
  exists m, s' = set_mesh (Some m) (set_fileWatcher (fileWatcher s ++ meshWatchers args) s).
Proof.
  unfold initMesh, meshWatchers. destruct (argsMeshConfig args) as [m|].
  { rewrite run_modify. intros [= <- <-]. exists m. rewrite app_nil_r. by destruct s. }
  destruct (bool_decide (ConfigFile (Mesh args) ≠ "")) eqn:Hfile.
  - destruct (ReadMeshConfig w (ConfigFile (Mesh args))) as [e|m]; run_init.
    + match goal with |- context [GetMeshConfig ?a ?b ?c ?d] =>
        destruct (GetMeshConfig a b c d) as [err|[data m]] end; run_init; [done|].
      intros [= <- <-]. eexists. by destruct s.
    + intros [= <- <-]. exists m. by destruct s.
  - run_init. destruct (GetMeshConfig w (kubeClient s) (IstioNamespace w) (IstioConfigMap w))
      as [err|[data m]]; run_init; [done|].
    intros [= <- <-]. eexists. rewrite app_nil_r. by destruct s.
Qed.

(** ** initMeshNetworks *)
Lemma initMeshNetworks_ok w args s :
  exists t,
    initMeshNetworks w args s =
      (t, Ok (tt,
              if bool_decide (NetworksConfigFile args = "") then s
              else match ReadMeshNetworksConfig w (NetworksConfigFile args) with
                   | inl _ => s
                   | inr read =>
                       addFileWatcher (NetworksConfigFile args)
                         (ReloadMeshNetworks (NetworksConfigFile args))
                         (set_meshNetworks (Some (ResolveHostsInNetworksConfig w read)) s)
                   end)).
Proof.
  unfold initMeshNetworks. case_bool_decide.
  - eexists. by rewrite run_logf.
  - destruct (ReadMeshNetworksConfig w (NetworksConfigFile args)) as [e|read].
    + eexists. by rewrite run_logf.
    + eexists. by run_init.
Qed.

Lemma initMeshNetworks_ok_inv w args s t s' :
  initMeshNetworks w args s = (t, Ok (tt, s')) ->
  exists networks,
    s' = set_fileWatcher (fileWatcher s ++ networksWatchers w args)
           (set_meshNetworks networks s)
    /\ networks = match networksRead w args with
                  | Some n => Some n
                  | None => meshNetworks s
                  end.
Proof.
  destruct (initMeshNetworks_ok w args s) as [t0 ->]. intros [= <- <-].
  unfold networksWatchers, networksRead. case_bool_decide.
  - exists (meshNetworks s). rewrite app_nil_r. split; [by destruct s|done].
  - destruct (ReadMeshNetworksConfig w (NetworksConfigFile args)) as [e|read].
    + exists (meshNetworks s). rewrite app_nil_r. split; [by destruct s|done].
    + eexists. split; [by destruct s|done].
Qed.

Lemma startFuncs_set_startFuncs v s : startFuncs (set_startFuncs v s) = v.
Proof. by destruct s. Qed.

Lemma set_startFuncs_twice u v s : set_startFuncs v (set_startFuncs u s) = set_startFuncs v s.
Proof. by destruct s. Qed.

Lemma set_startFuncs_same s : set_startFuncs (startFuncs s) s = s.
Proof. by destruct s. Qed.

Lemma waitForFiles_ok_inv w files :
  forall seen s t seen' s',
  waitForFiles w files seen s = (t, Ok (seen', s')) -> s' = s.
Proof.
  induction files as [|f files IH]; intros seen s t seen' s'; cbn [waitForFiles].
  - rewrite run_ret. by intros [= _ _ <-].
  - case_bool_decide as Hseen.
    + run_init. intros H. apply prepend_ok_inv in H as (t1 & H & _). by apply IH in H.
    + destruct (statMisses w f) as [n|].
      * run_init. rewrite run_logTimes. run_init. intros H.
        apply prepend_ok_inv in H as (t1 & H & _). by apply IH in H.
      * by run_init.
Qed.

Lemma dialSource_ok_inv w src seen s t dialed s' :
  dialSource w src seen s = (t, Ok (dialed, s')) ->
  s' = s
  /\ remoteStore w src = (if dialed.1 then Some (MCPController (Address src)) else None).
Proof.
  unfold dialSource, remoteStore.
  assert (forall seen' t0 s0,
    match DialContext w (Address src) return Init (bool * list string) with
    | Some err => logf Error "Unable to dial MCP Server %q: %v";; fail err
    | None => mret (true, seen')
    end s0 = (t0, Ok (dialed, s')) -> s' = s0 /\ dialed.1 = true) as Hdial.
  { intros seen' t0 s0. destruct (DialContext w (Address src)); run_init; [done|].
    by intros [= <- <- <-]. }
  destruct (securityOption w src) as [| |o|]; run_init.
  - intros H. by apply Hdial in H as [-> ->].
  - intros H. by apply Hdial in H as [-> ->].
  - intros H. apply prepend_ok_inv in H as (t1 & H & _).
    apply bind_ok_inv in H as (t2 & seen1 & s1 & t3 & Hw & H & _).
    apply waitForFiles_ok_inv in Hw as ->.
    destruct (WatchFiles w o) as [err|]; cbn [check] in H; run_init_in H; [done|].
    by apply Hdial in H as [-> ->].
  - by intros [= <- <- <-].
Qed.

Lemma mcpSources_ok_inv w sources :
  forall clients stores seen s t r s',
  mcpSources w sources clients stores seen s = (t, Ok (r, s')) ->
  r = (clients ++ omap clientOf (omap (storeOf w) sources),
       stores ++ omap (storeOf w) sources)
  /\ s' = set_startFuncs (startFuncs s ++ omap monitorOf (omap (storeOf w) sources)) s.
Proof.
  induction sources as [|src rest IH]; intros clients stores seen s t r s'.
  - cbn [mcpSources omap list_omap]. rewrite run_ret. intros [= <- <- <-].
    rewrite !app_nil_r. split; [done|]. by destruct s.
  - assert ((dialSource w src seen ≫= fun dialed : bool * list string =>
               if dialed.1
               then mcpSources w rest (clients ++ [Address src])
                      (stores ++ [MCPController (Address src)]) dialed.2
               else mcpSources w rest clients stores dialed.2) s = (t, Ok (r, s')) ->
            match remoteStore w src with
            | Some c =>
                r = (clients ++ omap clientOf (c :: omap (storeOf w) rest),
                     stores ++ c :: omap (storeOf w) rest)
                /\ s' = set_startFuncs
                          (startFuncs s ++ omap monitorOf (c :: omap (storeOf w) rest)) s
            | None =>
                r = (clients ++ omap clientOf (omap (storeOf w) rest),
                     stores ++ omap (storeOf w) rest)
                /\ s' = set_startFuncs
                          (startFuncs s ++ omap monitorOf (omap (storeOf w) rest)) s
            end) as Hremote.
    { intros H. apply bind_ok_inv in H as (t1 & dialed & s1 & t2 & Hd & H & _).
      apply dialSource_ok_inv in Hd as [-> ->]. destruct dialed as [[] seen'].
      - apply IH in H as [-> ->]. cbn [omap list_omap clientOf monitorOf].
        rewrite <- !app_assoc. split; reflexivity.
      - by apply IH in H as [-> ->]. }
    cbn [mcpSources omap list_omap]. cbv zeta.
    pose proof (eq_refl (storeOf w src)) as Hstore. unfold storeOf at 2 in Hstore.
    revert Hstore. destruct (contains (Address src) (fsScheme +:+ "://")).
    + destruct (urlParse w (Address src)) as [err|srcAddress]; [done|].
      case_bool_decide as Hscheme.
      * case_bool_decide as Hpath; [done|]. intros ->.
        unfold makeFileMonitor. run_init. intros H. apply IH in H as [-> ->].
        cbn [omap list_omap clientOf monitorOf]. rewrite startFuncs_addStartFunc.
        unfold addStartFunc. rewrite set_startFuncs_twice.
        rewrite <- !app_assoc. split; reflexivity.
      * intros -> H. apply Hremote in H. by destruct (remoteStore w src).
    + intros -> H. apply Hremote in H. by destruct (remoteStore w src).
Qed.

Lemma makeKubeConfigController_ok_inv w args s t c s' :
  makeKubeConfigController w args s = (t, Ok (c, s')) ->
  t = [] /\ s' = s /\ c = KubeController (KubeConfig (Config args))
  /\ NewClient w (KubeConfig (Config args)) = None
  /\ (DisableInstallCRDs (Config args) = false -> RegisterResources w = None).
Proof.
  unfold makeKubeConfigController, getKubeCfgFile.
  destruct (NewClient w (KubeConfig (Config args))) as [err|]; [done|].
  destruct (DisableInstallCRDs (Config args)); cbn [negb].
  - run_init. by intros [= <- <- <-].
  - destruct (RegisterResources w) as [err|]; [done|]. run_init. by intros [= <- <- <-].
Qed.

Lemma initMCPConfigController_ok_inv w args s t s' :
  initMCPConfigController w args s = (t, Ok (tt, s')) ->
  exists m,
    mesh s = Some m
    /\ let stores := omap (storeOf w) (ConfigSources m) in
       MakeCache w stores = None
       /\ s' = set_configController (Some (AggregateCache stores))
                 (set_startFuncs
                    (startFuncs s ++ omap monitorOf stores
                       ++ [StartMCPClients (omap clientOf stores)]) s).
Proof.
  unfold initMCPConfigController. rewrite run_bind_get.
  destruct (mesh s) as [m|] eqn:Hmesh; [|done]. intros H.
  apply bind_ok_inv in H as (t1 & r & s1 & t2 & Hsrc & H & _).
  apply mcpSources_ok_inv in Hsrc as [-> ->]. cbn [fst snd app] in H.
  rewrite run_bind_modify in H.
  apply bind_ok_inv in H as (t3 & [] & s2 & t4 & Hc & H & _).
  apply check_ok_inv in Hc as (Hcache & _ & ->).
  rewrite run_modify in H. injection H as _ <-.
  exists m. split; [done|]. cbv zeta. split; [done|].
  unfold addStartFunc. rewrite set_startFuncs_twice, startFuncs_set_startFuncs.
  by rewrite <- app_assoc.
Qed.

Lemma initConfigController_ok_inv w args s t s' :
  initConfigController w args s = (t, Ok (tt, s')) ->
  exists m,
    mesh s = Some m
    /\ let base := baseController w args m in
       let cc := if withIngress args m
                 then AggregateCache [base.1; IngressController] else base.1 in
       s' = set_istioConfigStore (Some cc)
              (set_configController (Some cc)
                 (set_startFuncs
                    (startFuncs s ++ base.2 ++ [StartConfigController]
                       ++ (if withIngress args m
                           then match NewStatusSyncer w with
                                | Some _ => []
                                | None => [StartIngressSyncer]
                                end
                           else [])) s)).
Proof.
  unfold initConfigController. rewrite run_bind_get.
  destruct (mesh s) as [m|] eqn:Hmesh; [|done]. intros H. exists m. split; [done|].
  apply bind_ok_inv in H as (t1 & [] & s1 & t2 & Hbase & H & _).
  assert (s1 = set_configController (Some (baseController w args m).1)
                 (set_startFuncs (startFuncs s ++ (baseController w args m).2) s)) as ->.
  { unfold baseController. revert Hbase.
    destruct (decide (0 < length (ConfigSources m))%nat) as [Hsrc|Hsrc].
    - rewrite !(bool_decide_eq_true_2 _ Hsrc).
      intros Hbase. apply initMCPConfigController_ok_inv in Hbase as (m' & Hm' & _ & ->).
      rewrite Hmesh in Hm'. by injection Hm' as <-.
    - rewrite !(bool_decide_eq_false_2 _ Hsrc).
      destruct (Controller (Config args)) as [c|].
      + rewrite run_modify. intros [= <- <-]. cbn [fst snd]. rewrite app_nil_r.
        by rewrite set_startFuncs_same.
      + destruct (decide (FileDir (Config args) ≠ "")) as [Hdir|Hdir].
        * rewrite !(bool_decide_eq_true_2 _ Hdir).
          unfold makeFileMonitor. run_init. intros [= <- <-]. by destruct s.
        * rewrite !(bool_decide_eq_false_2 _ Hdir).
          intros Hbase. apply bind_ok_inv in Hbase as (t3 & c & s2 & t4 & Hk & Hbase & _).
          apply makeKubeConfigController_ok_inv in Hk as (_ & -> & -> & _).
          rewrite run_modify in Hbase. injection Hbase as _ <-. cbn [fst snd].
          rewrite app_nil_r. by rewrite set_startFuncs_same. }
  clear Hbase. rewrite run_bind_modify in H. cbv zeta.
  fold (withIngress args m) in H. destruct (withIngress args m).
  - rewrite run_bind_assoc, run_bind_get in H.
    assert (configController
              (addStartFunc StartConfigController
                 (set_configController (Some (baseController w args m).1)
                    (set_startFuncs (startFuncs s ++ (baseController w args m).2) s)))
            = Some (baseController w args m).1) as Hcc by (by destruct s).
    rewrite Hcc in H. clear Hcc.
    destruct (MakeCache w [(baseController w args m).1; IngressController]) as [err|];
      [done|].
    cbn [check] in H. run_init_in H.
    destruct (NewStatusSyncer w) as [err|]; run_init_in H.
    + injection H as _ <-. same_server s.
    + injection H as _ <-. same_server s.
  - run_init_in H. injection H as _ <-. same_server s.
Qed.

Lemma addRegistries_ok_inv w args registries :
  forall registered ctrls s t r s',
  addRegistries w args registries registered ctrls s = (t, Ok (r, s')) ->
  exists fresh,
    r = ctrls ++ (fresh ≫= registriesOf)
    /\ NoDup fresh
    /\ Forall (fun x => (x ∈ registries) /\ (x ∉ registered)
                         /\ supportedRegistry x = true) fresh
    /\ (forall x, x ∈ registries -> x ∈ registered \/ x ∈ fresh)
    /\ s' = set_kubeRegistry
              (if bool_decide (KubernetesRegistry ∈ fresh)
               then Some newKubeRegistry else kubeRegistry s) s.
Proof.
  induction registries as [|r0 rest IH]; intros registered ctrls s t r s' H.
  - cbn [addRegistries] in H. rewrite run_ret in H. injection H as _ <- <-.
    exists []. rewrite app_nil_r. split; [done|]. split; [constructor|].
    split; [constructor|]. split; [by intros x Hx; apply elem_of_nil in Hx|].
    by destruct s.
  - cbn [addRegistries] in H. destruct (decide (r0 ∈ registered)) as [Hdup|Hnew].
    + rewrite (bool_decide_eq_true_2 _ Hdup) in H. run_init_in H.
      apply prepend_ok_inv in H as (t1 & H & _).
      apply IH in H as (fresh & -> & Hnd & Hall & Hcover & ->).
      exists fresh. split; [done|]. split; [done|]. split.
      { eapply Forall_impl; [exact Hall|]. intros x (Hx & Hr & Hs).
        split; [by right|done]. }
      split; [|done]. intros x Hx. apply elem_of_cons in Hx as [->|Hx]; [by left|].
      by apply Hcover.
    + rewrite (bool_decide_eq_false_2 _ Hnew) in H. run_init_in H.
      apply prepend_ok_inv in H as (t1 & H & _).
      apply bind_ok_inv in H as (t2 & added & s1 & t3 & Hadd & H & _).
      apply IH in H as (fresh & -> & Hnd & Hall & Hcover & ->).
      assert (r0 ∉ fresh) as Hr0.
      { intros Hin. eapply Forall_forall in Hall; [|exact Hin].
        destruct Hall as (_ & Hreg & _). apply Hreg. by left. }
      assert (supportedRegistry r0 = true
              /\ added = ctrls ++ registriesOf r0
              /\ s1 = set_kubeRegistry
                        (if bool_decide (r0 = KubernetesRegistry)
                         then Some newKubeRegistry else kubeRegistry s) s) as (Hsup & -> & ->).
      { unfold registriesOf, supportedRegistry. revert Hadd.
        destruct (decide (r0 = MockRegistry)) as [->|Hmock].
        { rewrite !(bool_decide_eq_true_2 (MockRegistry = MockRegistry) eq_refl).
          rewrite run_ret. intros [= <- <- <-]. split; [done|]. split; [done|].
          by destruct s. }
        rewrite !(bool_decide_eq_false_2 _ Hmock).
        destruct (decide (r0 = KubernetesRegistry)) as [->|Hkube].
        { rewrite !(bool_decide_eq_true_2 (KubernetesRegistry = KubernetesRegistry) eq_refl).
          unfold createK8sServiceControllers. run_init. intros [= <- <- <-].
          split; [done|]. split; [done|]. by destruct s. }
        rewrite !(bool_decide_eq_false_2 _ Hkube).
        destruct (decide (r0 = ConsulRegistry)) as [->|Hconsul].
        { rewrite !(bool_decide_eq_true_2 (ConsulRegistry = ConsulRegistry) eq_refl).
          unfold initConsulRegistry. run_init.
          destruct (ConsulNewController w _) as [conerr|]; run_init; [done|].
          intros [= <- <- <-]. split; [done|]. split; [done|]. by destruct s. }
        rewrite !(bool_decide_eq_false_2 _ Hconsul).
        destruct (decide (r0 = MCPRegistry)) as [->|Hmcp].
        { rewrite !(bool_decide_eq_true_2 (MCPRegistry = MCPRegistry) eq_refl).
          run_init. intros [= <- <- <-]. rewrite app_nil_r.
          split; [done|]. split; [done|]. by destruct s. }
        rewrite !(bool_decide_eq_false_2 _ Hmcp). by run_init. }
      exists (r0 :: fresh). split.
      { cbn [mbind list_bind]. by rewrite <- app_assoc. }
      split; [by constructor|]. split.
      { constructor; [split; [by left|done]|].
        eapply Forall_impl; [exact Hall|]. intros x (Hx & Hr & Hs).
        split; [by right|]. split; [|done]. intros Hin. apply Hr. by right. }
      split.
      { intros x Hx. apply elem_of_cons in Hx as [->|Hx]; [right; by left|].
        apply Hcover in Hx as [Hx|Hx]; [|right; by right].
        apply elem_of_cons in Hx as [->|Hx]; [right; by left|by left]. }
      destruct (decide (r0 = KubernetesRegistry)) as [->|Hkube].
      * rewrite (bool_decide_eq_true_2 (KubernetesRegistry = KubernetesRegistry)) by done.
        rewrite (bool_decide_eq_true_2 (KubernetesRegistry ∈ KubernetesRegistry :: fresh))
          by (by left).
        rewrite (bool_decide_eq_false_2 (KubernetesRegistry ∈ fresh)) by done.
        by destruct s.
      * rewrite (bool_decide_eq_false_2 (r0 = KubernetesRegistry)) by done.
        destruct (decide (KubernetesRegistry ∈ fresh)) as [Hin|Hnin].
        -- rewrite (bool_decide_eq_true_2 (KubernetesRegistry ∈ fresh)) by done.
           rewrite (bool_decide_eq_true_2 (KubernetesRegistry ∈ r0 :: fresh)) by (by right).
           by destruct s.
        -- rewrite (bool_decide_eq_false_2 (KubernetesRegistry ∈ fresh)) by done.
           rewrite (bool_decide_eq_false_2 (KubernetesRegistry ∈ r0 :: fresh)).
           2:{ intros Hin. apply elem_of_cons in Hin as [Heq|Hin]; congruence. }
           by destruct s.
Qed.

Lemma hasKubeRegistry_elem args :
  hasKubeRegistry args = true <-> KubernetesRegistry ∈ Registries (Service args).
Proof.
  unfold hasKubeRegistry. rewrite existsb_exists. split.
  - intros (r & Hin & Hr). apply bool_decide_eq_true in Hr as ->.
    by apply list_elem_of_In.
  - intros Hin. exists KubernetesRegistry. split; [by apply list_elem_of_In|].
    by apply bool_decide_eq_true.
Qed.

Lemma initServiceControllers_ok_inv w args s t s' :
  initServiceControllers w args s = (t, Ok (tt, s')) ->
  exists fresh,
    NoDup fresh
    /\ (forall x, x ∈ fresh <-> x ∈ Registries (Service args))
    /\ Forall (fun x => supportedRegistry x = true) fresh
    /\ s' = set_startFuncs (startFuncs s ++ [StartServiceControllers])
              (set_ServiceController (Some ((fresh ≫= registriesOf) ++ [serviceEntries]))
                 (set_kubeRegistry
                    (if hasKubeRegistry args then Some newKubeRegistry else kubeRegistry s)
                    s)).
Proof.
  unfold initServiceControllers. intros H.
  apply bind_ok_inv in H as (t1 & ctrls & s1 & t2 & Hadd & H & _).
  apply addRegistries_ok_inv in Hadd as (fresh & -> & Hnd & Hall & Hcover & ->).
  run_init_in H. injection H as _ <-. exists fresh. split; [done|].
  assert (forall x, x ∈ fresh <-> x ∈ Registries (Service args)) as Hiff.
  { intros x. split.
    - intros Hin. eapply Forall_forall in Hall; [|exact Hin]. by destruct Hall.
    - intros Hin. apply Hcover in Hin as [Hin|Hin]; [by apply elem_of_nil in Hin|done]. }
  split; [exact Hiff|]. split.
  { eapply Forall_impl; [exact Hall|]. by intros x (_ & _ & Hs). }
  assert (bool_decide (KubernetesRegistry ∈ fresh) = hasKubeRegistry args) as ->.
  { destruct (hasKubeRegistry args) eqn:Hk.
    - apply bool_decide_eq_true. apply Hiff. by apply hasKubeRegistry_elem.
    - apply bool_decide_eq_false. intros Hin. apply Hiff, hasKubeRegistry_elem in Hin.
      congruence. }
  cbn [app]. same_server s.
Qed.

(** ** The discovery service *)

Lemma initSecureGrpcServer_ok_inv w s t s' :
  initSecureGrpcServer w s = (t, Ok (tt, s')) ->
  t = []
  /\ NewServerTLSFromFile w = None /\ LoadX509KeyPair w = None /\ ReadCAFile w = None
  /\ s' = set_secureHTTPServer true (set_secureGRPCServer true s).
Proof.
  unfold initSecureGrpcServer.
  destruct (NewServerTLSFromFile w); [done|].
  destruct (LoadX509KeyPair w); [done|].
  destruct (ReadCAFile w); [done|].
  cbn [check]. run_init. by intros [= <- <-].
Qed.

Lemma initDiscoveryService_ok_inv w args s t s' :
  initDiscoveryService w args s = (t, Ok (tt, s')) ->
  exists listener grpcListener,
    t = []
    /\ NewDiscoveryService w = None
    /\ ListenHTTP w = inr listener
    /\ ListenGRPC w = inr grpcListener
    /\ let secure := bool_decide (SecureGrpcAddr (DiscoveryOptions args) ≠ "") in
       (secure = true ->
          NewServerTLSFromFile w = None /\ LoadX509KeyPair w = None /\ ReadCAFile w = None
          /\ exists secureGrpcListener, ListenSecureGRPC w = inr secureGrpcListener)
       /\ s' =
          set_SecureGRPCListeningAddr
            (if secure then match ListenSecureGRPC w with
                            | inr l => Some l
                            | inl _ => SecureGRPCListeningAddr s
                            end
             else SecureGRPCListeningAddr s)
            (set_secureHTTPServer (secure || secureHTTPServer s)
            (set_secureGRPCServer (secure || secureGRPCServer s)
            (set_GRPCListeningAddr (Some grpcListener)
            (set_HTTPListeningAddr (Some listener)
            (set_httpServer (Some (HTTPAddr (DiscoveryOptions args)))
            (set_grpcServer true
            (set_startFuncs
               (startFuncs s
                  ++ [StartXdsServer;
                      StartDiscovery listener grpcListener (ForceStop args)]
                  ++ secureStartFuncs w args)
            (set_kubeRegistry
               (match kubeRegistry s with
                | Some _ => Some {| networkLookup := Some (meshNetworks s);
                                    hasXDSUpdater := true |}
                | None => None
                end)
            (set_EnvoyXdsServer
               (Some {| EnvMesh := mesh s;
                        EnvMeshNetworks := meshNetworks s;
                        configUpdates := [] |})
            (set_mux true s)))))))))).
Proof.
  unfold initDiscoveryService, secureStartFuncs, initGrpcServer. rewrite run_bind_get.
  destruct (NewDiscoveryService w) as [err|]; [done|].
  destruct (ListenHTTP w) as [err|listener] eqn:Hhttp.
  { destruct (kubeRegistry s); by run_init. }
  destruct (ListenGRPC w) as [err|grpcListener] eqn:Hgrpc.
  { destruct (kubeRegistry s); by run_init. }
  destruct (decide (SecureGrpcAddr (DiscoveryOptions args) ≠ "")) as [Hsec|Hsec].
  - rewrite !(bool_decide_eq_true_2 _ Hsec). intros H.
    exists listener, grpcListener.
    assert (exists s0, (wrapErr "secure grpc server: " (initSecureGrpcServer w)
              ≫= fun _ =>
                 match ListenSecureGRPC w with
                 | inl err => fail err
                 | inr secureGrpcListener =>
                     modify (set_SecureGRPCListeningAddr (Some secureGrpcListener));;
                     modify (addStartFunc
                               (StartSecureDiscovery secureGrpcListener (ForceStop args)))
                 end) s0 = (t, Ok (tt, s'))
              /\ s0 = set_GRPCListeningAddr (Some grpcListener)
            (set_HTTPListeningAddr (Some listener)
            (set_httpServer (Some (HTTPAddr (DiscoveryOptions args)))
            (set_grpcServer true
            (set_startFuncs
               (startFuncs s
                  ++ [StartXdsServer;
                      StartDiscovery listener grpcListener (ForceStop args)])
            (set_kubeRegistry
               (match kubeRegistry s with
                | Some _ => Some {| networkLookup := Some (meshNetworks s);
                                    hasXDSUpdater := true |}
                | None => None
                end)
            (set_EnvoyXdsServer
               (Some {| EnvMesh := mesh s;
                        EnvMeshNetworks := meshNetworks s;
                        configUpdates := [] |})
            (set_mux true s)))))))) as (s0 & H0 & Hs0).
    { destruct (kubeRegistry s) eqn:Hk; run_init_in H; eexists; (split; [exact H|]);
        destruct s; cbn in Hk |- *; subst; rewrite <- ?app_assoc; reflexivity. }
    clear H. rewrite run_bind_wrapErr in H0.
    destruct (initSecureGrpcServer w s0) as [t1 [[[] s1]|e| |what]] eqn:Hinit; try done.
    apply initSecureGrpcServer_ok_inv in Hinit as (-> & Htls & Hpair & Hca & ->).
    rewrite prepend_nil in H0.
    destruct (ListenSecureGRPC w) as [err|secureGrpcListener] eqn:Hlisten; [done|].
    run_init_in H0. injection H0 as <- <-. subst s0.
    split; [done|]. split; [done|]. split; [done|]. split; [done|]. cbv zeta. split.
    { intros _. split; [done|]. split; [done|]. split; [done|].
      by exists secureGrpcListener. }
    same_server s.
  - rewrite !(bool_decide_eq_false_2 _ Hsec). intros H.
    exists listener, grpcListener.
    destruct (kubeRegistry s) eqn:Hk; run_init_in H; injection H as <- <-;
      (split; [done|]); (split; [done|]); (split; [done|]); (split; [done|]); cbv zeta;
      (split; [done|]); destruct s; cbn in Hk |- *; subst;
      rewrite <- ?app_assoc, ?app_nil_r; reflexivity.
Qed.

(** ** Monitor, cluster registries *)

Lemma initClusterRegistries_ok_inv w args s t s' :
  initClusterRegistries w args s = (t, Ok (tt, s')) ->
  t = []
  /\ s' = set_multicluster
            (if hasKubeRegistry args
             then Some {| multiclusterNetworks := meshNetworks s |}
             else multicluster s) s.
Proof.
  unfold initClusterRegistries. destruct (hasKubeRegistry args).
  - destruct (NewMulticluster w) as [err|]; run_init; [done|]. by intros [= <- <-].
  - rewrite run_ret. intros [= <- <-]. split; [done|]. by destruct s.
Qed.

Lemma generatePilotCert_ok_inv w s t r s' :
  generatePilotCert w s = (t, Ok (r, s')) ->
  s' = s
  /\ kubeClient s <> None
  /\ (r = true ->
        t = [] /\ GenKeyCertK8sCA w = None
        /\ forall file, file ∈ ["cert-chain.pem"; "root.pem"; "key.pem"]%string ->
                        WriteFile w file = None)
  /\ (r = false -> exists format, t = [Log Error format]).
Proof.
  unfold generatePilotCert. intros H.
  apply bind_ok_inv in H as (t1 & [] & s1 & t2 & Hdir & H & ->).
  assert (s1 = s /\ t1 = []) as [-> ->].
  { destruct (keyCertDirExists w); cbn [negb] in Hdir.
    - rewrite run_ret in Hdir. by injection Hdir as <- <-.
    - destruct (MkdirAll w); [done|]. rewrite run_ret in Hdir. by injection Hdir as <- <-. }
  rewrite run_bind_get in H. destruct (kubeClient s) as [k|]; [|done].
  split; [|split; [done|]].
  { destruct (GenKeyCertK8sCA w); run_init_in H; [by injection H as _ _ <-|].
    destruct (WriteFile w "cert-chain.pem"); run_init_in H; [by injection H as _ _ <-|].
    destruct (WriteFile w "root.pem"); run_init_in H; [by injection H as _ _ <-|].
    destruct (WriteFile w "key.pem"); run_init_in H; by injection H as _ _ <-. }
  destruct (GenKeyCertK8sCA w); run_init_in H.
  { injection H as <- <- _. split; [done|]. intros _. by eexists. }
  destruct (WriteFile w "cert-chain.pem") eqn:H1; run_init_in H.
  { injection H as <- <- _. split; [done|]. intros _. by eexists. }
  destruct (WriteFile w "root.pem") eqn:H2; run_init_in H.
  { injection H as <- <- _. split; [done|]. intros _. by eexists. }
  destruct (WriteFile w "key.pem") eqn:H3; run_init_in H.
  { injection H as <- <- _. split; [done|]. intros _. by eexists. }
  injection H as <- <- _. split; [|done]. intros _. split; [done|]. split; [done|].
  intros file Hin. repeat (apply elem_of_cons in Hin as [->|Hin]; [done|]).
  by apply elem_of_nil in Hin.
Qed.

Lemma certLoop_ok_inv w args certs :
  forall acc s t r s',
  certLoop w args certs acc s = (t, Ok (r, s')) ->
  s' = s
  /\ match r with
     | Some acc' =>
         exists generated, acc' = collected args certs acc generated
     | None => kubeClient s <> None
     end.
Proof.
  induction certs as [|c rest IH]; intros acc s t r s' H.
  - cbn [certLoop] in H. rewrite run_ret in H. injection H as _ <- <-.
    split; [done|]. exists (pilotCertGenerated acc). unfold collected.
    cbn. rewrite !app_nil_r. by destruct acc.
  - cbn [certLoop] in H. cbv zeta in H. unfold collected, managed.
    rewrite filter_cons.
    destruct (decide (String.length (join (DnsNames c) ",") = 0%nat)) as [Hname|Hname].
    { rewrite (bool_decide_eq_true_2 _ Hname) in H.
      apply IH in H as [-> Hr]. split; [done|]. destruct r as [acc'|]; [|done].
      rewrite decide_False; [exact Hr|].
      rewrite (bool_decide_eq_true_2 _ Hname). by cbn. }
    rewrite (bool_decide_eq_false_2 _ Hname) in H.
    destruct (decide (0 < String.length (SecretName c))%nat) as [Hsecret|Hsecret].
    { rewrite (bool_decide_eq_true_2 _ Hsecret) in H.
      apply IH in H as [-> Hr]. split; [done|]. destruct r as [acc'|]; [|done].
      destruct Hr as [generated ->]. exists generated.
      rewrite decide_True.
      2:{ rewrite (bool_decide_eq_false_2 _ Hname), (bool_decide_eq_true_2 _ Hsecret).
          by cbn. }
      unfold collected. cbn. by rewrite <- !app_assoc. }
    rewrite (bool_decide_eq_false_2 _ Hsecret) in H.
    rewrite decide_False.
    2:{ rewrite (bool_decide_eq_false_2 _ Hname), (bool_decide_eq_false_2 _ Hsecret).
        by cbn. }
    destruct (pilotCertGenerated acc) eqn:Hgen; cbn [negb] in H.
    { apply IH in H as [-> Hr]. split; [done|]. destruct r as [acc'|]; [|done].
      exact Hr. }
    apply bind_ok_inv in H as (t1 & generated & s1 & t2 & Hg & H & _).
    apply generatePilotCert_ok_inv in Hg as (-> & Hclient & _).
    destruct generated.
    + apply IH in H as [-> Hr]. split; [done|]. destruct r as [acc'|]; [|done].
      exact Hr.
    + rewrite run_ret in H. by injection H as _ <- <-.
Qed.

Lemma initCertController_ok_inv w args s t s' :
  initCertController w args s = (t, Ok (tt, s')) ->
  s' = s
  \/ (certsOf s <> []
      /\ kubeClient s <> None
      /\ NewWebhookController w = None
      /\ s' = set_startFuncs (startFuncs s ++ [StartCertController])
                (set_certController
                   (Some (let kept := filter (fun c => managed c = true) (certsOf s) in
                          {| secretNames := SecretName <$> kept;
                             dnsNames := (fun c => join (DnsNames c) ",") <$> kept;
                             namespaces := replicate (length kept) (Namespace args) |}))
                   s)).
Proof.
  unfold initCertController, certsOf. rewrite run_bind_get.
  set (certs := match mesh s with Some m => Certificates m | None => [] end).
  destruct (decide (length certs = 0%nat)) as [Hnil|Hcerts].
  { rewrite (bool_decide_eq_true_2 _ Hnil). rewrite run_logf. intros [= <- <-]. by left. }
  rewrite (bool_decide_eq_false_2 _ Hcerts). intros H.
  apply bind_ok_inv in H as (t1 & looped & s1 & t2 & Hloop & H & _).
  apply certLoop_ok_inv in Hloop as [-> Hacc].
  destruct looped as [acc|].
  2:{ rewrite run_ret in H. injection H as _ <-. by left. }
  destruct Hacc as [generated ->].
  destruct (kubeClient s) as [k|] eqn:Hk; [|done].
  destruct (NewWebhookController w) as [err|] eqn:Hctl; [done|].
  run_init_in H. injection H as _ <-. right.
  split; [by destruct certs|]. split; [done|]. split; [done|].
  cbn. same_server s.
Qed.

(** ** The nine steps *)

Lemma runSteps_nil s : runSteps [] s = ([], Ok (tt, s)).
Proof. reflexivity. Qed.

Lemma runSteps_cons_ok_inv prefix (step : Init unit) (rest : list (string * Init unit))
    s t s' :
  runSteps ((prefix, step) :: rest) s = (t, Ok (tt, s')) ->
  exists t1 s1 t2,
    step s = (t1, Ok (tt, s1)) /\ runSteps rest s1 = (t2, Ok (tt, s')) /\ t = t1 ++ t2.
Proof.
  rewrite runSteps_cons. destruct (step s) as [t1 [[[] s1]|e| |what]]; try done.
  intros H. apply prepend_ok_inv in H as (t2 & H & ->). by exists t1, s1, t2.
Qed.

Lemma NewServer_steps w args t s :
  NewServer w args = (t, Ok s) ->
  let args' := withDefaults w args in
  exists t1 s1 t2 s2 t3 s3 t4 s4 t5 s5 t6 s6 t7 s7 t8 s8 t9,
    initKubeClient w args' emptyServer = (t1, Ok (tt, s1))
    /\ initMesh w args' s1 = (t2, Ok (tt, s2))
    /\ initMeshNetworks w args' s2 = (t3, Ok (tt, s3))
    /\ initConfigController w args' s3 = (t4, Ok (tt, s4))
    /\ initServiceControllers w args' s4 = (t5, Ok (tt, s5))
    /\ initDiscoveryService w args' s5 = (t6, Ok (tt, s6))
    /\ initMonitor args' s6 = (t7, Ok (tt, s7))
    /\ initClusterRegistries w args' s7 = (t8, Ok (tt, s8))
    /\ initCertController w args' s8 = (t9, Ok (tt, s))
    /\ t = t1 ++ t2 ++ t3 ++ t4 ++ t5 ++ t6 ++ t7 ++ t8 ++ t9.
Proof.
  intros H args'. apply NewServer_ok_inv in H. fold args' in H. unfold initSteps in H.
  apply runSteps_cons_ok_inv in H as (t1 & s1 & r1 & H1 & H & ->).
  apply runSteps_cons_ok_inv in H as (t2 & s2 & r2 & H2 & H & ->).
  apply runSteps_cons_ok_inv in H as (t3 & s3 & r3 & H3 & H & ->).
  apply runSteps_cons_ok_inv in H as (t4 & s4 & r4 & H4 & H & ->).
  apply runSteps_cons_ok_inv in H as (t5 & s5 & r5 & H5 & H & ->).
  apply runSteps_cons_ok_inv in H as (t6 & s6 & r6 & H6 & H & ->).
  apply runSteps_cons_ok_inv in H as (t7 & s7 & r7 & H7 & H & ->).
  apply runSteps_cons_ok_inv in H as (t8 & s8 & r8 & H8 & H & ->).
  apply runSteps_cons_ok_inv in H as (t9 & s9 & r9 & H9 & H & ->).
  rewrite runSteps_nil in H. injection H as <- <-. rewrite app_nil_r.
  by exists t1, s1, t2, s2, t3, s3, t4, s4, t5, s5, t6, s6, t7, s7, t8, s8, t9.
Qed.

Lemma initMonitor_run args s :
  initMonitor args s =
    ([], Ok (tt, set_startFuncs
                   (startFuncs s ++ [StartMonitor (MonitoringAddr (DiscoveryOptions args))]) s)).
Proof. reflexivity. Qed.

Lemma NewServer_fields w args t s :
  NewServer w args = (t, Ok s) ->
  let args' := withDefaults w args in
  exists m listener grpcListener fresh certFns,
    mesh s = Some m
    /\ ListenHTTP w = inr listener
    /\ ListenGRPC w = inr grpcListener
    /\ NoDup fresh
    /\ (forall x, x ∈ fresh <-> x ∈ Registries (Service args))
    /\ (certFns = [] \/ certFns = [StartCertController])
    /\ (is_Some (kubeClient s) <->
        hasKubeRegistry args = true /\ FileDir (Config args) = "")
    /\ fileWatcher s = meshWatchers args' ++ networksWatchers w args'
    /\ configController s = Some (finalController w args' m)
    /\ istioConfigStore s = Some (finalController w args' m)
    /\ ServiceController s = Some ((fresh ≫= registriesOf) ++ [serviceEntries])
    /\ kubeRegistry s =
         (if hasKubeRegistry args
          then Some {| networkLookup := Some (meshNetworks s); hasXDSUpdater := true |}
          else None)
    /\ EnvoyXdsServer s =
         Some {| EnvMesh := Some m; EnvMeshNetworks := meshNetworks s;
                 configUpdates := [] |}
    /\ multicluster s =
         (if hasKubeRegistry args
          then Some {| multiclusterNetworks := meshNetworks s |} else None)
    /\ startFuncs s =
         (baseController w args' m).2 ++ [StartConfigController]
           ++ ingressStartFuncs w args' m
           ++ [StartServiceControllers; StartXdsServer;
               StartDiscovery listener grpcListener (ForceStop args)]
           ++ secureStartFuncs w args'
           ++ [StartMonitor (MonitoringAddr (DiscoveryOptions args))]
           ++ certFns
    /\ HTTPListeningAddr s = Some listener
    /\ GRPCListeningAddr s = Some grpcListener
    /\ MonitorListeningAddr s = None
    /\ (is_Some (certController s) <-> certFns = [StartCertController])
    /\ meshNetworks s = networksRead w args'.
Proof.
  intros H args'.
  apply NewServer_steps in H. fold args' in H.
  destruct H as (t1 & s1 & t2 & s2 & t3 & s3 & t4 & s4 & t5 & s5 & t6 & s6 & t7 & s7
                 & t8 & s8 & t9 & H1 & H2 & H3 & H4 & H5 & H6 & H7 & H8 & H9 & _).
  apply initKubeClient_ok_inv in H1 as (_ & client & -> & Hclient).
  apply initMesh_ok_inv in H2 as (m & ->).
  apply initMeshNetworks_ok_inv in H3 as (networks & -> & Hnetworks).
  assert (networks = networksRead w args') as Hread.
  { rewrite Hnetworks. by destruct (networksRead w args'). }
  clear Hnetworks.
  apply initConfigController_ok_inv in H4 as (m' & Hm' & ->).
  assert (m' = m) as -> by (cbn in Hm'; congruence). clear Hm'.
  apply initServiceControllers_ok_inv in H5 as (fresh & Hnd & Hfresh & _ & ->).
  apply initDiscoveryService_ok_inv in H6
    as (listener & grpcListener & _ & _ & Hhttp & Hgrpc & _ & ->).
  rewrite initMonitor_run in H7. injection H7 as _ <-.
  apply initClusterRegistries_ok_inv in H8 as (_ & ->).
  change (hasKubeRegistry args') with (hasKubeRegistry args) in *.
  change (FileDir (Config args')) with (FileDir (Config args)) in *.
  change (ForceStop args') with (ForceStop args) in *.
  change (DiscoveryOptions args') with (DiscoveryOptions args) in *.
  change (Registries (Service args')) with (Registries (Service args)) in *.
  assert (is_Some client <-> hasKubeRegistry args = true /\ FileDir (Config args) = "")
    as Hc.
  { destruct (hasKubeRegistry args); cbn [andb] in Hclient |- *.
    - destruct (decide (FileDir (Config args) = "")) as [Hd|Hd].
      + rewrite (bool_decide_eq_true_2 _ Hd) in Hclient.
        destruct Hclient as (c & -> & _). by split.
      + rewrite (bool_decide_eq_false_2 _ Hd) in Hclient. cbn in Hclient. subst client.
        split; [by intros [? ?]|by intros [_ ?]].
    - cbn in Hclient. subst client. split; [by intros [? ?]|by intros [? _]]. }
  exists m, listener, grpcListener, fresh.
  apply initCertController_ok_inv in H9 as [->|(_ & _ & _ & ->)].
  - exists []. unfold finalController, ingressStartFuncs.
    split; [done|]. split; [done|]. split; [done|]. split; [done|]. split; [done|].
    split; [by left|]. split; [exact Hc|].
    destruct (hasKubeRegistry args); cbn; rewrite <- ?app_assoc; cbn [app];
      rewrite ?app_nil_r;
      (split; [done|]); (split; [done|]); (split; [done|]); (split; [done|]);
      (split; [done|]); (split; [done|]); (split; [done|]); (split; [done|]);
      (split; [done|]); (split; [done|]); (split; [done|]);
      (split; [split; [by intros [? ?]|done]|done]).
  - exists [StartCertController]. unfold finalController, ingressStartFuncs.
    split; [done|]. split; [done|]. split; [done|]. split; [done|]. split; [done|].
    split; [by right|]. split; [exact Hc|].
    destruct (hasKubeRegistry args); cbn; rewrite <- ?app_assoc; cbn [app];
      (split; [done|]); (split; [done|]); (split; [done|]); (split; [done|]);
      (split; [done|]); (split; [done|]); (split; [done|]); (split; [done|]);
      (split; [done|]); (split; [done|]); (split; [done|]); (split; [by split|done]).
Qed.

(** ** Service registries *)

Lemma registriesOf_names r y :
  y ∈ Name <$> registriesOf r ->
  y <> "ServiceEntries"
  /\ r = (if bool_decide (y = "mockAdapter1") || bool_decide (y = "mockAdapter2")
          then MockRegistry else y).
Proof.
  unfold registriesOf.
  destruct (decide (r = MockRegistry)) as [->|Hmock].
  { rewrite bool_decide_eq_true_2 by done. cbn.
    intros Hin. repeat (apply elem_of_cons in Hin as [->|Hin]; [by split|]).
    by apply elem_of_nil in Hin. }
  rewrite (bool_decide_eq_false_2 _ Hmock).
  destruct (decide (r = KubernetesRegistry)) as [->|Hkube].
  { rewrite bool_decide_eq_true_2 by done. cbn.
    intros Hin. repeat (apply elem_of_cons in Hin as [->|Hin]; [by split|]).
    by apply elem_of_nil in Hin. }
  rewrite (bool_decide_eq_false_2 _ Hkube).
  destruct (decide (r = ConsulRegistry)) as [->|Hconsul].
  { rewrite bool_decide_eq_true_2 by done. cbn.
    intros Hin. repeat (apply elem_of_cons in Hin as [->|Hin]; [by split|]).
    by apply elem_of_nil in Hin. }
  rewrite (bool_decide_eq_false_2 _ Hconsul). cbn. by intros Hin%elem_of_nil.
Qed.

Lemma registriesOf_NoDup r : NoDup (Name <$> registriesOf r).
Proof.
  unfold registriesOf.
  repeat case_bool_decide; apply (bool_decide_unpack _); by vm_compute.
Qed.

Lemma fmap_bind_names (fresh : list string) :
  Name <$> (fresh ≫= registriesOf) = fresh ≫= (fun r => Name <$> registriesOf r).
Proof.
  induction fresh as [|r fresh IH]; [done|].
  cbn [mbind list_bind]. by rewrite fmap_app, IH.
Qed.

Lemma registry_names_NoDup (fresh : list string) :
  NoDup fresh ->
  NoDup (Name <$> ((fresh ≫= registriesOf) ++ [serviceEntries])).
Proof.
  intros Hnd. rewrite fmap_app, fmap_bind_names. apply NoDup_app. split; [|split].
  - apply NoDup_bind; [|intros; apply registriesOf_NoDup|done].
    intros x1 x2 y _ _ H1 H2.
    apply registriesOf_names in H1 as [_ ->]. by apply registriesOf_names in H2 as [_ ->].
  - intros y Hin. apply list_elem_of_bind in Hin as (r & Hy & _).
    apply registriesOf_names in Hy as [Hne _]. cbn.
    intros Hse. apply list_elem_of_singleton in Hse. done.
  - cbn. apply NoDup_singleton.
Qed.

Lemma addRegistries_skips_listed w args (before : list string) r after :
  forall registered ctrls s,
  r ∈ before \/ r ∈ registered ->
  (addRegistries w args (before ++ r :: after) registered ctrls s).2
  = (addRegistries w args (before ++ after) registered ctrls s).2.
Proof.
  induction before as [|r0 before IH]; intros registered ctrls s Hin.
  - destruct Hin as [Hin|Hin]; [by apply elem_of_nil in Hin|].
    cbn [app addRegistries]. rewrite (bool_decide_eq_true_2 _ Hin). run_init.
    by destruct (addRegistries w args after registered ctrls s).
  - cbn [app addRegistries]. case_bool_decide as Hdup.
    + run_init. unfold prepend. cbn [snd]. apply IH.
      destruct Hin as [Hin|Hin]; [|by right].
      apply elem_of_cons in Hin as [->|Hin]; [by right|by left].
    + run_init. unfold prepend. cbn [snd].
      assert (forall added s1,
        (addRegistries w args (before ++ r :: after) (r0 :: registered) added s1).2
        = (addRegistries w args (before ++ after) (r0 :: registered) added s1).2) as Hrest.
      { intros added s1. apply IH. destruct Hin as [Hin|Hin].
        - apply elem_of_cons in Hin as [->|Hin]; [right; by left|by left].
        - right. by right. }
      unfold mbind at 1 3, Init_bind.
      match goal with |- context [match ?m s with _ => _ end] =>
        destruct (m s) as [t1 [[added s1]|e| |what]] end; try done.
      unfold prepend. cbn [snd]. apply Hrest.
Qed.

(** X12.  When [initServiceControllers] ends well, the registries of the
    service controller have pairwise distinct names, the last of them is
    [ServiceEntries], every registry name of the arguments is a supported
    one, the cluster registry controller is made exactly when [Kubernetes]
    is listed, and one start function is registered.  A name that is listed
    again is skipped: the outcome is that of the list without the
    repetition. *)
Theorem service_registries_are_distinct (w : World) (args : PilotArgs) (s : Server) :
  (forall t s',
     initServiceControllers w args s = (t, Ok (tt, s')) ->
     exists registries,
       ServiceController s' = Some registries
       /\ NoDup (Name <$> registries)
       /\ last registries = Some {| Name := "ServiceEntries"; ClusterID := "" |}
       /\ (forall r, r ∈ Registries (Service args) -> supportedRegistry r = true)
       /\ (hasKubeRegistry args = true ->
           kubeRegistry s' = Some {| networkLookup := None; hasXDSUpdater := false |})
       /\ (hasKubeRegistry args = false -> kubeRegistry s' = kubeRegistry s)
       /\ startFuncs s' = startFuncs s ++ [StartServiceControllers])
  /\ (forall before r after,
        r ∈ before ->
        (addRegistries w args (before ++ r :: after) [] [] s).2
        = (addRegistries w args (before ++ after) [] [] s).2).
Proof.
  split.
  - intros t s' H.
    apply initServiceControllers_ok_inv in H as (fresh & Hnd & Hiff & Hsup & ->).
    exists ((fresh ≫= registriesOf) ++ [serviceEntries]).
    split; [by destruct s|]. split; [by apply registry_names_NoDup|].
    split; [by rewrite last_snoc|]. split.
    { intros r Hr. apply Hiff in Hr. eapply Forall_forall in Hsup; [exact Hsup|done]. }
    split; [intros ->; by destruct s|]. split; [intros ->; by destruct s|].
    by destruct s.
  - intros before r after Hin. apply addRegistries_skips_listed. by left.
Qed.

(** [Mock] listed twice, with [Kubernetes] and [MCP]. *)
Lemma service_registries_are_distinct_witness :
  let args := exampleArgs "" ["Mock"; "Kubernetes"; "Mock"; "MCP"]%string in
  exists t s' registries,
    initServiceControllers exampleWorld args emptyServer = (t, Ok (tt, s'))
    /\ ServiceController s' = Some registries
    /\ Name <$> registries
       = ["mockAdapter1"; "mockAdapter2"; "Kubernetes"; "ServiceEntries"]%string
    /\ NoDup (Name <$> registries).
Proof.
  intros args.
  destruct (initServiceControllers exampleWorld args emptyServer)
    as [t [[[] s']|e| |what]] eqn:Hrun; try (vm_compute in Hrun; discriminate).
  destruct (proj1 (service_registries_are_distinct exampleWorld args emptyServer) t s' Hrun)
    as (registries & Hsc & Hnd & _).
  exists t, s', registries. split; [done|]. split; [exact Hsc|]. split; [|exact Hnd].
  vm_compute in Hrun. injection Hrun as _ <-. cbn in Hsc. by injection Hsc as <-.
Defined.

(** X4.  [GetMeshConfig] without a cluster client answers the default mesh
    and no config map.  With a client it answers a config map only together
    with the mesh parsed from the key [mesh] of that map; the default mesh
    only when the map is not found; and an error when the lookup fails
    otherwise, when the map has no key [mesh], or when the value does not
    parse. *)
Theorem mesh_config_from_config_map (w : World) (kube : option KubeClient)
    (namespace name : string) :
  let got := GetMeshConfig w kube namespace name in
  (kube = None -> got = inr (None, DefaultMeshConfig w))
  /\ (forall data m,
        got = inr (Some data, m) ->
        exists k cfgYaml,
          kube = Some k
          /\ ConfigMapsGet w k namespace name = ConfigMapFound data
          /\ data !! ConfigMapKey = Some cfgYaml
          /\ ApplyMeshConfigDefaults w cfgYaml = inr m)
  /\ (forall m,
        got = inr (None, m) ->
        m = DefaultMeshConfig w
        /\ (kube = None
            \/ exists k, kube = Some k
                         /\ ConfigMapsGet w k namespace name = ConfigMapNotFound))
  /\ (forall e,
        got = inl e ->
        exists k,
          kube = Some k
          /\ (ConfigMapsGet w k namespace name = ConfigMapError e
              \/ exists data,
                   ConfigMapsGet w k namespace name = ConfigMapFound data
                   /\ ((data !! ConfigMapKey = None
                        /\ e = "missing configuration map key " +:+ quoted "mesh")
                       \/ exists cfgYaml,
                            data !! ConfigMapKey = Some cfgYaml
                            /\ ApplyMeshConfigDefaults w cfgYaml = inl e))).
Proof.
  intros got. subst got. unfold GetMeshConfig.
  destruct kube as [k|].
  2:{ split; [done|]. split; [done|]. split; [|done].
      intros m [= <-]. split; [done|by left]. }
  split; [done|].
  destruct (ConfigMapsGet w k namespace name) as [|e0|data0] eqn:Hget.
  - split; [done|]. split; [|done]. intros m [= <-]. split; [done|]. right. by exists k.
  - split; [done|]. split; [done|]. intros e [= <-]. exists k. split; [done|]. by left.
  - destruct (data0 !! ConfigMapKey) as [cfgYaml|] eqn:Hkey.
    + destruct (ApplyMeshConfigDefaults w cfgYaml) as [e0|m0] eqn:Happly.
      * split; [done|]. split; [done|]. intros e [= <-]. exists k. split; [done|].
        right. exists data0. split; [done|]. right. by exists cfgYaml.
      * split; [|done]. intros data m [= <- <-]. by exists k, cfgYaml.
    + split; [done|]. split; [done|]. intros e [= <-]. exists k. split; [done|].
      right. exists data0. split; [done|]. by left.
Qed.

(** Without a client the default mesh is returned. *)
Lemma mesh_config_from_config_map_witness :
  GetMeshConfig exampleWorld None "istio-system" "istio"
  = inr (None, DefaultMeshConfig exampleWorld).
Proof.
  exact (proj1 (mesh_config_from_config_map exampleWorld None "istio-system" "istio")
           eq_refl).
Defined.

(** X5.  [initMesh] takes the mesh of the arguments when there is one, and
    then reads no file and registers no watcher.  Otherwise a mesh file that
    is named and readable gives the mesh, as it is: the mixer address of the
    arguments is not applied to it, and the config map is not consulted; its
    watcher is registered.  With no file named the mesh is that of
    [GetMeshConfig], with the mixer address of the arguments put in when one
    is given, and no watcher is registered; an error of [GetMeshConfig] is
    returned. *)
Theorem mesh_source_precedence (w : World) (args : PilotArgs) (s : Server) :
  let file := ConfigFile (Mesh args) in
  let described :=
    [Log Info "mesh configuration %s"; Log Info "version %s"; Log Info "flags %s"] in
  (forall m,
     argsMeshConfig args = Some m ->
     initMesh w args s = ([], Ok (tt, set_mesh (Some m) s)))
  /\ (forall m,
        argsMeshConfig args = None ->
        file <> "" ->
        ReadMeshConfig w file = inr m ->
        initMesh w args s =
          (described, Ok (tt, set_mesh (Some m) (addFileWatcher file (ReloadMesh file) s))))
  /\ (forall data m,
        argsMeshConfig args = None ->
        file = "" ->
        GetMeshConfig w (kubeClient s) (IstioNamespace w) (IstioConfigMap w) = inr (data, m) ->
        initMesh w args s =
          (described,
           Ok (tt, set_mesh
                     (Some (if bool_decide (MixerAddress (Mesh args) <> "")
                            then overrideMixer (MixerAddress (Mesh args)) m else m)) s)))
  /\ (forall err,
        argsMeshConfig args = None ->
        file = "" ->
        GetMeshConfig w (kubeClient s) (IstioNamespace w) (IstioConfigMap w) = inl err ->
        initMesh w args s =
          ([Log Warn "failed to read the default mesh configuration: %v, from the %s config map in the %s namespace"],
           Err err)).
Proof.
  intros file described. subst file described. split.
  { intros m Hm. by apply initMesh_given. }
  split.
  { intros m Hnone Hfile Hread. unfold initMesh. rewrite Hnone.
    rewrite (bool_decide_eq_true_2 (ConfigFile (Mesh args) ≠ "")) by done.
    rewrite Hread. by run_init. }
  split.
  { intros data m Hnone Hfile Hget. unfold initMesh. rewrite Hnone.
    rewrite (bool_decide_eq_false_2 (ConfigFile (Mesh args) ≠ "")) by (by intros []).
    run_init. rewrite Hget. by run_init. }
  intros err Hnone Hfile Hget. unfold initMesh. rewrite Hnone.
  rewrite (bool_decide_eq_false_2 (ConfigFile (Mesh args) ≠ "")) by (by intros []).
  run_init. rewrite Hget. by run_init.
Qed.

(** The mesh file of the example is read and watched. *)
Lemma mesh_source_precedence_witness :
  let args := exampleArgs "/etc/istio/mesh.yaml" [] in
  argsMeshConfig args = None
  /\ ConfigFile (Mesh args) <> ""
  /\ ReadMeshConfig initialWorld (ConfigFile (Mesh args)) = inr meshBefore
  /\ (initMesh initialWorld args emptyServer).2
     = Ok (tt, set_mesh (Some meshBefore)
                 (addFileWatcher "/etc/istio/mesh.yaml" (ReloadMesh "/etc/istio/mesh.yaml")
                    emptyServer)).
Proof.
  intros args.
  assert (argsMeshConfig args = None) as Hnone by reflexivity.
  assert (ConfigFile (Mesh args) <> "") as Hfile by discriminate.
  assert (ReadMeshConfig initialWorld (ConfigFile (Mesh args)) = inr meshBefore) as Hread
    by reflexivity.
  split; [exact Hnone|]. split; [exact Hfile|]. split; [exact Hread|].
  by rewrite (proj1 (proj2 (mesh_source_precedence initialWorld args emptyServer))
                meshBefore Hnone Hfile Hread).
Defined.

(** X6.  [initMeshNetworks] never returns an error.  With no file named,
    or with a file that cannot be read, it leaves the server as it is: in
    particular no watcher is registered for a file that could not be read at
    start-up.  With a readable file it stores the networks after host
    resolution and registers the watcher of the file. *)
Theorem mesh_networks_step_never_fails (w : World) (args : PilotArgs) (s : Server) :
  let file := NetworksConfigFile args in
  exists t s',
    initMeshNetworks w args s = (t, Ok (tt, s'))
    /\ (file = "" -> s' = s)
    /\ (forall e, ReadMeshNetworksConfig w file = inl e -> s' = s)
    /\ (forall read,
          file <> "" ->
          ReadMeshNetworksConfig w file = inr read ->
          s' = addFileWatcher file (ReloadMeshNetworks file)
                 (set_meshNetworks (Some (ResolveHostsInNetworksConfig w read)) s)
          /\ meshNetworks s' = Some (ResolveHostsInNetworksConfig w read)
          /\ fileWatcher s' = fileWatcher s ++ [(file, ReloadMeshNetworks file)]).
Proof.
  intros file. subst file. destruct (initMeshNetworks_ok w args s) as [t Hrun].
  eexists t, _. split; [exact Hrun|]. split.
  { intros Hfile. by rewrite (bool_decide_eq_true_2 _ Hfile). }
  split.
  { intros e Hread. rewrite Hread. by case_bool_decide. }
  intros read Hfile Hread. rewrite (bool_decide_eq_false_2 _ Hfile), Hread.
  split; [done|]. by destruct s.
Qed.

(** X9.  When [initConfigController] ends well, the store of the server
    is chosen in this order: with config sources in the mesh, the aggregate
    of their stores; else the controller of the arguments; else a memory
    store fed from [FileDir]; else the store of the cluster's custom
    resources.  With the cluster registry and an ingress mode other than OFF
    the ingress controller is put beside it.  The Istio config store is made
    from that same store.  The start function of the config controller is
    registered once, after those of the store, and the one of the ingress
    status syncer follows exactly when the syncer could be made: a syncer
    that cannot be made is no error. *)
Theorem config_store_precedence (w : World) (args : PilotArgs) (s : Server)
    (t : list Effect) (s' : Server) :
  initConfigController w args s = (t, Ok (tt, s')) ->
  exists m base : _,
    mesh s = Some m
    /\ configController s' =
         Some (if withIngress args m
               then AggregateCache [base; IngressController] else base)
    /\ istioConfigStore s' = configController s'
    /\ (ConfigSources m <> [] ->
        base = AggregateCache (omap (storeOf w) (ConfigSources m)))
    /\ (ConfigSources m = [] ->
        base = match Controller (Config args) with
               | Some c => ExternalController c
               | None =>
                   if bool_decide (FileDir (Config args) <> "")
                   then MemoryController (FileDir (Config args))
                   else KubeController (KubeConfig (Config args))
               end)
    /\ (exists before after,
          startFuncs s' = startFuncs s ++ before ++ [StartConfigController] ++ after
          /\ (StartConfigController ∉ before)
          /\ (after = [] \/ after = [StartIngressSyncer])
          /\ (after = [StartIngressSyncer] <->
              withIngress args m = true /\ NewStatusSyncer w = None)).
Proof.
  intros H. apply initConfigController_ok_inv in H as (m & Hmesh & ->).
  exists m, (baseController w args m).1. split; [done|]. cbv zeta.
  split; [by destruct s|]. split; [by destruct s|]. split.
  { intros Hsrc. unfold baseController.
    rewrite bool_decide_eq_true_2; [done|].
    destruct (ConfigSources m); [done|simpl; lia]. }
  split.
  { intros Hsrc. unfold baseController. rewrite Hsrc.
    rewrite bool_decide_eq_false_2 by (simpl; lia).
    destruct (Controller (Config args)); [done|]. by case_bool_decide. }
  exists (baseController w args m).2,
         (if withIngress args m
          then match NewStatusSyncer w with Some _ => [] | None => [StartIngressSyncer] end
          else []).
  split; [by destruct s|]. split.
  { unfold baseController. case_bool_decide.
    - cbn [snd]. intros Hin. apply elem_of_app in Hin as [Hin|Hin].
      + apply list_elem_of_omap in Hin as (c & _ & Hc). by destruct c.
      + apply list_elem_of_singleton in Hin. done.
    - destruct (Controller (Config args)); cbn [snd]; [by intros Hin%elem_of_nil|].
      case_bool_decide; cbn [snd].
      + intros Hin. apply list_elem_of_singleton in Hin. done.
      + by intros Hin%elem_of_nil. }
  destruct (withIngress args m), (NewStatusSyncer w); split; try (by left); try (by right);
    split; try done; try (by intros [? ?]).
Qed.

(** The example arguments bring their own controller. *)
Lemma config_store_precedence_witness :
  let s := serverAfterSteps 3 in
  let args := withDefaults initialWorld (exampleArgs "/etc/istio/mesh.yaml" []) in
  exists t s',
    initConfigController initialWorld args s = (t, Ok (tt, s'))
    /\ configController s' = Some (ExternalController 0)
    /\ istioConfigStore s' = Some (ExternalController 0).
Proof.
  intros s args.
  assert (initConfigController initialWorld args s
          = ([], Ok (tt, serverAfterSteps 4))) as Hrun by (vm_compute; reflexivity).
  exists [], (serverAfterSteps 4). split; [exact Hrun|].
  destruct (config_store_precedence initialWorld args s [] _ Hrun)
    as (m & base & Hm & Hcc & Hstore & _ & Hbase & _).
  assert (mesh s = Some meshBefore) as Hs by (vm_compute; reflexivity).
  rewrite Hs in Hm. injection Hm as <-.
  rewrite Hstore, Hcc, (Hbase eq_refl). split; reflexivity.
Defined.

Lemma length_omap_le {A B : Type} (f : A -> option B) (l : list A) :
  (length (omap f l) <= length l)%nat.
Proof.
  induction l as [|x l IH]; [done|]. cbn [omap list_omap].
  destruct (f x); cbn [length]; [|apply Nat.le_le_succ_r]; lia.
Qed.

(** X10.  When [initMCPConfigController] ends well, the aggregate holds the
    stores of the config sources in the order of the sources: a memory store
    for a [fs://] source with a path, an MCP store for a source it connected
    to, and none for a source whose TLS mode is invalid, which is skipped.
    A file monitor is registered for every memory store, then one start
    function for the MCP clients, one client per MCP store. *)
Theorem mcp_stores_follow_sources (w : World) (args : PilotArgs) (s : Server)
    (t : list Effect) (s' : Server) :
  initMCPConfigController w args s = (t, Ok (tt, s')) ->
  exists m stores,
    mesh s = Some m
    /\ stores = omap (storeOf w) (ConfigSources m)
    /\ configController s' = Some (AggregateCache stores)
    /\ startFuncs s' =
         startFuncs s ++ omap monitorOf stores ++ [StartMCPClients (omap clientOf stores)]
    /\ (length stores <= length (ConfigSources m))%nat
    /\ Forall (fun c => (exists dir, c = MemoryController dir)
                        \/ (exists address, c = MCPController address)) stores
    /\ (forall src,
          contains (Address src) (fsScheme +:+ "://") = false ->
          storeOf w src =
            match TlsSettings src with
            | Some {| Mode := TLS_unknown _ |} => None
            | _ => Some (MCPController (Address src))
            end)
    /\ (forall src srcAddress,
          contains (Address src) (fsScheme +:+ "://") = true ->
          urlParse w (Address src) = inr srcAddress ->
          Scheme srcAddress = fsScheme ->
          Path srcAddress <> "" ->
          storeOf w src = Some (MemoryController (Path srcAddress))).
Proof.
  intros H. apply initMCPConfigController_ok_inv in H as (m & Hmesh & _ & ->).
  exists m, (omap (storeOf w) (ConfigSources m)).
  split; [done|]. split; [done|]. split; [by destruct s|]. split; [by destruct s|].
  split; [apply length_omap_le|]. split.
  { apply Forall_forall. intros c Hc.
    apply list_elem_of_omap in Hc as (src & _ & Hc). unfold storeOf, remoteStore in Hc.
    destruct (contains (Address src) (fsScheme +:+ "://")).
    - destruct (urlParse w (Address src)) as [err|u]; [done|].
      case_bool_decide.
      + case_bool_decide; [done|]. injection Hc as <-. left. by eexists.
      + destruct (securityOption w src); try done; injection Hc as <-; right; by eexists.
    - destruct (securityOption w src); try done; injection Hc as <-; right; by eexists. }
  split.
  { intros src Hfs. unfold storeOf, remoteStore, securityOption. rewrite Hfs.
    destruct (TlsSettings src) as [[[| | | |n] ? ? ? ?]|]; done. }
  intros src srcAddress Hfs Hparse Hscheme Hpath. unfold storeOf. rewrite Hfs, Hparse.
  by rewrite (bool_decide_eq_true_2 _ Hscheme), (bool_decide_eq_false_2 _ Hpath).
Qed.

(** One MCP source: one store, one client. *)
Lemma mcp_stores_follow_sources_witness :
  let s := set_mesh (Some meshAfter) emptyServer in
  let args := exampleArgs "/etc/istio/mesh.yaml" [] in
  exists t s',
    initMCPConfigController exampleWorld args s = (t, Ok (tt, s'))
    /\ configController s' = Some (AggregateCache [MCPController "mcp.example:9901"])
    /\ startFuncs s' = [StartMCPClients ["mcp.example:9901"%string]].
Proof.
  intros s args.
  destruct (initMCPConfigController exampleWorld args s) as [t [[[] s']|e| |what]] eqn:Hrun;
    try (vm_compute in Hrun; discriminate).
  exists t, s'. split; [done|].
  destruct (mcp_stores_follow_sources exampleWorld args s t s' Hrun)
    as (m & stores & Hm & -> & Hcc & Hfns & _).
  injection Hm as <-. split; [exact Hcc|exact Hfns].
Defined.

Lemma waitForFiles_cons w f rest seen s n :
  (f ∉ seen -> statMisses w f = Some n) ->
  waitForFiles w (f :: rest) seen s =
    prepend (replicate (if bool_decide (f ∈ seen) then 0 else n) notFound ++ [found])
            (waitForFiles w rest (f :: seen) s).
Proof.
  intros Hn. cbn [waitForFiles]. unfold notFound, found. case_bool_decide as Hseen.
  - by run_init.
  - rewrite (Hn Hseen). rewrite run_logTimes. by run_init.
Qed.

Lemma waitForFiles_never_appears w present f later :
  forall seen s,
  Forall (fun g => g ∈ seen \/ statMisses w g <> None) present ->
  f ∉ seen -> f ∉ present -> statMisses w f = None ->
  exists looks : list nat,
    length looks = length present
    /\ waitForFiles w (present ++ f :: later) seen s =
         ((looks ≫= (fun n => replicate n notFound ++ [found])) ++ [notFound], Hang).
Proof.
  induction present as [|g present IH]; intros seen s Hall Hseen Hpresent Hnone.
  - exists []. split; [done|]. cbn [app waitForFiles].
    rewrite (bool_decide_eq_false_2 _ Hseen), Hnone. by run_init.
  - apply Forall_cons in Hall as [Hg Hall].
    apply not_elem_of_cons in Hpresent as [Hfg Hpresent].
    assert (exists n, g ∉ seen -> statMisses w g = Some n) as [n Hn].
    { destruct Hg as [Hg|Hg].
      - exists 0%nat. by intros [].
      - destruct (statMisses w g) as [n|]; [by exists n|done]. }
    destruct (IH (g :: seen) s) as (looks & Hlen & Hrun); [|by apply not_elem_of_cons|done|done|].
    { eapply Forall_impl; [exact Hall|]. intros g' [Hg'|Hg']; [left; by right|by right]. }
    exists ((if bool_decide (g ∈ seen) then 0%nat else n) :: looks).
    split; [cbn [length]; by rewrite Hlen|].
    change ((g :: present) ++ f :: later) with (g :: present ++ f :: later).
    rewrite (waitForFiles_cons w g _ seen s n Hn), Hrun.
    unfold prepend. cbn [fst snd mbind list_bind]. by rewrite <- !app_assoc.
Qed.



(** X13.  When [initDiscoveryService] ends well, the discovery server
    exists, its environment holds the mesh and the networks of the server
    and it has received no push; the HTTP and gRPC listeners are bound and
    their addresses stored; the cluster registry, if there is one, was given
    the networks; and the start functions of the discovery server and of the
    listeners are registered in this order.  The secure server, its address
    and its start function are there exactly when a secure address is
    given. *)
Theorem discovery_service_is_wired (w : World) (args : PilotArgs) (s : Server)
    (t : list Effect) (s' : Server) :
  initDiscoveryService w args s = (t, Ok (tt, s')) ->
  exists listener grpcListener secure,
    ListenHTTP w = inr listener
    /\ ListenGRPC w = inr grpcListener
    /\ EnvoyXdsServer s' =
         Some {| EnvMesh := mesh s; EnvMeshNetworks := meshNetworks s;
                 configUpdates := [] |}
    /\ mesh s' = mesh s
    /\ meshNetworks s' = meshNetworks s
    /\ HTTPListeningAddr s' = Some listener
    /\ GRPCListeningAddr s' = Some grpcListener
    /\ httpServer s' = Some (HTTPAddr (DiscoveryOptions args))
    /\ grpcServer s' = true
    /\ mux s' = true
    /\ kubeRegistry s' =
         match kubeRegistry s with
         | Some _ => Some {| networkLookup := Some (meshNetworks s); hasXDSUpdater := true |}
         | None => None
         end
    /\ startFuncs s' =
         startFuncs s
           ++ [StartXdsServer; StartDiscovery listener grpcListener (ForceStop args)]
           ++ secure
    /\ (SecureGrpcAddr (DiscoveryOptions args) = "" ->
        secure = []
        /\ SecureGRPCListeningAddr s' = SecureGRPCListeningAddr s
        /\ secureGRPCServer s' = secureGRPCServer s
        /\ secureHTTPServer s' = secureHTTPServer s)
    /\ (SecureGrpcAddr (DiscoveryOptions args) <> "" ->
        exists secureGrpcListener,
          ListenSecureGRPC w = inr secureGrpcListener
          /\ secure = [StartSecureDiscovery secureGrpcListener (ForceStop args)]
          /\ SecureGRPCListeningAddr s' = Some secureGrpcListener
          /\ secureGRPCServer s' = true
          /\ secureHTTPServer s' = true).
Proof.
  intros H. apply initDiscoveryService_ok_inv in H
    as (listener & grpcListener & _ & _ & Hhttp & Hgrpc & Hsecure & ->).
  exists listener, grpcListener, (secureStartFuncs w args).
  split; [done|]. split; [done|]. split; [by destruct s|]. split; [by destruct s|].
  split; [by destruct s|]. split; [by destruct s|]. split; [by destruct s|].
  split; [by destruct s|]. split; [by destruct s|]. split; [by destruct s|].
  split; [by destruct s|]. split; [by destruct s|]. unfold secureStartFuncs. split.
  - intros Hnone.
    rewrite !(bool_decide_eq_false_2 (SecureGrpcAddr (DiscoveryOptions args) ≠ ""))
      by (by intros []).
    by destruct s.
  - intros Hsome.
    rewrite !(bool_decide_eq_true_2 (SecureGrpcAddr (DiscoveryOptions args) ≠ "")) in *
      by done.
    destruct (Hsecure eq_refl) as (_ & _ & _ & l & Hl). exists l. rewrite Hl.
    split; [done|]. split; [done|]. by destruct s.
Qed.

(** The example server at the discovery service step. *)
Lemma discovery_service_is_wired_witness :
  let s := serverAfterSteps 5 in
  let args := withDefaults initialWorld (exampleArgs "/etc/istio/mesh.yaml" []) in
  exists t s',
    initDiscoveryService initialWorld args s = (t, Ok (tt, s'))
    /\ EnvoyXdsServer s' =
         Some {| EnvMesh := Some meshBefore; EnvMeshNetworks := None; configUpdates := [] |}
    /\ HTTPListeningAddr s' = Some "127.0.0.1:8080"%string.
Proof.
  intros s args.
  destruct (initDiscoveryService initialWorld args s) as [t [[[] s']|e| |what]] eqn:Hrun;
    try (vm_compute in Hrun; discriminate).
  exists t, s'. split; [done|].
  destruct (discovery_service_is_wired initialWorld args s t s' Hrun)
    as (listener & grpcListener & secure & Hhttp & _ & Hxds & _ & _ & Haddr & _).
  split; [exact Hxds|]. rewrite Haddr. f_equal.
  cbn in Hhttp. by injection Hhttp as <-.
Defined.

(** X14.  [initDiscoveryService] returns the error of the discovery
    service under the prefix [failed to create discovery service: ], the
    error of a listener as it is, and the first error met while loading the
    certificates of the secure server under the prefix
    [secure grpc server: ].  Without a secure address the certificates are
    not loaded and the call ends well however they are. *)
Theorem discovery_service_errors (w : World) (args : PilotArgs) (s : Server) :
  (forall e,
     NewDiscoveryService w = Some e ->
     initDiscoveryService w args s = ([], Err ("failed to create discovery service: " +:+ e)))
  /\ (forall e,
        NewDiscoveryService w = None ->
        ListenHTTP w = inl e ->
        initDiscoveryService w args s = ([], Err e))
  /\ (forall listener e,
        NewDiscoveryService w = None ->
        ListenHTTP w = inr listener ->
        ListenGRPC w = inl e ->
        initDiscoveryService w args s = ([], Err e))
  /\ (forall listener grpcListener,
        NewDiscoveryService w = None ->
        ListenHTTP w = inr listener ->
        ListenGRPC w = inr grpcListener ->
        SecureGrpcAddr (DiscoveryOptions args) <> "" ->
        (forall e,
           match NewServerTLSFromFile w, LoadX509KeyPair w, ReadCAFile w with
           | Some e', _, _ | None, Some e', _ | None, None, Some e' => e' = e
           | None, None, None => False
           end ->
           initDiscoveryService w args s = ([], Err ("secure grpc server: " +:+ e)))
        /\ (forall e,
              NewServerTLSFromFile w = None -> LoadX509KeyPair w = None ->
              ReadCAFile w = None ->
              ListenSecureGRPC w = inl e ->
              initDiscoveryService w args s = ([], Err e)))
  /\ (forall listener grpcListener,
        NewDiscoveryService w = None ->
        ListenHTTP w = inr listener ->
        ListenGRPC w = inr grpcListener ->
        SecureGrpcAddr (DiscoveryOptions args) = "" ->
        exists s', initDiscoveryService w args s = ([], Ok (tt, s'))).
Proof.
  unfold initDiscoveryService, initGrpcServer. split.
  { intros e He. rewrite run_bind_get, He. reflexivity. }
  split.
  { intros e Hd Hh. rewrite run_bind_get, Hd, Hh. destruct (kubeRegistry s); by run_init. }
  split.
  { intros listener e Hd Hh Hg. rewrite run_bind_get, Hd, Hh, Hg.
    destruct (kubeRegistry s); by run_init. }
  split.
  { intros listener grpcListener Hd Hh Hg Hsec.
    rewrite run_bind_get, Hd, Hh, Hg.
    rewrite (bool_decide_eq_true_2 _ Hsec). split.
    - intros e He. unfold initSecureGrpcServer.
      destruct (kubeRegistry s); run_init; rewrite run_bind_wrapErr;
        destruct (NewServerTLSFromFile w) as [e1|]; cbn [check]; run_init;
        try (by subst);
        destruct (LoadX509KeyPair w) as [e2|]; cbn [check]; run_init; try (by subst);
        destruct (ReadCAFile w) as [e3|]; cbn [check]; run_init; try (by subst); done.
    - intros e H1 H2 H3 Hl. unfold initSecureGrpcServer. rewrite H1, H2, H3, Hl.
      destruct (kubeRegistry s); run_init; rewrite run_bind_wrapErr; cbn [check];
        by run_init. }
  intros listener grpcListener Hd Hh Hg Hsec. rewrite run_bind_get, Hd, Hh, Hg.
  rewrite (bool_decide_eq_false_2 (SecureGrpcAddr (DiscoveryOptions args) ≠ ""))
    by (by intros []).
  destruct (kubeRegistry s); run_init; by eexists.
Qed.

(** Without a secure address the step ends well. *)
Lemma discovery_service_errors_witness :
  let w := exampleWorld in
  let args := exampleArgs "" [] in
  NewDiscoveryService w = None
  /\ ListenHTTP w = inr "127.0.0.1:8080"%string
  /\ ListenGRPC w = inr "127.0.0.1:15010"%string
  /\ SecureGrpcAddr (DiscoveryOptions args) = ""
  /\ exists s', initDiscoveryService w args emptyServer = ([], Ok (tt, s')).
Proof.
  intros w args. split; [reflexivity|]. split; [reflexivity|]. split; [reflexivity|].
  split; [reflexivity|].
  exact (proj2 (proj2 (proj2 (proj2 (discovery_service_errors w args emptyServer))))
           "127.0.0.1:8080"%string "127.0.0.1:15010"%string eq_refl eq_refl eq_refl eq_refl).
Defined.

(** X15.  The certificate controller that [initCertController] makes is
    given three lists of the same length: the secret names, the DNS names
    joined by commas and the namespaces of the certificates that have a DNS
    name and a secret name, in the order of the mesh; every namespace is the
    namespace of the arguments; no name is empty.  Its start function is
    registered, and the cluster client exists. *)
Theorem cert_controller_lists_are_parallel (w : World) (args : PilotArgs) (s : Server)
    (t : list Effect) (s' : Server) :
  initCertController w args s = (t, Ok (tt, s')) ->
  certController s = None ->
  forall controller,
    certController s' = Some controller ->
    let kept := filter (fun c => managed c = true) (certsOf s) in
    secretNames controller = SecretName <$> kept
    /\ dnsNames controller = (fun c => join (DnsNames c) ",") <$> kept
    /\ namespaces controller = replicate (length kept) (Namespace args)
    /\ length (secretNames controller) = length (dnsNames controller)
    /\ length (namespaces controller) = length (dnsNames controller)
    /\ Forall (fun name => name <> "") (secretNames controller)
    /\ Forall (fun name => name <> "") (dnsNames controller)
    /\ startFuncs s' = startFuncs s ++ [StartCertController]
    /\ kubeClient s <> None.
Proof.
  intros H Hnone controller Hctl.
  apply initCertController_ok_inv in H as [->|(_ & Hclient & _ & ->)]; [congruence|].
  assert (certController
            (set_startFuncs (startFuncs s ++ [StartCertController])
               (set_certController
                  (Some (let kept := filter (fun c => managed c = true) (certsOf s) in
                         {| secretNames := SecretName <$> kept;
                            dnsNames := (fun c => join (DnsNames c) ",") <$> kept;
                            namespaces := replicate (length kept) (Namespace args) |}))
                  s))
          = Some (let kept := filter (fun c => managed c = true) (certsOf s) in
                  {| secretNames := SecretName <$> kept;
                     dnsNames := (fun c => join (DnsNames c) ",") <$> kept;
                     namespaces := replicate (length kept) (Namespace args) |})) as Heq
    by (by destruct s).
  rewrite Heq in Hctl. injection Hctl as <-. cbv zeta.
  cbn [secretNames dnsNames namespaces].
  split; [done|]. split; [done|]. split; [done|].
  split; [by rewrite !length_fmap|]. split; [by rewrite length_replicate, length_fmap|].
  split.
  { apply Forall_fmap, Forall_forall. intros c Hc.
    apply list_elem_of_filter in Hc as [Hc _]. unfold managed in Hc.
    apply andb_true_iff in Hc as [_ Hc]. apply bool_decide_eq_true in Hc.
    cbn. intros Heq'. rewrite Heq' in Hc. simpl in Hc. lia. }
  split.
  { apply Forall_fmap, Forall_forall. intros c Hc.
    apply list_elem_of_filter in Hc as [Hc _]. unfold managed in Hc.
    apply andb_true_iff in Hc as [Hc _]. apply negb_true_iff, bool_decide_eq_false in Hc.
    cbn. intros Heq'. rewrite Heq' in Hc. by apply Hc. }
  split; [by destruct s|done].
Qed.

(** Three certificates, one of them without a DNS name. *)
Lemma cert_controller_lists_are_parallel_witness :
  let certs := [{| SecretName := "dns.citadel";
                   DnsNames := ["citadel.istio-system"; "citadel"] |};
                {| SecretName := "dns.unnamed"; DnsNames := [] |};
                {| SecretName := "dns.galley"; DnsNames := ["galley.istio-system"] |}]%string in
  let s := set_kubeClient (Some 0%nat)
             (set_mesh (Some (meshWithCertificates certs)) emptyServer) in
  let args := withDefaults exampleWorld (exampleArgs "" []) in
  exists t s' controller,
    initCertController exampleWorld args s = (t, Ok (tt, s'))
    /\ certController s = None
    /\ certController s' = Some controller
    /\ secretNames controller = ["dns.citadel"; "dns.galley"]%string
    /\ dnsNames controller = ["citadel.istio-system,citadel"; "galley.istio-system"]%string
    /\ namespaces controller = ["istio-system"; "istio-system"]%string.
Proof.
  intros certs s args.
  destruct (initCertController exampleWorld args s) as [t [[[] s']|e| |what]] eqn:Hrun;
    try (vm_compute in Hrun; discriminate).
  destruct (certController s') as [controller|] eqn:Hctl.
  2:{ vm_compute in Hrun. injection Hrun as _ <-. discriminate Hctl. }
  exists t, s', controller. split; [done|]. split; [reflexivity|]. split; [done|].
  destruct (cert_controller_lists_are_parallel exampleWorld args s t s' Hrun eq_refl
              controller Hctl) as (H1 & H2 & H3 & _).
  rewrite H1, H2, H3. repeat split.
Defined.

(** ** Failures while Pilot's own certificate is made *)

Lemma certLoop_skips w args pre rest acc s :
  Forall (fun c => forPilot c = false) pre ->
  certLoop w args (pre ++ rest) acc s =
    certLoop w args rest (collected args pre acc (pilotCertGenerated acc)) s.
Proof.
  revert acc. induction pre as [|c pre IH]; intros acc Hpre.
  - cbn [app]. f_equal. unfold collected. cbn. rewrite !app_nil_r. by destruct acc.
  - apply Forall_cons in Hpre as [Hc Hpre]. cbn [app certLoop]. cbv zeta.
    unfold forPilot in Hc. unfold collected, managed. rewrite filter_cons.
    destruct (decide (String.length (join (DnsNames c) ",") = 0%nat)) as [Hname|Hname].
    { rewrite !(bool_decide_eq_true_2 _ Hname). cbn [negb andb].
      rewrite decide_False by done. by rewrite IH. }
    rewrite !(bool_decide_eq_false_2 _ Hname) in *. cbn [negb andb] in *.
    apply negb_false_iff in Hc. rewrite Hc. rewrite decide_True by done.
    rewrite IH by done. f_equal. unfold collected. cbn. by rewrite <- !app_assoc.
Qed.

Lemma initCertController_pilot_fails w args s m pre c post tg :
  mesh s = Some m ->
  Certificates m = pre ++ c :: post ->
  Forall (fun c' => forPilot c' = false) pre ->
  forPilot c = true ->
  (forall s', generatePilotCert w s = (tg, Ok (false, s')) ->
              initCertController w args s = (tg, Ok (tt, s')))
  /\ (forall e, generatePilotCert w s = (tg, Err e) ->
                initCertController w args s = (tg, Err e))
  /\ (forall what, generatePilotCert w s = (tg, Panic what) ->
                   initCertController w args s = (tg, Panic what)).
Proof.
  intros Hmesh Hcerts Hpre Hc.
  assert (forall r,
            generatePilotCert w s = (tg, r) ->
            initCertController w args s =
              match r with
              | Ok (false, s') => (tg, Ok (tt, s'))
              | Ok (true, s') => initCertController w args s
              | Err e => (tg, Err e)
              | Hang => (tg, Hang)
              | Panic what => (tg, Panic what)
              end) as Hrun.
  { intros r Hgen. unfold initCertController at 1. rewrite run_bind_get, Hmesh, Hcerts.
    rewrite bool_decide_eq_false_2.
    2:{ rewrite length_app. simpl. lia. }
    rewrite (run_bind (certLoop _ _ _ _)).
    rewrite (certLoop_skips w args pre (c :: post) _ s Hpre).
    cbn [certLoop pilotCertGenerated collected]. cbv zeta.
    unfold forPilot in Hc. apply andb_true_iff in Hc as [Hname Hsecret].
    apply negb_true_iff in Hname, Hsecret. rewrite Hname, Hsecret. cbn [negb].
    rewrite (run_bind (generatePilotCert w)), Hgen.
    destruct r as [[[|] s']|e| |what]; try done.
    - (* generated: the loop goes on *)
      unfold initCertController. rewrite run_bind_get, Hmesh, Hcerts.
      rewrite bool_decide_eq_false_2.
      2:{ rewrite length_app. simpl. lia. }
      rewrite (run_bind (certLoop _ _ _ _)).
      rewrite (certLoop_skips w args pre (c :: post) _ s Hpre).
      cbn [certLoop pilotCertGenerated collected]. cbv zeta.
      rewrite Hname, Hsecret. cbn [negb].
      by rewrite (run_bind (generatePilotCert w)), Hgen.
    - rewrite run_ret. unfold prepend. cbn [fst snd]. rewrite run_ret. cbn [fst snd].
      by rewrite !app_nil_r. }
  split; [|split].
  - intros s' Hgen. by rewrite (Hrun _ Hgen).
  - intros e Hgen. by rewrite (Hrun _ Hgen).
  - intros what Hgen. by rewrite (Hrun _ Hgen).
Qed.

Lemma keyCertDir_ready w :
  keyCertDirExists w = true \/ MkdirAll w = None ->
  (if negb (keyCertDirExists w)
   then match MkdirAll w with
        | Some err =>
            fail ("err to create directory " +:+ DefaultDirectoryForKeyCert +:+ ": " +:+ err)
        | None => mret tt
        end
   else mret tt) = mret (M := Init) tt.
Proof. intros [->| ->]; [done|]. by destruct (keyCertDirExists w). Qed.

(** X16.  When the loop of [initCertController] comes to the first
    certificate with a DNS name and no secret name, it makes Pilot's own
    certificate.  A failure to sign it or to write one of its three files is
    logged and [initCertController] returns nil: the server is left as it
    is, without a certificate controller and without its start function.  A
    failure to create the directory is returned as an error.  Without a
    cluster client the call panics. *)
Theorem pilot_cert_failure_is_swallowed (w : World) (args : PilotArgs) (s : Server)
    (m : MeshConfig) (pre : list Certificate) (c : Certificate) (post : list Certificate) :
  mesh s = Some m ->
  Certificates m = pre ++ c :: post ->
  Forall (fun c' => forPilot c' = false) pre ->
  forPilot c = true ->
  (forall e format,
     kubeClient s <> None ->
     keyCertDirExists w = true \/ MkdirAll w = None ->
     match GenKeyCertK8sCA w, WriteFile w "cert-chain.pem", WriteFile w "root.pem",
           WriteFile w "key.pem" with
     | Some e', _, _, _ => e' = e /\ format = "err to generate key cert for %v: %v"
     | None, Some e', _, _ =>
         e' = e /\ format = "err to write %v cert-chain.pem (%v): %v"
     | None, None, Some e', _ => e' = e /\ format = "err to write %v root.pem (%v): %v"
     | None, None, None, Some e' => e' = e /\ format = "err to write %v key.pem (%v): %v"
     | None, None, None, None => False
     end%string ->
     initCertController w args s = ([Log Error format], Ok (tt, s)))
  /\ (forall e,
        keyCertDirExists w = false ->
        MkdirAll w = Some e ->
        initCertController w args s =
          ([], Err ("err to create directory /pilot/key-cert: " +:+ e)))
  /\ (kubeClient s = None ->
      keyCertDirExists w = true \/ MkdirAll w = None ->
      initCertController w args s = ([], Panic nilPointer)).
Proof.
  intros Hmesh Hcerts Hpre Hc. split; [|split].
  - intros e format Hclient Hdir Hfail.
    apply (initCertController_pilot_fails w args s m pre c post _ Hmesh Hcerts Hpre Hc).
    unfold generatePilotCert. rewrite (keyCertDir_ready w Hdir). run_init.
    destruct (kubeClient s) as [k|]; [|done].
    destruct (GenKeyCertK8sCA w) as [e0|]; run_init.
    { by destruct Hfail as [_ ->]. }
    destruct (WriteFile w "cert-chain.pem") as [e1|]; run_init.
    { by destruct Hfail as [_ ->]. }
    destruct (WriteFile w "root.pem") as [e2|]; run_init.
    { by destruct Hfail as [_ ->]. }
    destruct (WriteFile w "key.pem") as [e3|]; run_init; [|done].
    by destruct Hfail as [_ ->].
  - intros e Hdir Hmk.
    apply (initCertController_pilot_fails w args s m pre c post _ Hmesh Hcerts Hpre Hc).
    unfold generatePilotCert. rewrite Hdir, Hmk. cbn [negb]. by run_init.
  - intros Hclient Hdir.
    apply (initCertController_pilot_fails w args s m pre c post _ Hmesh Hcerts Hpre Hc).
    unfold generatePilotCert. rewrite (keyCertDir_ready w Hdir). run_init.
    by rewrite Hclient.
Qed.

(** ** Without a cluster client *)

(** The signing request for Pilot's certificate is denied. *)
Lemma pilot_cert_failure_is_swallowed_witness :
  let w := exampleWorldWith (inl "no networks file") (fun n => n) (Some "csr denied") in
  let c := {| SecretName := ""; DnsNames := ["istio-pilot.istio-system"]%string |} in
  let m := meshWithCertificates [c] in
  let s := set_kubeClient (Some 0%nat) (set_mesh (Some m) emptyServer) in
  mesh s = Some m
  /\ Certificates m = [] ++ c :: []
  /\ Forall (fun c' => forPilot c' = false) []
  /\ forPilot c = true
  /\ initCertController w (exampleArgs "" []) s
     = ([Log Error "err to generate key cert for %v: %v"], Ok (tt, s)).
Proof.
  intros w c m s.
  assert (Forall (fun c' => forPilot c' = false) []) as Hpre by constructor.
  split; [reflexivity|]. split; [reflexivity|]. split; [exact Hpre|].
  split; [reflexivity|].
  apply (proj1 (pilot_cert_failure_is_swallowed w (exampleArgs "" []) s m [] c []
                  eq_refl eq_refl Hpre eq_refl) "csr denied"%string).
  - discriminate.
  - by left.
  - by split.
Defined.

(** X17.  With certificates in the mesh and no cluster client,
    [initCertController] never returns nil: it panics on the nil client, or
    returns the error of the directory it could not create. *)
Theorem cert_controller_needs_cluster_client (w : World) (args : PilotArgs) (s : Server)
    (m : MeshConfig) :
  mesh s = Some m ->
  Certificates m <> [] ->
  kubeClient s = None ->
  exists t r,
    initCertController w args s = (t, r)
    /\ (r = Panic nilPointer \/ exists e, r = Err e)
    /\ (keyCertDirExists w = true \/ MkdirAll w = None -> r = Panic nilPointer).
Proof.
  intros Hmesh Hcerts Hclient. unfold initCertController.
  rewrite run_bind_get, Hmesh.
  rewrite bool_decide_eq_false_2 by (by destruct (Certificates m)).
  rewrite run_bind.
  assert (forall certs acc,
            exists t r,
              certLoop w args certs acc s = (t, r)
              /\ ((exists acc', r = Ok (Some acc', s))
                  \/ r = Panic nilPointer \/ exists e, r = Err e)
              /\ (keyCertDirExists w = true \/ MkdirAll w = None ->
                  (exists acc', r = Ok (Some acc', s)) \/ r = Panic nilPointer)) as Hloop.
  { induction certs as [|c rest IH]; intros acc.
    - cbn [certLoop]. rewrite run_ret. eexists _, _. split; [reflexivity|].
      split; [left; by eexists|]. intros _. left. by eexists.
    - cbn [certLoop]. cbv zeta. case_bool_decide; [apply IH|].
      case_bool_decide; [apply IH|].
      destruct (pilotCertGenerated acc); cbn [negb]; [apply IH|].
      rewrite run_bind. unfold generatePilotCert.
      destruct (keyCertDirExists w) eqn:Hdir; cbn [negb].
      + run_init. rewrite Hclient. eexists _, _. split; [reflexivity|].
        split; [right; by left|]. intros _. by right.
      + destruct (MkdirAll w) as [e|] eqn:Hmk; run_init.
        * eexists _, _. split; [reflexivity|]. split; [right; right; by eexists|].
          intros [?|?]; congruence.
        * rewrite Hclient. eexists _, _. split; [reflexivity|].
          split; [right; by left|]. intros _. by right. }
  destruct (Hloop (Certificates m)
              {| loopSecretNames := []; loopDnsNames := []; loopNamespaces := [];
                 pilotCertGenerated := false |}) as (t & r & -> & Hr & Hdir).
  destruct Hr as [[acc' ->]|[->|[e ->]]].
  - rewrite Hclient. eexists _, _. split; [reflexivity|]. split; [by left|done].
  - eexists _, _. split; [reflexivity|]. split; [by left|done].
  - eexists _, _. split; [reflexivity|]. split; [right; by eexists|].
    intros Hok. destruct (Hdir Hok) as [[acc' ?]|?]; congruence.
Qed.

(** One certificate and no cluster client. *)
Lemma cert_controller_needs_cluster_client_witness :
  let m := meshWithCertificates
             [{| SecretName := "dns.galley"; DnsNames := ["galley.istio-system"] |}]%string in
  let s := set_mesh (Some m) emptyServer in
  mesh s = Some m
  /\ Certificates m <> []
  /\ kubeClient s = None
  /\ (initCertController exampleWorld (exampleArgs "" []) s).2 = Panic nilPointer.
Proof.
  intros m s. split; [reflexivity|]. split; [discriminate|]. split; [reflexivity|].
  destruct (cert_controller_needs_cluster_client exampleWorld (exampleArgs "" []) s m
              eq_refl ltac:(discriminate) eq_refl) as (t & r & Hrun & _ & Hpanic).
  rewrite Hrun. cbn [snd]. apply Hpanic. by left.
Defined.

(** X18.  The defaults of [NewServer]: an empty namespace is replaced by
    the pod namespace; keepalive options that are not given are replaced by
    the default options, so that they are never missing afterwards; an empty
    namespace for the cluster registries is replaced by the namespace, after
    its own default, or, when that is empty too, by the system namespace, so
    that it is never empty when the system namespace is not.  Values that
    are given are kept, and so is every other field of the arguments and of
    their [Config]; filling in the defaults again changes nothing. *)
Theorem defaults_fill_namespaces (w : World) (args : PilotArgs) :
  let args' := withDefaults w args in
  ((Namespace args <> "" -> Namespace args' = Namespace args)
   /\ (Namespace args = "" -> Namespace args' = podNamespace w))
  /\ ((forall options, KeepaliveOptions args = Some options ->
                       KeepaliveOptions args' = Some options)
      /\ (KeepaliveOptions args = None ->
          KeepaliveOptions args' = Some (DefaultOption w))
      /\ KeepaliveOptions args' <> None)
  /\ ((ClusterRegistriesNamespace (Config args) <> "" ->
       ClusterRegistriesNamespace (Config args') = ClusterRegistriesNamespace (Config args))
      /\ (ClusterRegistriesNamespace (Config args) = "" ->
          ClusterRegistriesNamespace (Config args') =
            if bool_decide (Namespace args' <> "") then Namespace args'
            else IstioSystemNamespace w)
      /\ (IstioSystemNamespace w <> "" -> ClusterRegistriesNamespace (Config args') <> ""))
  /\ withDefaults w args' = args'
  /\ (DiscoveryOptions args' = DiscoveryOptions args
      /\ Mesh args' = Mesh args
      /\ Service args' = Service args
      /\ argsMeshConfig args' = argsMeshConfig args
      /\ NetworksConfigFile args' = NetworksConfigFile args
      /\ CtrlZOptions args' = CtrlZOptions args
      /\ Plugins args' = Plugins args
      /\ MCPMaxMessageSize args' = MCPMaxMessageSize args
      /\ MCPInitialWindowSize args' = MCPInitialWindowSize args
      /\ MCPInitialConnWindowSize args' = MCPInitialConnWindowSize args
      /\ ForceStop args' = ForceStop args)
  /\ (KubeConfig (Config args') = KubeConfig (Config args)
      /\ ControllerOptions (Config args') = ControllerOptions (Config args)
      /\ FileDir (Config args') = FileDir (Config args)
      /\ DisableInstallCRDs (Config args') = DisableInstallCRDs (Config args)
      /\ Controller (Config args') = Controller (Config args)).
Proof.
  intros args'. subst args'. unfold withDefaults.
  cbn [Namespace Config ClusterRegistriesNamespace Service Mesh DiscoveryOptions
       argsMeshConfig NetworksConfigFile KubeConfig ControllerOptions FileDir
       DisableInstallCRDs Controller CtrlZOptions Plugins MCPMaxMessageSize
       MCPInitialWindowSize MCPInitialConnWindowSize KeepaliveOptions ForceStop].
  split.
  { split; intros H; [by rewrite (bool_decide_eq_false_2 _ H)
                     |by rewrite (bool_decide_eq_true_2 _ H)]. }
  split.
  { split; [by intros options ->|]. split; [by intros ->|].
    by destruct (KeepaliveOptions args). }
  split.
  { split; [intros H; by rewrite (bool_decide_eq_false_2 _ H)|].
    split; [intros H; by rewrite (bool_decide_eq_true_2 _ H)|].
    intros Hsys. repeat case_bool_decide; congruence. }
  split; [|done].
  assert (match match KeepaliveOptions args with
                | Some options => Some options
                | None => Some (DefaultOption w)
                end with
          | Some options => Some options
          | None => Some (DefaultOption w)
          end
          = match KeepaliveOptions args with
            | Some options => Some options
            | None => Some (DefaultOption w)
            end) as -> by (by destruct (KeepaliveOptions args)).
  destruct (decide (Namespace args = "")) as [Hns|Hns];
    destruct (decide (ClusterRegistriesNamespace (Config args) = "")) as [Hcr|Hcr];
    rewrite ?(bool_decide_eq_true_2 _ Hns), ?(bool_decide_eq_false_2 _ Hns),
      ?(bool_decide_eq_true_2 _ Hcr), ?(bool_decide_eq_false_2 _ Hcr).
  - destruct (decide (podNamespace w = "")) as [Hpod|Hpod].
    + rewrite !(bool_decide_eq_true_2 _ Hpod).
      rewrite !(bool_decide_eq_false_2 (podNamespace w ≠ "")) by (by intros []).
      by repeat case_bool_decide.
    + rewrite !(bool_decide_eq_false_2 _ Hpod).
      rewrite !(bool_decide_eq_true_2 (podNamespace w ≠ "")) by done.
      by rewrite !(bool_decide_eq_false_2 _ Hpod).
  - repeat case_bool_decide; congruence.
  - rewrite !(bool_decide_eq_true_2 (Namespace args ≠ "")) by done.
    by rewrite !(bool_decide_eq_false_2 _ Hns).
  - done.
Qed.

(** The example arguments give no namespace and no keepalive options. *)
Lemma defaults_fill_namespaces_witness :
  let args := exampleArgs "" [] in
  Namespace args = ""
  /\ KeepaliveOptions args = None
  /\ ClusterRegistriesNamespace (Config args) = ""
  /\ Namespace (withDefaults exampleWorld args) = "istio-system"
  /\ KeepaliveOptions (withDefaults exampleWorld args) = Some (DefaultOption exampleWorld)
  /\ ClusterRegistriesNamespace (Config (withDefaults exampleWorld args)) = "istio-system".
Proof.
  intros args. split; [reflexivity|]. split; [reflexivity|]. split; [reflexivity|].
  destruct (defaults_fill_namespaces exampleWorld args)
    as ((_ & Hns) & (_ & Hka & _) & (_ & Hcr & _) & _).
  split; [exact (Hns eq_refl)|]. split; [exact (Hka eq_refl)|].
  rewrite (Hcr eq_refl). reflexivity.
Defined.

(** X19.  A server that [NewServer] returns has a mesh, a discovery server
    whose environment holds that mesh and the networks of the server, a
    config controller and the Istio config store made from it, a service
    controller whose registries have distinct names and end with
    [ServiceEntries], and the addresses of the bound HTTP and gRPC
    listeners; the monitoring address is not known before [Start]. *)
Theorem constructed_server_is_wired (w : World) (args : PilotArgs)
    (t : list Effect) (s : Server) :
  NewServer w args = (t, Ok s) ->
  exists m xds store registries listener grpcListener,
    mesh s = Some m
    /\ EnvoyXdsServer s = Some xds
    /\ EnvMesh xds = Some m
    /\ EnvMeshNetworks xds = meshNetworks s
    /\ configController s = Some store
    /\ istioConfigStore s = Some store
    /\ ServiceController s = Some registries
    /\ NoDup (Name <$> registries)
    /\ last registries = Some {| Name := "ServiceEntries"; ClusterID := "" |}
    /\ ListenHTTP w = inr listener
    /\ HTTPListeningAddr s = Some listener
    /\ ListenGRPC w = inr grpcListener
    /\ GRPCListeningAddr s = Some grpcListener
    /\ MonitorListeningAddr s = None.
Proof.
  intros H. apply NewServer_fields in H.
  destruct H as (m & listener & grpcListener & fresh & certFns & Hmesh & Hhttp & Hgrpc
                 & Hnd & _ & _ & _ & _ & Hcc & Hstore & Hsc & _ & Hxds & _ & _
                 & Hha & Hga & Hma & _).
  exists m, {| EnvMesh := Some m; EnvMeshNetworks := meshNetworks s; configUpdates := [] |},
         (finalController w (withDefaults w args) m),
         ((fresh ≫= registriesOf) ++ [serviceEntries]), listener, grpcListener.
  split; [done|]. split; [done|]. split; [done|]. split; [done|].
  split; [done|]. split; [done|]. split; [done|].
  split; [by apply registry_names_NoDup|]. split; [by rewrite last_snoc|]. done.
Qed.

(** The example server. *)
Lemma constructed_server_is_wired_witness :
  exists t s,
    NewServer initialWorld (exampleArgs "/etc/istio/mesh.yaml" []) = (t, Ok s)
    /\ mesh s = Some meshBefore
    /\ exists xds,
         EnvoyXdsServer s = Some xds
         /\ EnvMesh xds = Some meshBefore
         /\ EnvMeshNetworks xds = None.
Proof.
  destruct (NewServer initialWorld (exampleArgs "/etc/istio/mesh.yaml" []))
    as [t [s|e| |what]] eqn:Hrun; try (vm_compute in Hrun; discriminate).
  exists t, s. split; [done|].
  destruct (constructed_server_is_wired _ _ t s Hrun)
    as (m & xds & store & registries & listener & grpcListener
        & Hmesh & Hxds & Henv & Hnet & _).
  assert (mesh s = Some meshBefore) as Hm.
  { vm_compute in Hrun. injection Hrun as _ <-. reflexivity. }
  assert (meshNetworks s = None) as Hn.
  { vm_compute in Hrun. injection Hrun as _ <-. reflexivity. }
  split; [exact Hm|]. exists xds. split; [exact Hxds|].
  rewrite Henv, Hnet, Hn. rewrite Hm in Hmesh. by injection Hmesh as <-.
Defined.

(** X20.  In a server that [NewServer] returns, the cluster client exists
    exactly when the registry [Kubernetes] is listed and no [FileDir] is
    given; the cluster registry controller and the multicluster controller
    exist exactly when [Kubernetes] is listed, and both were given the
    networks of the server. *)
Theorem cluster_parts_follow_registry (w : World) (args : PilotArgs)
    (t : list Effect) (s : Server) :
  NewServer w args = (t, Ok s) ->
  (is_Some (kubeClient s) <-> hasKubeRegistry args = true /\ FileDir (Config args) = "")
  /\ kubeRegistry s =
       (if hasKubeRegistry args
        then Some {| networkLookup := Some (meshNetworks s); hasXDSUpdater := true |}
        else None)
  /\ multicluster s =
       (if hasKubeRegistry args
        then Some {| multiclusterNetworks := meshNetworks s |} else None)
  /\ (hasKubeRegistry args = true <-> "Kubernetes"%string ∈ Registries (Service args)).
Proof.
  intros H. apply NewServer_fields in H.
  destruct H as (m & listener & grpcListener & fresh & certFns & _ & _ & _
                 & _ & _ & _ & Hclient & _ & _ & _ & _ & Hkr & _ & Hmc & _).
  split; [done|]. split; [done|]. split; [done|]. apply hasKubeRegistry_elem.
Qed.

(** X21.  The start functions of a server that [NewServer] returns are, in
    this order: those of the config stores, the config controller, the
    ingress status syncer if there is one, the service controllers, the
    discovery server, the HTTP and gRPC listeners, the secure listener
    exactly when a secure address is given, the monitor, and the
    certificate controller exactly when there is one. *)
Theorem start_functions_follow_init_order (w : World) (args : PilotArgs)
    (t : list Effect) (s : Server) :
  NewServer w args = (t, Ok s) ->
  exists stores ingress listener grpcListener secure cert,
    startFuncs s =
      stores ++ [StartConfigController] ++ ingress
        ++ [StartServiceControllers; StartXdsServer;
            StartDiscovery listener grpcListener (ForceStop args)]
        ++ secure
        ++ [StartMonitor (MonitoringAddr (DiscoveryOptions args))]
        ++ cert
    /\ Forall (fun fn => (exists dir, fn = StartFileMonitor dir)
                         \/ (exists clients, fn = StartMCPClients clients)) stores
    /\ (ingress = [] \/ ingress = [StartIngressSyncer])
    /\ (secure = [] \/ exists addr, secure = [StartSecureDiscovery addr (ForceStop args)])
    /\ (secure = [] <-> SecureGrpcAddr (DiscoveryOptions args) = "")
    /\ (cert = [] \/ cert = [StartCertController])
    /\ (cert = [StartCertController] <-> is_Some (certController s)).
Proof.
  intros H. pose proof H as Hsteps. apply NewServer_fields in H.
  destruct H as (m & listener & grpcListener & fresh & certFns & _ & _ & _
                 & _ & _ & Hcert & _ & _ & _ & _ & _ & _ & _ & _ & Hfns & _ & _ & _ & Hcc
                 & _).
  exists (baseController w (withDefaults w args) m).2,
         (ingressStartFuncs w (withDefaults w args) m), listener, grpcListener,
         (secureStartFuncs w (withDefaults w args)), certFns.
  split; [exact Hfns|]. split.
  { unfold baseController. case_bool_decide.
    - cbn [snd]. apply Forall_app. split.
      + apply Forall_forall. intros fn Hin.
        apply list_elem_of_omap in Hin as (c & _ & Hc). destruct c; try done.
        injection Hc as <-. left. by eexists.
      + constructor; [|constructor]. right. by eexists.
    - destruct (Controller (Config (withDefaults w args))); cbn [snd]; [constructor|].
      case_bool_decide; cbn [snd]; [|constructor].
      constructor; [|constructor]. left. by eexists. }
  split.
  { unfold ingressStartFuncs. destruct (withIngress _ m); [|by left].
    destruct (NewStatusSyncer w); [by left|by right]. }
  apply NewServer_steps in Hsteps.
  destruct Hsteps as (t1 & s1 & t2 & s2 & t3 & s3 & t4 & s4 & t5 & s5 & t6 & s6 & t7 & s7
                      & t8 & s8 & t9 & _ & _ & _ & _ & _ & H6 & _).
  apply initDiscoveryService_ok_inv in H6
    as (_ & _ & _ & _ & _ & _ & Hsecure & _).
  change (DiscoveryOptions (withDefaults w args)) with (DiscoveryOptions args) in *.
  change (ForceStop (withDefaults w args)) with (ForceStop args) in *.
  unfold secureStartFuncs.
  change (DiscoveryOptions (withDefaults w args)) with (DiscoveryOptions args).
  change (ForceStop (withDefaults w args)) with (ForceStop args).
  destruct (decide (SecureGrpcAddr (DiscoveryOptions args) = "")) as [Hsec|Hsec].
  - rewrite (bool_decide_eq_false_2 (SecureGrpcAddr (DiscoveryOptions args) ≠ ""))
      by (by intros []).
    split; [by left|]. split; [by split|]. split; [exact Hcert|]. symmetry. exact Hcc.
  - rewrite (bool_decide_eq_true_2 _ Hsec) in *.
    destruct (Hsecure eq_refl) as (_ & _ & _ & l & Hl). rewrite Hl.
    split; [right; by exists l|]. split; [by split|]. split; [exact Hcert|].
    symmetry. exact Hcc.
Qed.


(** The example server with the registry [Kubernetes]. *)
Lemma cluster_parts_follow_registry_witness :
  let args := exampleArgs "/etc/istio/mesh.yaml" ["Kubernetes"]%string in
  exists t s,
    NewServer initialWorld args = (t, Ok s)
    /\ is_Some (kubeClient s)
    /\ kubeRegistry s = Some {| networkLookup := Some None; hasXDSUpdater := true |}
    /\ multicluster s = Some {| multiclusterNetworks := None |}.
Proof.
  intros args.
  destruct (NewServer initialWorld args) as [t [s|e| |what]] eqn:Hrun;
    try (vm_compute in Hrun; discriminate).
  exists t, s. split; [done|].
  destruct (cluster_parts_follow_registry initialWorld args t s Hrun)
    as (Hclient & Hkr & Hmc & _).
  assert (meshNetworks s = None) as Hn.
  { vm_compute in Hrun. injection Hrun as _ <-. reflexivity. }
  split; [by apply Hclient|]. rewrite Hkr, Hmc, Hn. by split.
Defined.

(** The example server has five start functions. *)
Lemma start_functions_follow_init_order_witness :
  let args := exampleArgs "/etc/istio/mesh.yaml" [] in
  exists t s,
    NewServer initialWorld args = (t, Ok s)
    /\ startFuncs s =
         [StartConfigController; StartServiceControllers; StartXdsServer;
          StartDiscovery "127.0.0.1:8080" "127.0.0.1:15010" false;
          StartMonitor ":15014"].
Proof.
  intros args.
  destruct (NewServer initialWorld args) as [t [s|e| |what]] eqn:Hrun;
    try (vm_compute in Hrun; discriminate).
  exists t, s. split; [done|].
  destruct (start_functions_follow_init_order initialWorld args t s Hrun)
    as (stores & ingress & listener & grpcListener & secure & cert & Hfns & _).
  vm_compute in Hrun. injection Hrun as _ <-. reflexivity.
Defined.


(** X8.  In a server that [NewServer] returns, the environment of the
    discovery server holds the mesh and the networks of the server, and the
    cluster registry and the multicluster controller were given the same
    networks.  The mesh callback and the networks callback keep this: after
    either of them the three hold what the server holds. *)
Theorem reloads_keep_holders_in_sync (w : World) (file : string) (s : Server) :
  (forall args t,
     NewServer w args = (t, Ok s) -> inSync s /\ is_Some (mesh s) /\ is_Some (EnvoyXdsServer s))
  /\ (forall t s',
        inSync s ->
        reloadMesh w file s = (t, Ok (tt, s')) ->
        inSync s'
        /\ meshNetworks s' = meshNetworks s
        /\ (is_Some (mesh s) -> is_Some (mesh s'))
        /\ (is_Some (EnvoyXdsServer s) -> is_Some (EnvoyXdsServer s')))
  /\ (forall t s',
        inSync s ->
        reloadMeshNetworks w file s = (t, Ok (tt, s')) ->
        inSync s'
        /\ mesh s' = mesh s
        /\ (is_Some (EnvoyXdsServer s) -> is_Some (EnvoyXdsServer s'))).
Proof.
  split; [|split].
  - intros args t H. apply NewServer_fields in H.
    destruct H as (m & listener & grpcListener & fresh & certFns & Hmesh & _ & _
                   & _ & _ & _ & _ & _ & _ & _ & _ & Hkr & Hxds & Hmc & _).
    split; [|rewrite Hmesh, Hxds; split; by eexists]. split; [|split].
    + intros xds. rewrite Hxds, Hmesh. by intros [= <-].
    + intros registry. rewrite Hkr. destruct (hasKubeRegistry args); [|done].
      by intros [= <-].
    + intros mc. rewrite Hmc. destruct (hasKubeRegistry args); [|done]. by intros [= <-].
  - intros t s' Hsync H. pose proof Hsync as (Hxds & Hkr & Hmc). unfold reloadMesh in H.
    destruct (ReadMeshConfig w file) as [e|new].
    { rewrite run_logf in H. injection H as _ <-. by split. }
    rewrite run_bind_get in H.
    destruct (DeepEqual (Some new) (mesh s)); cbn [negb] in H.
    { rewrite run_ret in H. injection H as _ <-. by split. }
    rewrite run_bind_logf in H. apply prepend_ok_inv in H as (t1 & H & _).
    destruct (mesh s) as [cur|] eqn:Hcur; [|done].
    apply bind_ok_inv in H as (t2 & [] & s2 & t3 & Hk & H & _).
    assert (s2 = s) as ->.
    { destruct (negb _) in Hk.
      - rewrite run_logf in Hk. by injection Hk as _ <-.
      - rewrite run_ret in Hk. by injection Hk as _ <-. }
    rewrite run_bind_modify in H.
    assert (exists xds',
              s' = set_EnvoyXdsServer xds' (set_mesh (Some new) s)
              /\ match xds' with
                 | Some x => EnvMesh x = Some new /\ EnvMeshNetworks x = meshNetworks s
                             /\ is_Some (EnvoyXdsServer s)
                 | None => EnvoyXdsServer s = None
                 end) as (xds' & -> & Hx').
    { destruct (EnvoyXdsServer s) as [xds|] eqn:Hx.
      - rewrite run_modify in H. injection H as _ <-. eexists. split; [done|].
        cbn. destruct (Hxds xds eq_refl) as [_ Hn]. by rewrite Hn.
      - rewrite run_ret in H. injection H as _ <-. exists None.
        split; [|done]. destruct s; cbn in *. by subst. }
    assert (mesh (set_EnvoyXdsServer xds' (set_mesh (Some new) s)) = Some new) as Hm'
      by (by destruct s).
    assert (meshNetworks (set_EnvoyXdsServer xds' (set_mesh (Some new) s))
            = meshNetworks s) as Hn' by (by destruct s).
    assert (kubeRegistry (set_EnvoyXdsServer xds' (set_mesh (Some new) s))
            = kubeRegistry s) as Hk' by (by destruct s).
    assert (multicluster (set_EnvoyXdsServer xds' (set_mesh (Some new) s))
            = multicluster s) as Hc' by (by destruct s).
    assert (EnvoyXdsServer (set_EnvoyXdsServer xds' (set_mesh (Some new) s)) = xds') as He'
      by (by destruct s).
    split; [|split; [done|split]].
    + split; [|split].
      * intros x. rewrite He', Hm', Hn'. intros ->. by destruct Hx' as (? & ? & _).
      * intros registry. rewrite Hk', Hn'. apply Hkr.
      * intros mc. rewrite Hc', Hn'. apply Hmc.
    + intros _. rewrite Hm'. by eexists.
    + rewrite He'. intros [x Hsome]. destruct xds' as [x'|]; [by eexists|congruence].
  - intros t s' Hsync H. pose proof Hsync as (Hxds & Hkr & Hmc).
    unfold reloadMeshNetworks in H.
    destruct (ReadMeshNetworksConfig w file) as [e|read].
    { rewrite run_logf in H. injection H as _ <-. by split. }
    rewrite run_bind_get in H.
    destruct (DeepEqual (Some read) (meshNetworks s)); cbn [negb] in H.
    { rewrite run_ret in H. injection H as _ <-. by split. }
    run_init_in H. apply prepend_ok_inv in H as (t1 & H & _).
    set (resolved := ResolveHostsInNetworksConfig w read) in *.
    assert (exists kr' mc' xds',
              s' = set_EnvoyXdsServer xds'
                     (set_multicluster mc'
                        (set_kubeRegistry kr' (set_meshNetworks (Some resolved) s)))
              /\ (forall r, kr' = Some r -> networkLookup r = Some (Some resolved))
              /\ (forall c, mc' = Some c -> multiclusterNetworks c = Some resolved)
              /\ (forall x, xds' = Some x ->
                     EnvMesh x = mesh s /\ EnvMeshNetworks x = Some resolved)
              /\ (is_Some (EnvoyXdsServer s) -> is_Some xds')) as
      (kr' & mc' & xds' & -> & Hkr' & Hmc' & Hxds' & Hsome).
    { destruct s as [? ? ? ? xds ? ? ? ? ? ? mc ? ? ? ? ? ? kr ? ?].
      cbn [kubeRegistry multicluster EnvoyXdsServer mesh] in *.
      destruct kr as [kr|], mc as [mc|], xds as [xds|]; run_init_in H;
        injection H as _ <-; eexists _, _, _; (split; [reflexivity|]);
        (split; [intros ? [= <-]; done || done|]);
        (split; [intros ? [= <-]; done || done|]);
        (split; [try (intros ? [= <-]; cbn; split; [by apply (Hxds _ eq_refl)|done]);
                 try done|]);
        try (intros _; by eexists); try done. }
    split; [|split].
    + split; [|split].
      * intros x Hx. assert (xds' = Some x) as Heq by (by destruct s).
        destruct (Hxds' x Heq) as [-> ->]. by destruct s.
      * intros r Hr. assert (kr' = Some r) as Heq by (by destruct s).
        rewrite (Hkr' r Heq). by destruct s.
      * intros c Hc. assert (mc' = Some c) as Heq by (by destruct s).
        rewrite (Hmc' c Heq). by destruct s.
    + by destruct s.
    + intros Hx. apply Hsome in Hx. by destruct s.
Qed.

(** X7.  The networks callback compares what it reads from the file with
    what the server holds, and the server holds the networks after host
    resolution.  So, once the content of the file was loaded, an event for
    the unchanged file is a no-op only when resolution leaves that content
    as it is; when resolution changes it, every such event installs the
    (same) resolved networks again and requests another full push. *)
Theorem unchanged_networks_file_may_push_again (w : World) (file : string) (s : Server)
    (read : MeshNetworks) :
  ReadMeshNetworksConfig w file = inr read ->
  let resolved := ResolveHostsInNetworksConfig w read in
  meshNetworks s = Some resolved ->
  (resolved = read -> reloadMeshNetworks w file s = ([], Ok (tt, s)))
  /\ (resolved <> read ->
      exists s',
        reloadMeshNetworks w file s =
          ([Log Info "mesh networks configuration file updated to: %s";
            Log Info "mesh networks configuration post-resolution %s"], Ok (tt, s'))
        /\ meshNetworks s' = Some resolved
        /\ pushesOf s' = pushesOf s ++ (if hasDiscoveryServer s then [fullPush] else [])).
Proof.
  intros Hread resolved Hstored. split.
  - intros Hsame. apply (reloadMeshNetworks_unchanged w file s read Hread).
    by rewrite Hstored, Hsame.
  - intros Hne.
    destruct (reloadMeshNetworks_changed w file s read Hread) as (s' & Hrun & Hn & _ & Hp).
    { rewrite Hstored. congruence. }
    by exists s'.
Qed.

(** A gateway given by name and resolved to an address: the unchanged
    file is installed and pushed again. *)
Lemma unchanged_networks_file_may_push_again_witness :
  let read := [("network1", ["gateway.example.com"])]%string in
  let resolved := [("network1", ["10.0.0.1"])]%string in
  let w := exampleWorldWith (inr read) (fun _ => resolved) None in
  let s := set_meshNetworks (Some resolved) (exampleServer true) in
  ReadMeshNetworksConfig w "/etc/istio/networks.yaml" = inr read
  /\ meshNetworks s = Some (ResolveHostsInNetworksConfig w read)
  /\ ResolveHostsInNetworksConfig w read <> read
  /\ exists t s',
       reloadMeshNetworks w "/etc/istio/networks.yaml" s = (t, Ok (tt, s'))
       /\ meshNetworks s' = meshNetworks s
       /\ pushesOf s' = [fullPush].
Proof.
  intros read resolved w s.
  assert (ResolveHostsInNetworksConfig w read <> read) as Hne by discriminate.
  split; [reflexivity|]. split; [reflexivity|]. split; [exact Hne|].
  destruct (proj2 (unchanged_networks_file_may_push_again w "/etc/istio/networks.yaml"
                     s read eq_refl eq_refl) Hne) as (s' & Hrun & Hn & Hp).
  eexists _, s'. split; [exact Hrun|]. split; [exact Hn|]. rewrite Hp. reflexivity.
Defined.

(** ** The debounced watcher: no event is lost *)

Lemma watch_deadline_fires timerFirst events deadline :
  deadline ∈ watch timerFirst events (Some deadline).
Proof.
  induction events as [|now rest IH]; cbn [watch onFileEvent]; [by left|].
  destruct ((deadline <? now) || ((deadline =? now) && timerFirst now)); [by left|done].
Qed.

Lemma watch_armed_covers timerFirst events :
  forall deadline,
  StronglySorted Z.le events ->
  Forall (fun e => deadline <= e + debounceDelay) events ->
  (forall e, e ∈ events ->
     exists c, c ∈ watch timerFirst events (Some deadline) /\ e <= c <= e + debounceDelay)
  /\ (forall c, c ∈ watch timerFirst events (Some deadline) ->
        c = deadline \/ exists e, e ∈ events /\ c = e + debounceDelay)
  /\ (length (watch timerFirst events (Some deadline)) <= S (length events))%nat.
Proof.
  induction events as [|now rest IH]; intros deadline Hsorted Hbound.
  { cbn [watch]. split; [by intros e Hin%elem_of_nil|]. split; [|simpl; lia].
    intros c Hc. left. by apply list_elem_of_singleton in Hc. }
  apply StronglySorted_inv in Hsorted as [Hsorted Hnow].
  apply Forall_cons in Hbound as [Hb Hbound].
  assert (0 <= debounceDelay) as Hdelay by (unfold debounceDelay; lia).
  cbn [watch onFileEvent].
  destruct ((deadline <? now) || ((deadline =? now) && timerFirst now)) eqn:Hfire.
  - destruct (IH (now + debounceDelay) Hsorted) as (Hcov & Hfrom & Hlen).
    { eapply Forall_impl; [exact Hnow|]. intros e He. simpl in He. lia. }
    split; [|split].
    + intros e Hin. apply elem_of_cons in Hin as [->|Hin].
      * exists (now + debounceDelay). split; [|lia]. right. apply watch_deadline_fires.
      * destruct (Hcov e Hin) as (c & Hc & Hrange). exists c. split; [by right|done].
    + intros c Hc. apply elem_of_cons in Hc as [->|Hc]; [by left|].
      apply Hfrom in Hc as [->|(e & He & ->)].
      * right. exists now. split; [by left|done].
      * right. exists e. split; [by right|done].
    + cbn [length]. by apply le_n_S.
  - apply orb_false_iff in Hfire as [Hlt _]. apply Z.ltb_ge in Hlt.
    destruct (IH deadline Hsorted) as (Hcov & Hfrom & Hlen).
    { eapply Forall_impl; [exact Hnow|]. intros e He. simpl in He. lia. }
    split; [|split].
    + intros e Hin. apply elem_of_cons in Hin as [->|Hin].
      * exists deadline. split; [apply watch_deadline_fires|lia].
      * by apply Hcov.
    + intros c Hc. apply Hfrom in Hc as [->|(e & He & ->)]; [by left|].
      right. exists e. split; [by right|done].
    + cbn [length]. etrans; [exact Hlen|lia].
Qed.

(** X23.  The goroutine of a watched file loses no event: for events that
    arrive in order, every event is followed by a call of the callback
    within 100 ms.  Every call comes 100 ms after some event, there are no
    more calls than events, and none without an event. *)
Theorem watcher_loses_no_event (timerFirst : Time -> bool) (events : list Time) :
  StronglySorted Z.le events ->
  let called := watch timerFirst events None in
  (forall e, e ∈ events -> exists c, c ∈ called /\ e <= c <= e + debounceDelay)
  /\ (forall c, c ∈ called -> exists e, e ∈ events /\ c = e + debounceDelay)
  /\ (length called <= length events)%nat
  /\ (events = [] -> called = []).
Proof.
  intros Hsorted called. subst called. destruct events as [|first rest].
  { cbn [watch]. split; [by intros e Hin%elem_of_nil|].
    split; [by intros c Hin%elem_of_nil|]. by split. }
  apply StronglySorted_inv in Hsorted as [Hsorted Hfirst].
  cbn [watch onFileEvent].
  destruct (watch_armed_covers timerFirst rest (first + debounceDelay) Hsorted)
    as (Hcov & Hfrom & Hlen).
  { eapply Forall_impl; [exact Hfirst|]. intros e He. simpl in He. lia. }
  assert (0 <= debounceDelay) as Hdelay by (unfold debounceDelay; lia).
  split; [|split; [|split; [exact Hlen|done]]].
  - intros e Hin. apply elem_of_cons in Hin as [->|Hin]; [|by apply Hcov].
    exists (first + debounceDelay). split; [apply watch_deadline_fires|lia].
  - intros c Hc. apply Hfrom in Hc as [->|(e & He & ->)].
    + exists first. split; [by left|done].
    + exists e. split; [by right|done].
Qed.

(** Events at 0, 60 and 120 ms: the last one is answered at 220 ms. *)
Lemma watcher_loses_no_event_witness :
  let events := [0; 60000000; 120000000] in
  StronglySorted Z.le events
  /\ watch (fun _ => true) events None = [100000000; 220000000]
  /\ exists c, c ∈ watch (fun _ => true) events None /\ 120000000 <= c <= 120000000 + debounceDelay.
Proof.
  intros events.
  assert (StronglySorted Z.le events) as Hsorted.
  { repeat constructor; lia. }
  split; [exact Hsorted|]. split; [reflexivity|].
  apply (proj1 (watcher_loses_no_event (fun _ => true) events Hsorted)).
  right. right. by left.
Defined.

End bootstrap_init.
